(** * terraform.py: the argument builder, the command assemblers and the
      apply-stream aggregator of the Terraform wrapper

    The development embeds [src/terraform-py_nerdtronik/terraform.py]:
    [TERRAFORM_ARGS], [Terraform._build_arg], [Terraform._default_args],
    [Terraform._global_args], [Terraform._parse_vars], the version query
    and the constructor, the setters, the two apply callbacks and the
    commands [init], [get], [plan], [apply], [destroy], [show], [login],
    [logout], [fmt], [validate] and [output].

    Conventions of the embedding.
    - A Python [str] is a [string] whose characters are the code points
      U+0000..U+00FF; [int] is [Z]; [float] is not interpreted (a duration
      is carried opaquely, and a JSON number with a fraction or an exponent
      has no image: the decoder answers [OutsideEmbedding] there, as it
      does for an escape above U+00FF).
    - A Python function that can raise returns a [result]; the commands,
      which also write to the log, return a [run].
    - [run_command] (module [utils], not part of the file) is a parameter
      of the commands: the answer of the environment to one call; so are
      [cmd_to_array] and the duration of an error built without one, for
      the version query. *)

From Stdlib Require Import ZArith NArith Ascii String List Decimal DecimalN Lia.
From stdpp Require Import base option list strings gmap.

Open Scope string_scope.
Open Scope list_scope.
Open Scope Z_scope.

(** ** Characters that cannot be written inside a literal *)

Definition dquote : ascii := "034"%char.
Definition backslash : ascii := "092"%char.
Definition apostrophe : ascii := "039"%char.
Definition LF : ascii := "010"%char.
Definition CR : ascii := "013"%char.
Definition TAB : ascii := "009"%char.
Definition BS : ascii := "008"%char.
Definition FF : ascii := "012"%char.

Definition str1 (c : ascii) : string := String c "".

(** [q] writes a text that holds double quotes: every apostrophe of the
    literal stands for a double quote, so [q "{'a':1}"] is the JSON text
    of an object with the key a. *)
Fixpoint q (s : string) : string :=
  match s with
  | "" => ""
  | String c r => String (if Ascii.eqb c apostrophe then dquote else c) (q r)
  end.

Definition code (c : ascii) : N := N_of_ascii c.

(** ** Python values *)

(** The hashable values: what can be a key of a [dict]. *)
Inductive scalar :=
| SNone
| SBool (b : bool)
| SInt (z : Z)
| SStr (s : string).

Unset Elimination Schemes.
Inductive pyval :=
| Atom (a : scalar)
| PList (l : list pyval)
| PTuple (l : list pyval)
| PDict (d : list (scalar * pyval)).
Set Elimination Schemes.

Abbreviation PNone := (Atom SNone).
Abbreviation PBool b := (Atom (SBool b)).
Abbreviation PInt z := (Atom (SInt z)).
Abbreviation PStr s := (Atom (SStr s)).

(** A [dict] keeps its entries in insertion order. *)
Definition pydict := list (scalar * pyval).

(** A float that the code only passes along, by its [repr]. *)
Inductive pyfloat := Float (repr : string).

Definition float_str (f : pyfloat) : string := let 'Float r := f in r.

(** The induction principle that reaches under the nested lists. *)
Fixpoint pyval_rect' (P : pyval → Type) (Q : list pyval → Type)
    (R : pydict → Type)
    (Hatom : ∀ a, P (Atom a))
    (Hlist : ∀ l, Q l → P (PList l))
    (Htuple : ∀ l, Q l → P (PTuple l))
    (Hdict : ∀ d, R d → P (PDict d))
    (Hnil : Q [])
    (Hcons : ∀ v l, P v → Q l → Q (v :: l))
    (Hdnil : R [])
    (Hdcons : ∀ k v d, P v → R d → R ((k, v) :: d))
    (v : pyval) {struct v} : P v :=
  let go := pyval_rect' P Q R Hatom Hlist Htuple Hdict Hnil Hcons Hdnil Hdcons in
  match v with
  | Atom a => Hatom a
  | PList l =>
      Hlist l ((fix items (l : list pyval) : Q l :=
                  match l with
                  | [] => Hnil
                  | x :: l' => Hcons x l' (go x) (items l')
                  end) l)
  | PTuple l =>
      Htuple l ((fix items (l : list pyval) : Q l :=
                   match l with
                   | [] => Hnil
                   | x :: l' => Hcons x l' (go x) (items l')
                   end) l)
  | PDict d =>
      Hdict d ((fix entries (d : pydict) : R d :=
                  match d with
                  | [] => Hdnil
                  | (k, x) :: d' => Hdcons k x d' (go x) (entries d')
                  end) d)
  end.

(** ** Exceptions, results and the log *)

Inductive operation :=
| OpVersion | OpInit | OpGet | OpPlan | OpApply | OpDestroy
| OpFmt | OpValidate | OpOutput | OpLogin | OpLogout.

(** What a [Terraform*Error] is built from. *)
Record failure := Failure {
  f_message : string;
  f_command : string;
  f_stderr : string;
  f_duration : pyfloat
}.

Inductive exn :=
| KeyError (key : scalar)
| TypeError
| IndexError
| AttributeError
| JSONDecodeError
| RecursionError
| TerraformError (op : operation) (info : failure)
| OutsideEmbedding.

Inductive result (A : Type) :=
| Ok (a : A)
| Raise (e : exn).
Arguments Ok {A} a.
Arguments Raise {A} e.

#[global] Instance result_ret : MRet result := λ A a, Ok a.
#[global] Instance result_bind : MBind result := λ A B f m,
  match m with
  | Ok a => f a
  | Raise e => Raise e
  end.

Definition raises {A} (m : result A) : bool :=
  match m with
  | Ok _ => false
  | Raise _ => true
  end.

(** Python's [==] on hashable values: [True == 1] and [False == 0]. *)
Definition scalar_eqb (a b : scalar) : bool :=
  match a, b with
  | SNone, SNone => true
  | SStr s, SStr t => String.eqb s t
  | SBool x, SBool y => Bool.eqb x y
  | SInt x, SInt y => x =? y
  | SBool x, SInt y | SInt y, SBool x => (if x then 1 else 0) =? y
  | _, _ => false
  end.

(** [d[k]], [k in d] and [d[k] = v] on an insertion-ordered [dict]. *)
Fixpoint dict_get (k : scalar) (d : pydict) : option pyval :=
  match d with
  | [] => None
  | (k', v) :: d' => if scalar_eqb k' k then Some v else dict_get k d'
  end.

Definition dict_mem (k : scalar) (d : pydict) : bool :=
  match dict_get k d with
  | Some _ => true
  | None => false
  end.

Fixpoint dict_set (k : scalar) (v : pyval) (d : pydict) : pydict :=
  match d with
  | [] => [(k, v)]
  | (k', v') :: d' =>
      if scalar_eqb k' k then (k', v) :: d' else (k', v') :: dict_set k v d'
  end.

(** ** Text *)

(** [str(n)] for a non-negative [int], through the decimal digits. *)
Fixpoint string_of_uint (d : uint) : string :=
  match d with
  | Nil => ""
  | D0 d => String "0" (string_of_uint d)
  | D1 d => String "1" (string_of_uint d)
  | D2 d => String "2" (string_of_uint d)
  | D3 d => String "3" (string_of_uint d)
  | D4 d => String "4" (string_of_uint d)
  | D5 d => String "5" (string_of_uint d)
  | D6 d => String "6" (string_of_uint d)
  | D7 d => String "7" (string_of_uint d)
  | D8 d => String "8" (string_of_uint d)
  | D9 d => String "9" (string_of_uint d)
  end.

Definition str_N (n : N) : string := string_of_uint (N.to_uint n).

Definition str_int (z : Z) : string :=
  match z with
  | Z0 => "0"
  | Zpos p => str_N (Npos p)
  | Zneg p => "-" +:+ str_N (Npos p)
  end.

(** [str(x)] on a hashable value. *)
Definition py_str (a : scalar) : string :=
  match a with
  | SNone => "None"
  | SBool true => "True"
  | SBool false => "False"
  | SInt z => str_int z
  | SStr s => s
  end.

(** [sep.join(l)]. *)
Fixpoint join (sep : string) (l : list string) : string :=
  match l with
  | [] => ""
  | [x] => x
  | x :: l' => x +:+ sep +:+ join sep l'
  end.

(** [s[-1]]: the last character, [None] on the empty string. *)
Fixpoint last_char (s : string) : option ascii :=
  match s with
  | "" => None
  | String c "" => Some c
  | String _ r => last_char r
  end.

(** [TERRAFORM_ARGS]: the option table. *)
Definition TERRAFORM_ARGS : gmap string string :=
  list_to_map [
    ("color", "-no-color");
    ("lock", "-lock=");
    ("lock_timeout", "-lock-timeout=");
    ("input", "-input=");
    ("upgrade", "-upgrade");
    ("from_module", "-from-module=");
    ("reconfigure", "-reconfigure");
    ("migrate_state", "-migrate-state");
    ("force_copy", "-force-copy");
    ("backend", "-backend=");
    ("backend_config", "-backend-config=");
    ("get", "-get=");
    ("get_plugins", "-get-plugins=");
    ("plugin_dir", "-plugin-dir=");
    ("lockfile", "-lockfile=");
    ("readonly", "-lockfile=readonly");
    ("chdir", "-chdir=");
    ("update", "-update");
    ("destroy", "-destroy");
    ("out", "-out=");
    ("refresh_only", "-refresh-only");
    ("refresh", "-refresh=");
    ("replace", "-replace=");
    ("target", "-target=");
    ("var", "-var=");
    ("var_file", "-var-file=");
    ("compact_warnings", "-compact-warnings");
    ("json", "-json");
    ("parallelism", "-parallelism=");
    ("auto_approve", "-auto-approve");
    ("state", "-state=");
    ("state_out", "-state-out=");
    ("backup", "-backup=");
    ("list", "-list=");
    ("diff", "-diff");
    ("write", "-write=");
    ("check", "-check");
    ("recursive", "-recursive");
    ("raw", "-raw")
  ].

(** [TERRAFORM_ARGS[arg]]. *)
Definition terraform_arg (arg : string) : result string :=
  match TERRAFORM_ARGS !! arg with
  | Some res => Ok res
  | None => Raise (KeyError (SStr arg))
  end.

(** [res[-1] == "="]. *)
Definition ends_with_eq (res : string) : result bool :=
  match last_char res with
  | Some c => Ok (Ascii.eqb c "=")
  | None => Raise IndexError
  end.

(** [Terraform._build_arg(arg, value)]. The value is what the commands
    pass: [None], a [bool], an [int] or a [str]. *)
Definition _build_arg (arg : string) (value : scalar) : result string :=
  res ← terraform_arg arg;
  valued ← ends_with_eq res;
  match valued, value with
  | true, SBool b => Ok (res +:+ (if b then "true" else "false"))
  | true, SStr "" => Ok ""
  | true, (SInt _ | SStr _) =>
      if (0 <? String.length (py_str value))%nat
      then Ok (res +:+ py_str value)
      else Ok res
  | _, SBool b => Ok (if b then res else "")
  | _, _ => Ok ""
  end.

(** ** Library functions the file calls *)

(** [str.splitlines()]: a line ends at LF, CR, CR LF, VT, FF, FS, GS, RS or
    NEL (U+0085); the boundary is dropped, and a text that ends with one has
    no empty last line. *)
Definition is_linebreak (c : ascii) : bool :=
  let n := code c in
  ((n =? 10) || (n =? 11) || (n =? 12) || (n =? 13) || (n =? 28) || (n =? 29)
   || (n =? 30) || (n =? 133))%N.

Fixpoint splitlines (s : string) : list string :=
  match s with
  | "" => []
  | String c r =>
      if is_linebreak c then
        "" :: (if Ascii.eqb c CR
               then match r with
                    | String c' r' => if Ascii.eqb c' LF then splitlines r' else splitlines r
                    | "" => []
                    end
               else splitlines r)
      else match splitlines r with
           | [] => [str1 c]
           | l :: ls => String c l :: ls
           end
  end.

(** [re.sub] of the double quote by a backslash and a double quote: a
    backslash before every double quote. *)
Fixpoint escape_quotes (s : string) : string :=
  match s with
  | "" => ""
  | String c r =>
      if Ascii.eqb c dquote
      then String backslash (String dquote (escape_quotes r))
      else String c (escape_quotes r)
  end.

(** [shlex.quote(s)]. *)
Definition shell_safe (c : ascii) : bool :=
  let n := code c in
  ((48 <=? n) && (n <=? 57) || (65 <=? n) && (n <=? 90) || (97 <=? n) && (n <=? 122)
   || (n =? 95) || (n =? 64) || (n =? 37) || (n =? 43) || (n =? 61) || (n =? 58)
   || (n =? 44) || (n =? 46) || (n =? 47) || (n =? 45))%N.

Fixpoint all_chars (p : ascii → bool) (s : string) : bool :=
  match s with
  | "" => true
  | String c r => p c && all_chars p r
  end.

Fixpoint shlex_escape (s : string) : string :=
  match s with
  | "" => ""
  | String c r =>
      if Ascii.eqb c apostrophe
      then String apostrophe (String dquote (String apostrophe (String dquote
             (String apostrophe (shlex_escape r)))))
      else String c (shlex_escape r)
  end.

Definition shlex_quote (s : string) : string :=
  match s with
  | "" => "''"
  | _ => if all_chars shell_safe s then s
         else str1 apostrophe +:+ shlex_escape s +:+ str1 apostrophe
  end.

(** ** The [json] module *)

(** *** [json.dumps], with its defaults: [ensure_ascii], separators
    [", "] and [": "], no indentation. *)

Definition hex_digit (n : N) : ascii :=
  if (n <? 10)%N then ascii_of_N (48 + n) else ascii_of_N (87 + n).

Definition printable (c : ascii) : bool :=
  ((32 <=? code c) && (code c <=? 126))%N.

Definition escape_char (c : ascii) : string :=
  if Ascii.eqb c dquote then String backslash (str1 dquote)
  else if Ascii.eqb c backslash then String backslash (str1 backslash)
  else if Ascii.eqb c LF then String backslash "n"
  else if Ascii.eqb c CR then String backslash "r"
  else if Ascii.eqb c TAB then String backslash "t"
  else if Ascii.eqb c BS then String backslash "b"
  else if Ascii.eqb c FF then String backslash "f"
  else if printable c then str1 c
  else String backslash
         (String "u" (String "0" (String "0"
            (String (hex_digit (code c / 16)) (str1 (hex_digit (code c mod 16))))))).

Fixpoint escape_string (s : string) : string :=
  match s with
  | "" => ""
  | String c r => escape_char c +:+ escape_string r
  end.

Definition encode_string (s : string) : string :=
  String dquote (escape_string s +:+ str1 dquote).

(** The text of a key: a key that is not a [str] is turned into one. *)
Definition dumps_key (k : scalar) : string :=
  match k with
  | SStr s => s
  | SInt z => str_int z
  | SBool true => "true"
  | SBool false => "false"
  | SNone => "null"
  end.

Definition dumps_atom (a : scalar) : string :=
  match a with
  | SNone => "null"
  | SBool true => "true"
  | SBool false => "false"
  | SInt z => str_int z
  | SStr s => encode_string s
  end.

Fixpoint json_dumps (v : pyval) : string :=
  match v with
  | Atom a => dumps_atom a
  | PList l | PTuple l => "[" +:+ join ", " (map json_dumps l) +:+ "]"
  | PDict d =>
      "{" +:+ join ", " (map (λ kv, encode_string (dumps_key kv.1) +:+ ": "
                                    +:+ json_dumps kv.2) d) +:+ "}"
  end.

(** *** [json.loads], with its defaults ([strict] strings) *)

Definition is_ws (c : ascii) : bool :=
  Ascii.eqb c " " || Ascii.eqb c TAB || Ascii.eqb c LF || Ascii.eqb c CR.

Fixpoint skip_ws (s : string) : string :=
  match s with
  | "" => ""
  | String c r => if is_ws c then skip_ws r else s
  end.

Fixpoint strip_prefix (p s : string) : option string :=
  match p, s with
  | "", _ => Some s
  | String a p', String b s' => if Ascii.eqb a b then strip_prefix p' s' else None
  | _, "" => None
  end.

Definition hex_value (c : ascii) : option N :=
  let n := code c in
  if ((48 <=? n) && (n <=? 57))%N then Some (n - 48)%N
  else if ((97 <=? n) && (n <=? 102))%N then Some (n - 87)%N
  else if ((65 <=? n) && (n <=? 70))%N then Some (n - 55)%N
  else None.

Definition hex4 (a b c d : ascii) : option N :=
  x ← hex_value a; y ← hex_value b; z ← hex_value c; w ← hex_value d;
  Some (((x * 16 + y) * 16 + z) * 16 + w)%N.

(** The character a one-letter escape stands for. *)
Definition unescape (c : ascii) : option ascii :=
  if Ascii.eqb c dquote then Some dquote
  else if Ascii.eqb c backslash then Some backslash
  else if Ascii.eqb c "/" then Some "/"%char
  else if Ascii.eqb c "b" then Some BS
  else if Ascii.eqb c "f" then Some FF
  else if Ascii.eqb c "n" then Some LF
  else if Ascii.eqb c "r" then Some CR
  else if Ascii.eqb c "t" then Some TAB
  else None.

(** [scanstring], from the character after the opening quote: the decoded
    string and the text after the closing quote. *)
Fixpoint scan_string (s : string) : result (string * string) :=
  match s with
  | "" => Raise JSONDecodeError
  | String c r =>
      if Ascii.eqb c dquote then Ok ("", r)
      else if Ascii.eqb c backslash then
        match r with
        | "" => Raise JSONDecodeError
        | String e r' =>
            if Ascii.eqb e "u" then
              match r' with
              | String h1 (String h2 (String h3 (String h4 r''))) =>
                  match hex4 h1 h2 h3 h4 with
                  | Some n =>
                      if (n <? 256)%N
                      then '(str, rest) ← scan_string r'';
                           Ok (String (ascii_of_N n) str, rest)
                      else Raise OutsideEmbedding
                  | None => Raise JSONDecodeError
                  end
              | _ => Raise JSONDecodeError
              end
            else
              match unescape e with
              | Some ch => '(str, rest) ← scan_string r'; Ok (String ch str, rest)
              | None => Raise JSONDecodeError
              end
        end
      else if (code c <? 32)%N then Raise JSONDecodeError
      else '(str, rest) ← scan_string r; Ok (String c str, rest)
  end.

Definition is_digit (c : ascii) : bool := ((48 <=? code c) && (code c <=? 57))%N.

Definition digit_of (c : ascii) : option (uint → uint) :=
  match code c with
  | 48 => Some D0 | 49 => Some D1 | 50 => Some D2 | 51 => Some D3 | 52 => Some D4
  | 53 => Some D5 | 54 => Some D6 | 55 => Some D7 | 56 => Some D8 | 57 => Some D9
  | _ => None
  end%N.

(** The longest run of digits at the head of the text. *)
Fixpoint scan_digits (s : string) : uint * string :=
  match s with
  | "" => (Nil, "")
  | String c r =>
      match digit_of c with
      | Some d => let '(u, rest) := scan_digits r in (d u, rest)
      | None => (Nil, s)
      end
  end.

Definition starts_fraction (s : string) : bool :=
  match strip_prefix "." s with
  | Some (String c _) => is_digit c
  | _ => false
  end.

Definition starts_exponent (s : string) : bool :=
  match s with
  | String e r =>
      (Ascii.eqb e "e" || Ascii.eqb e "E") &&
      match r with
      | String c r' =>
          is_digit c ||
          ((Ascii.eqb c "+" || Ascii.eqb c "-") &&
           match r' with String c' _ => is_digit c' | "" => false end)
      | "" => false
      end
  | "" => false
  end.

Definition is_prefix (p s : string) : bool :=
  match strip_prefix p s with Some _ => true | None => false end.

(** A number: an optional minus sign, then a single 0 or a run of digits
    that does not start with 0; an [int] unless a fraction or an exponent
    follows. [NaN], [Infinity] and [-Infinity] are floats too. *)
Definition scan_number (s : string) : result (pyval * string) :=
  let '(neg, s1) :=
    match strip_prefix "-" s with
    | Some r => (true, r)
    | None => (false, s)
    end in
  match s1 with
  | "" => Raise JSONDecodeError
  | String c r =>
      if is_digit c then
        let '(u, rest) := if Ascii.eqb c "0" then (D0 Nil, r) else scan_digits s1 in
        if starts_fraction rest || starts_exponent rest then Raise OutsideEmbedding
        else Ok (PInt (let n := Z.of_N (N.of_uint u) in if neg then - n else n), rest)
      else if is_prefix "Infinity" s1 || (negb neg && is_prefix "NaN" s1)
      then Raise OutsideEmbedding
      else Raise JSONDecodeError
  end.

(** [dict(pairs)]: a key met again keeps its place and takes the new value. *)
Definition dict_of_pairs (pairs : list (string * pyval)) : pydict :=
  fold_left (λ d kv, dict_set (SStr kv.1) kv.2 d) pairs [].

(** [scan_once] with [JSONArray] and [JSONObject]. The text starts at the
    value; [parse_elems] starts at an element and [parse_members] after the
    opening quote of a key. Every call uses up one unit of [fuel]. *)
Fixpoint parse_value (fuel : nat) (s : string) : result (pyval * string) :=
  match fuel with
  | O => Raise RecursionError
  | S fuel =>
      match s with
      | "" => Raise JSONDecodeError
      | String c r =>
          if Ascii.eqb c dquote then
            '(str, rest) ← scan_string r; Ok (PStr str, rest)
          else if Ascii.eqb c "{" then
            match skip_ws r with
            | "" => Raise JSONDecodeError
            | String c' r' =>
                if Ascii.eqb c' "}" then Ok (PDict [], r')
                else if Ascii.eqb c' dquote then
                  '(pairs, rest) ← parse_members fuel r';
                  Ok (PDict (dict_of_pairs pairs), rest)
                else Raise JSONDecodeError
            end
          else if Ascii.eqb c "[" then
            match strip_prefix "]" (skip_ws r) with
            | Some r' => Ok (PList [], r')
            | None => '(l, rest) ← parse_elems fuel (skip_ws r); Ok (PList l, rest)
            end
          else
            match strip_prefix "null" s, strip_prefix "true" s, strip_prefix "false" s with
            | Some rest, _, _ => Ok (PNone, rest)
            | _, Some rest, _ => Ok (PBool true, rest)
            | _, _, Some rest => Ok (PBool false, rest)
            | _, _, _ => scan_number s
            end
      end
  end
with parse_elems (fuel : nat) (s : string) : result (list pyval * string) :=
  match fuel with
  | O => Raise RecursionError
  | S fuel =>
      '(v, rest) ← parse_value fuel s;
      match skip_ws rest with
      | "" => Raise JSONDecodeError
      | String c r =>
          if Ascii.eqb c "]" then Ok ([v], r)
          else if Ascii.eqb c "," then
            '(l, rest') ← parse_elems fuel (skip_ws r); Ok (v :: l, rest')
          else Raise JSONDecodeError
      end
  end
with parse_members (fuel : nat) (s : string) : result (list (string * pyval) * string) :=
  match fuel with
  | O => Raise RecursionError
  | S fuel =>
      '(key, rest) ← scan_string s;
      match strip_prefix ":" (skip_ws rest) with
      | Some r =>
          '(v, rest') ← parse_value fuel (skip_ws r);
          match skip_ws rest' with
          | "" => Raise JSONDecodeError
          | String c r' =>
              if Ascii.eqb c "}" then Ok ([(key, v)], r')
              else if Ascii.eqb c "," then
                match skip_ws r' with
                | String c' r'' =>
                    if Ascii.eqb c' dquote then
                      '(pairs, rest'') ← parse_members fuel r'';
                      Ok ((key, v) :: pairs, rest'')
                    else Raise JSONDecodeError
                | "" => Raise JSONDecodeError
                end
              else Raise JSONDecodeError
          end
      | None => Raise JSONDecodeError
      end
  end.

(** [json.loads(s)]: one value, white space around it, and nothing else.
    The fuel is enough for every text ([parse_progress]). *)
Definition json_loads (s : string) : result pyval :=
  '(v, rest) ← parse_value (S (2 * String.length s)) (skip_ws s);
  match skip_ws rest with
  | "" => Ok v
  | _ => Raise JSONDecodeError
  end.

(** ** The log and the commands' monad *)

Inductive level := Info | Warn | Success | Critical.

Record log_entry := Log { log_level : level; log_message : pyval }.

(** What a command wrote to the log, and how it ended. *)
Record run (A : Type) := Run { logged : list log_entry; outcome : result A }.
Arguments Run {A} logged outcome.
Arguments logged {A} r.
Arguments outcome {A} r.

#[global] Instance run_ret : MRet run := λ A a, Run [] (Ok a).
#[global] Instance run_bind : MBind run := λ A B f m,
  match outcome m with
  | Ok a => Run (logged m ++ logged (f a)) (outcome (f a))
  | Raise e => Run (logged m) (Raise e)
  end.

Definition lift {A} (m : result A) : run A := Run [] m.
Definition throw {A} (e : exn) : run A := Run [] (Raise e).
Definition log (lv : level) (msg : string) : run unit := Run [Log lv (PStr msg)] (Ok ()).
Definition log_value (lv : level) (msg : pyval) : run unit := Run [Log lv msg] (Ok ()).

(** ** The wrapper instance *)

Record version_dict := { major : N; minor : N; patch : N }.

(** [self._version]: what [version()] builds from the engine's report. *)
Record version_info := {
  version : version_dict;
  version_str : string;
  latest : bool;
  platform : string
}.

Record Terraform := {
  _workspace : string;
  chdir : option string;
  _lock : bool;
  _lock_timeout : Z;
  _input : bool;
  _paralellism : Z;
  _color : bool;
  _var_file : option string;
  _version : version_info;
  _planfile : string
}.

(** What an attribute lookup on the instance gives. *)
Inductive attribute :=
| Value (v : scalar)
| BoundMethod (name : string).

(** [x is False]. *)
Definition is_False (x : attribute) : bool :=
  match x with
  | Value (SBool false) => true
  | _ => false
  end.

(** [self.lock]: the class defines the method [lock(self, enable)], and
    [__init__] stores the flag under [_lock], so the instance has no
    attribute [lock] of its own and the lookup gives the bound method. *)
Definition getattr_lock (self : Terraform) : attribute := BoundMethod "lock".

(** [not x] on an optional [str]: [None] and the empty string are false. *)
Definition not_str (x : option string) : bool :=
  match x with
  | None | Some "" => true
  | Some _ => false
  end.

(** [Terraform._default_args(self, color, lock, lock_timeout, input)]. *)
Definition _default_args (self : Terraform) (color lock : option bool)
    (lock_timeout : option Z) (input : option bool) : result (list string) :=
  let args := [] in
  args ← match color with
         | Some c => a ← _build_arg "color" (SBool c); Ok (args ++ [a])
         | None =>
             if negb (_color self)
             then a ← terraform_arg "color"; Ok (args ++ [a])
             else Ok args
         end;
  args ← match lock with
         | Some false => a ← _build_arg "lock" (SBool false); Ok (args ++ [a])
         | _ =>
             if is_False (getattr_lock self)
             then a ← _build_arg "lock" (SBool (_lock self)); Ok (args ++ [a])
             else Ok args
         end;
  args ← match lock_timeout with
         | Some t =>
             if 0 <? t
             then a ← _build_arg "lock_timeout" (SInt t); Ok (args ++ [a])
             else if 0 <? _lock_timeout self
             then a ← _build_arg "lock_timeout" (SInt (_lock_timeout self)); Ok (args ++ [a])
             else Ok args
         | None =>
             if 0 <? _lock_timeout self
             then a ← _build_arg "lock_timeout" (SInt (_lock_timeout self)); Ok (args ++ [a])
             else Ok args
         end;
  args ← match input with
         | Some i => a ← _build_arg "input" (SBool i); Ok (args ++ [a])
         | None =>
             if negb (_input self)
             then a ← _build_arg "input" (SBool (_input self)); Ok (args ++ [a])
             else Ok args
         end;
  Ok args.

(** The text [_parse_vars] puts after [key=]: a [str] between double
    quotes with its double quotes escaped, a [dict], [list] or [tuple]
    through [json.dumps], anything else as the f-string formats it. *)
Definition encode_var (value : pyval) : string :=
  match value with
  | PStr s => str1 dquote +:+ escape_quotes s +:+ str1 dquote
  | Atom a => py_str a
  | PDict _ | PList _ | PTuple _ => json_dumps value
  end.

(** [Terraform._parse_vars(vars)]; [vars] is a [dict] with [str] keys, in
    insertion order. *)
Definition _parse_vars (vars : option (list (string * pyval))) : list string :=
  match vars with
  | None => []
  | Some d =>
      (fix loop (d : list (string * pyval)) : list string :=
         match d with
         | [] => []
         | (key, value) :: d' =>
             "-var" :: (key +:+ "=" +:+ encode_var value) :: loop d'
         end) d
  end.

(** ** The apply callbacks *)

(** [v[key]] for a [str] key: only a [dict] can be indexed by one. *)
Definition getitem (v : pyval) (key : string) : result pyval :=
  match v with
  | PDict d =>
      match dict_get (SStr key) d with
      | Some x => Ok x
      | None => Raise (KeyError (SStr key))
      end
  | _ => Raise TypeError
  end.

(** [v == "text"]. *)
Definition eq_str (v : pyval) (text : string) : bool :=
  match v with
  | PStr s => String.eqb s text
  | _ => false
  end.

(** [hash(v)]: the key a value makes, [TypeError] for a [list] or a
    [dict]. *)
Definition as_key (v : pyval) : result scalar :=
  match v with
  | Atom a => Ok a
  | _ => Raise TypeError
  end.

(** [Terraform._apply_line_callback(stdout, stderr)]. *)
Definition _apply_line_callback (stdout stderr : option string) : run unit :=
  match stdout with
  | None | Some "" => mret ()
  | Some text =>
      line ← lift (json_loads text);
      message ← lift (getitem line "@message");
      log_value Info message
  end.

(** The body of the [try] in [_apply_callback], on the [dict] [result]:
    the state it leaves and how it ended. A statement that raises leaves
    the assignments made before it in place. *)
Definition stateful (A : Type) := pydict → pydict * result A.

#[global] Instance stateful_ret : MRet stateful := λ A a st, (st, Ok a).
#[global] Instance stateful_bind : MBind stateful := λ A B f m st,
  match m st with
  | (st', Ok a) => f a st'
  | (st', Raise e) => (st', Raise e)
  end.

Definition eval {A} (m : result A) : stateful A := λ st, (st, m).

(** [result[key] = v]. *)
Definition assign (key : string) (v : pyval) : stateful unit :=
  λ st, (dict_set (SStr key) v st, Ok ()).

(** [key in result]. *)
Definition contains (key : string) : stateful bool :=
  λ st, (st, Ok (dict_mem (SStr key) st)).

(** [result[outer][k] = v]: the inner [dict] is changed in place. *)
Definition assign_in (outer : string) (k : pyval) (v : pyval) : stateful unit :=
  λ st,
    match dict_get (SStr outer) st with
    | None => (st, Raise (KeyError (SStr outer)))
    | Some (PDict inner) =>
        match as_key k with
        | Ok key => (dict_set (SStr outer) (PDict (dict_set key v inner)) st, Ok ())
        | Raise e => (st, Raise e)
        end
    | Some _ => (st, Raise TypeError)
    end.

Definition apply_event (text : string) : stateful unit :=
  line ← eval (json_loads text);
  ty ← eval (getitem line "type");
  if eq_str ty "outputs" then
    v ← eval (getitem line "outputs"); assign "outputs" v
  else
    ty ← eval (getitem line "type");
    if eq_str ty "change_summary" then
      v ← eval (getitem line "changes"); assign "changes" v
    else
      ty ← eval (getitem line "type");
      if eq_str ty "apply_complete" then
        present ← contains "result";
        (if negb present then assign "result" (PDict []) else mret ());;
        hook ← eval (getitem line "hook");
        resource ← eval (getitem hook "resource");
        addr ← eval (getitem resource "addr");
        payload ← eval (getitem line "hook");
        assign_in "result" addr payload
      else mret ().

(** [try: ... except: pass]. A line on which [json_loads] answers
    [OutsideEmbedding] ends here as a line that raised: the code decodes
    such a line, so what is said of a line below is said of a line the
    embedding decodes or the decoder refuses. *)
Definition try_pass (body : stateful unit) (st : pydict) : pydict := (body st).1.

(** [Terraform._apply_callback(stdout, stderr)]. *)
Definition _apply_callback (stdout stderr : option string) : result pyval :=
  match stdout with
  | None => Raise AttributeError
  | Some text =>
      Ok (PDict (fold_left (λ result line, try_pass (apply_event line) result)
                   (splitlines text) []))
  end.

(** ** The executor's interface *)

(** What [run_command] answers. *)
Record CommandResult := {
  success : bool;
  stdout : string;
  stderr : string;
  callback_output : pyval;
  duration : pyfloat
}.

(** What [run_command] is called with. *)
Record Call := {
  argv : list string;
  title : option string;
  cwd : option string;
  show_output : bool;
  callback : option (option string → option string → result pyval);
  line_callback : option (option string → option string → run unit)
}.

(** The call [Terraform.cmd(command, title, chdir, show_output, callback,
    line_callback)] makes: [terraform] goes in front of the command. *)
Definition cmd_call (command : list string) (title chdir : option string)
    (show_output : bool)
    (callback : option (option string → option string → result pyval))
    (line_callback : option (option string → option string → run unit)) : Call :=
  {| argv := "terraform" :: command; title := title; cwd := chdir;
     show_output := show_output; callback := callback;
     line_callback := line_callback |}.

Definition opt_str (x : option string) : scalar :=
  match x with
  | Some s => SStr s
  | None => SNone
  end.

Definition opt_bool (x : option bool) : scalar :=
  match x with
  | Some b => SBool b
  | None => SNone
  end.

(** [cmd.append(Terraform._build_arg(arg, value))]. *)
Definition append_arg (cmd : list string) (arg : string) (value : scalar)
    : result (list string) :=
  token ← _build_arg arg value; Ok (cmd ++ [token]).

(** [if not chdir: chdir = self.chdir]. *)
Definition resolve_chdir (self : Terraform) (chdir' : option string) : option string :=
  if not_str chdir' then chdir self else chdir'.

(** [parallelism], or the instance's when [not parallelism]: when it is
    [None] or 0. *)
Definition resolve_parallelism (self : Terraform) (parallelism : option Z) : Z :=
  match parallelism with
  | None | Some 0 => _paralellism self
  | Some n => n
  end.

Definition completed (what : string) (d : pyfloat) : string :=
  "Terraform " +:+ what +:+ " completed in: " +:+ float_str d +:+ " seconds".

(** *** The arguments of the commands, with the defaults of their signatures *)

Record init_args := {
  init_color : option bool;
  init_lock : option bool;
  init_lock_timeout : option Z;
  init_input : option bool;
  init_upgrade : bool;
  init_reconfigure : bool;
  init_migrate_state : bool;
  init_force_copy : bool;
  init_backend : bool;
  init_backend_config : option string;
  init_get : bool;
  init_get_plugins : bool;
  init_plugin_dir : option string;
  init_readonly : bool;
  init_chdir : option string
}.

Definition init_defaults : init_args :=
  {| init_color := None; init_lock := None; init_lock_timeout := None;
     init_input := None; init_upgrade := false; init_reconfigure := false;
     init_migrate_state := false; init_force_copy := false; init_backend := true;
     init_backend_config := None; init_get := true; init_get_plugins := true;
     init_plugin_dir := None; init_readonly := false; init_chdir := None |}.

Record plan_args := {
  plan_out : option string;
  plan_destroy : bool;
  plan_refresh : option bool;
  plan_refresh_only : bool;
  plan_replace : option string;
  plan_target : option string;
  plan_vars : option (list (string * pyval));
  plan_var_file : option string;
  plan_compact_warnings : bool;
  plan_input : option bool;
  plan_json : bool;
  plan_lock : option bool;
  plan_lock_timeout : option Z;
  plan_color : option bool;
  plan_parallelism : option Z;
  plan_chdir : option string;
  plan_state : option string
}.

Definition plan_defaults : plan_args :=
  {| plan_out := None; plan_destroy := false; plan_refresh := Some true;
     plan_refresh_only := false; plan_replace := None; plan_target := None;
     plan_vars := None; plan_var_file := None; plan_compact_warnings := false;
     plan_input := None; plan_json := false; plan_lock := None;
     plan_lock_timeout := None; plan_color := None; plan_parallelism := None;
     plan_chdir := None; plan_state := None |}.

Record apply_args := {
  apply_plan_file : option string;
  apply_auto_approve : bool;
  apply_compact_warnings : bool;
  apply_input : option bool;
  apply_json : bool;
  apply_lock : option bool;
  apply_lock_timeout : option Z;
  apply_color : option bool;
  apply_parallelism : option Z;
  apply_state : option string;
  apply_state_out : option string;
  apply_backup : option string;
  apply_chdir : option string
}.

Definition apply_defaults : apply_args :=
  {| apply_plan_file := None; apply_auto_approve := false;
     apply_compact_warnings := false; apply_input := None; apply_json := false;
     apply_lock := None; apply_lock_timeout := None; apply_color := None;
     apply_parallelism := None; apply_state := None; apply_state_out := None;
     apply_backup := None; apply_chdir := None |}.

Record destroy_args := {
  destroy_target : option string;
  destroy_vars : option (list (string * pyval));
  destroy_var_file : option string;
  destroy_auto_approve : bool;
  destroy_input : option bool;
  destroy_color : option bool;
  destroy_lock : option bool;
  destroy_lock_timeout : option Z;
  destroy_parallelism : option Z;
  destroy_chdir : option string
}.

Definition destroy_defaults : destroy_args :=
  {| destroy_target := None; destroy_vars := None; destroy_var_file := None;
     destroy_auto_approve := false; destroy_input := None; destroy_color := None;
     destroy_lock := None; destroy_lock_timeout := None;
     destroy_parallelism := None; destroy_chdir := None |}.

Record show_args := {
  show_file : option string;
  show_json : bool;
  show_color : option bool;
  show_chdir : option string
}.

Definition show_defaults : show_args :=
  {| show_file := None; show_json := true; show_color := None; show_chdir := None |}.

(** *** The call each command hands to the executor *)

(** [init]: the command list. *)
Definition init_command (self : Terraform) (a : init_args) : result (list string) :=
  let cmd := ["init"] in
  cmd ← (if init_readonly a
         then append_arg cmd "readonly" (SBool (init_readonly a))
         else Ok cmd);
  defaults ← _default_args self (init_color a) (init_lock a) (init_lock_timeout a)
               (init_input a);
  let cmd := cmd ++ defaults in
  cmd ← append_arg cmd "upgrade" (SBool (init_upgrade a));
  cmd ← append_arg cmd "reconfigure" (SBool (init_reconfigure a));
  cmd ← append_arg cmd "migrate_state" (SBool (init_migrate_state a));
  cmd ← append_arg cmd "force_copy" (SBool (init_force_copy a));
  cmd ← append_arg cmd "backend_config" (opt_str (init_backend_config a));
  cmd ← append_arg cmd "plugin_dir" (opt_str (init_plugin_dir a));
  cmd ← (if negb (init_backend a)
         then append_arg cmd "backend" (SBool (init_backend a))
         else Ok cmd);
  cmd ← (if negb (init_get a)
         then append_arg cmd "get" (SBool (init_get a))
         else Ok cmd);
  cmd ← (if negb (init_get_plugins a)
         then append_arg cmd "get_plugins" (SBool (init_get_plugins a))
         else Ok cmd);
  Ok cmd.

Definition init_call (self : Terraform) (a : init_args) : run Call :=
  cmd ← lift (init_command self a);
  mret (cmd_call cmd (Some "Terraform init") (resolve_chdir self (init_chdir a))
          true None None).

(** [plan]: the command list, and the warnings of the version gates. *)
Definition plan_command (self : Terraform) (a : plan_args) : run (list string) :=
  let cmd := ["plan"] in
  defaults ← lift (_default_args self (plan_color a) (plan_lock a)
                     (plan_lock_timeout a) (plan_input a));
  let cmd := cmd ++ defaults in
  cmd ← lift (if not_str (plan_out a)
              then append_arg cmd "out" (SStr (_planfile self))
              else append_arg cmd "out" (opt_str (plan_out a)));
  cmd ← (if (1 <=? major (version (_version self)))%N
            && (0 <=? minor (version (_version self)))%N
         then lift (append_arg cmd "refresh_only" (SBool (plan_refresh_only a)))
         else
           log Warn ("the option '-refresh-only' is supported since the version 1.1.0, and your version is "
                     +:+ version_str (_version self));;
           mret cmd);
  cmd ← (if (1 <=? major (version (_version self)))%N
            && (0 <=? minor (version (_version self)))%N
         then lift (append_arg cmd "json" (SBool (plan_json a)))
         else
           log Warn ("the option '-json' is supported since the version 1.0.0, and your version is "
                     +:+ version_str (_version self));;
           mret cmd);
  cmd ← lift (append_arg cmd "parallelism"
                (SInt (resolve_parallelism self (plan_parallelism a))));
  cmd ← lift (append_arg cmd "destroy" (SBool (plan_destroy a)));
  cmd ← lift (append_arg cmd "refresh" (opt_bool (plan_refresh a)));
  cmd ← lift (append_arg cmd "replace" (opt_str (plan_replace a)));
  cmd ← lift (append_arg cmd "target" (opt_str (plan_target a)));
  cmd ← lift (append_arg cmd "var_file" (opt_str (plan_var_file a)));
  cmd ← lift (append_arg cmd "state" (opt_str (plan_state a)));
  cmd ← lift (append_arg cmd "compact_warnings" (SBool (plan_compact_warnings a)));
  mret (cmd ++ _parse_vars (plan_vars a)).

Definition plan_call (self : Terraform) (a : plan_args) : run Call :=
  cmd ← plan_command self a;
  mret (cmd_call cmd (Some "Terraform plan") (resolve_chdir self (plan_chdir a))
          true None None).

(** [apply]: the call, with the callbacks and [show_output]. *)
Definition apply_call (self : Terraform) (a : apply_args) : result Call :=
  let cmd := ["apply"] in
  defaults ← _default_args self (apply_color a) (apply_lock a)
               (apply_lock_timeout a) (apply_input a);
  let cmd := cmd ++ defaults in
  let callback := None in
  let line_callback := None in
  '(cmd, callback, line_callback) ←
    (if (1 <=? major (version (_version self)))%N
     then
       cmd ← append_arg cmd "json" (SBool (apply_json a));
       if apply_json a
       then Ok (cmd, Some _apply_callback, Some _apply_line_callback)
       else Ok (cmd, callback, line_callback)
     else Ok (cmd, callback, line_callback));
  cmd ← append_arg cmd "parallelism"
          (SInt (resolve_parallelism self (apply_parallelism a)));
  cmd ← append_arg cmd "auto_approve" (SBool (apply_auto_approve a));
  cmd ← append_arg cmd "compact_warnings" (SBool (apply_compact_warnings a));
  cmd ← append_arg cmd "state" (opt_str (apply_state a));
  cmd ← append_arg cmd "state_out" (opt_str (apply_state_out a));
  cmd ← append_arg cmd "backup" (opt_str (apply_backup a));
  let cmd :=
    match apply_plan_file a with
    | None | Some "" => cmd ++ [shlex_quote (_planfile self)]
    | Some plan_file => cmd ++ [shlex_quote plan_file]
    end in
  Ok (cmd_call cmd (Some "Terraform apply") (resolve_chdir self (apply_chdir a))
        (negb (apply_json a) && (1 <=? major (version (_version self)))%N)
        callback line_callback).

(** [destroy]: the command list. *)
Definition destroy_command (self : Terraform) (a : destroy_args) : result (list string) :=
  let cmd := ["destroy"] in
  defaults ← _default_args self (destroy_color a) (destroy_lock a)
               (destroy_lock_timeout a) (destroy_input a);
  let cmd := cmd ++ defaults in
  cmd ← append_arg cmd "parallelism"
          (SInt (resolve_parallelism self (destroy_parallelism a)));
  cmd ← append_arg cmd "auto_approve" (SBool (destroy_auto_approve a));
  cmd ← append_arg cmd "target" (opt_str (destroy_target a));
  cmd ← append_arg cmd "var_file" (opt_str (destroy_var_file a));
  Ok (cmd ++ _parse_vars (destroy_vars a)).

Definition destroy_call (self : Terraform) (cmd : list string) (a : destroy_args) : Call :=
  cmd_call cmd (Some "Terraform destroy") (resolve_chdir self (destroy_chdir a))
    true None None.

(** [show]: the command list. *)
Definition show_command (self : Terraform) (a : show_args) : result (list string) :=
  let cmd := ["show"] in
  cmd ← append_arg cmd "json" (SBool (show_json a));
  cmd ← match show_color a with
        | Some c => append_arg cmd "color" (SBool c)
        | None => append_arg cmd "color" (SBool (_color self))
        end;
  match show_file a with
  | None | Some "" => Ok (cmd ++ [shlex_quote (_planfile self)])
  | Some file => Ok (cmd ++ [shlex_quote file])
  end.

Definition show_call (self : Terraform) (cmd : list string) (a : show_args) : Call :=
  cmd_call cmd None (resolve_chdir self (show_chdir a)) false None None.

(** ** The commands *)

Section Commands.

(** [utils.run_command]: the answer of the environment to a call. *)
Variable run_command : Call → CommandResult.

(** [Terraform.init]. *)
Definition init (self : Terraform) (a : init_args) : run bool :=
  call ← init_call self a;
  let result := run_command call in
  (if success result
   then log Success (completed "init" (duration result))
   else throw (TerraformError OpInit
                 {| f_message := "Failed to initialize terraform project";
                    f_command := "init"; f_stderr := stderr result;
                    f_duration := duration result |}));;
  mret (success result).

(** [Terraform.plan]. *)
Definition plan (self : Terraform) (a : plan_args) : run bool :=
  call ← plan_call self a;
  let result := run_command call in
  (if success result
   then log Success (completed "plan" (duration result))
   else throw (TerraformError OpPlan
                 {| f_message := "Failed to run plan terraform";
                    f_command := "plan"; f_stderr := stderr result;
                    f_duration := duration result |}));;
  mret (success result).

(** [Terraform.apply]. *)
Definition apply (self : Terraform) (a : apply_args) : run pyval :=
  call ← lift (apply_call self a);
  let result := run_command call in
  (if success result
   then log Success (completed "apply" (duration result))
   else throw (TerraformError OpApply
                 {| f_message := "Failed to apply changes to state";
                    f_command := "apply"; f_stderr := stderr result;
                    f_duration := duration result |}));;
  if apply_json a && (1 <=? major (version (_version self)))%N
  then mret (callback_output result)
  else mret (PBool (success result)).

(** [Terraform.destroy]. *)
Definition destroy (self : Terraform) (a : destroy_args) : run bool :=
  cmd ← lift (destroy_command self a);
  let result := run_command (destroy_call self cmd a) in
  if success result
  then
    log Success (completed "destroy" (duration result));;
    mret true
  else
    let error_message := "Failed to destroy terraform resources" in
    log Critical (error_message +:+ " in: " +:+ float_str (duration result) +:+ " seconds");;
    throw (TerraformError OpDestroy
             {| f_message := error_message; f_command := join " " cmd;
                f_stderr := stderr result; f_duration := duration result |}).

(** [Terraform.show]. *)
Definition show (self : Terraform) (a : show_args) : run pyval :=
  log Info "Running Terraform show";;
  cmd ← lift (show_command self a);
  let result := run_command (show_call self cmd a) in
  (if success result
   then log Success (completed "show" (duration result))
   else log Critical ("Failed to show terraform state in: "
                      +:+ float_str (duration result) +:+ " seconds"));;
  if show_json a
  then lift (json_loads (stdout result))
  else mret (PStr (stdout result)).

End Commands.

(** [Terraform.__init__]: [detected] is what [self.version()] returned. *)
Definition __init__ (workspace : string) (chdir : option string) (lock : bool)
    (lock_timeout : Z) (input : bool) (parallelism : Z) (color : bool)
    (var_file : option string) (detected : version_info) : Terraform :=
  {| _workspace := workspace; chdir := chdir; _lock := lock;
     _lock_timeout := lock_timeout; _input := input; _paralellism := parallelism;
     _color := color; _var_file := var_file; _version := detected;
     _planfile := "plan.tfplan" |}.

(** An engine of version [ma.mi.pa], as [version()] reports it. *)
Definition engine (ma mi pa : N) : version_info :=
  {| version := {| major := ma; minor := mi; patch := pa |};
     version_str := str_N ma +:+ "." +:+ str_N mi +:+ "." +:+ str_N pa;
     latest := true; platform := "linux_amd64" |}.

(** [Terraform()] with the defaults of the constructor, and
    [Terraform(lock=False)]. *)
Definition terraform (detected : version_info) : Terraform :=
  __init__ "default" None true 0 false 10 true None detected.

Definition terraform_unlocked (detected : version_info) : Terraform :=
  __init__ "default" None false 0 false 10 true None detected.

(** ** The tokens the builder produces *)

(** A bare flag: present when the value is [True]. *)
Definition flag_token (template : string) (b : bool) : string :=
  if b then template else "".

(** An option with a [bool] value. *)
Definition bool_token (template : string) (b : bool) : string :=
  template +:+ (if b then "true" else "false").

(** An option with an optional [str] value: nothing for [None] and for
    the empty string. *)
Definition value_token (template : string) (x : option string) : string :=
  match x with
  | None | Some "" => ""
  | Some s => template +:+ s
  end.

(** The lock timeout [_default_args] uses: the call's when it is positive,
    else the instance's when that is positive. *)
Definition effective_lock_timeout (self : Terraform) (lock_timeout : option Z)
    : option Z :=
  match lock_timeout with
  | Some t => if 0 <? t then Some t
              else if 0 <? _lock_timeout self then Some (_lock_timeout self) else None
  | None => if 0 <? _lock_timeout self then Some (_lock_timeout self) else None
  end.

(** The list [_default_args] returns, written out. *)
Definition default_tokens (self : Terraform) (color lock : option bool)
    (lock_timeout : option Z) (input : option bool) : list string :=
  match color with
  | Some c => [flag_token "-no-color" c]
  | None => if _color self then [] else ["-no-color"]
  end
  ++ match lock with
     | Some false => ["-lock=false"]
     | _ => []
     end
  ++ match effective_lock_timeout self lock_timeout with
     | Some t => ["-lock-timeout=" +:+ str_int t]
     | None => []
     end
  ++ match input with
     | Some i => [bool_token "-input=" i]
     | None => if _input self then [] else ["-input=false"]
     end.

(** How many elements of an argument vector are the empty string. *)
Definition count_empty (l : list string) : nat :=
  length (filter (λ s, s = "") l).

(** How many flags are [False], how many values are [None]. *)
Definition count_false (l : list bool) : nat := length (filter (λ b, b = false) l).

Definition count_none {A} (l : list (option A)) : nat :=
  length (filter (λ x, x = None) l).

(** ** Inputs the statements below are evaluated at *)

(** The three lines of the aggregator's scenario. *)
Definition line_outputs : string := q "{'type':'outputs','outputs':{'a':1}}".

Definition line_apply_complete : string :=
  q "{'type':'apply_complete','hook':{'resource':{'addr':'x'}}}".

Definition line_not_json : string := "not json".

(** The hook of [line_apply_complete]. *)
Definition hook_payload : pyval :=
  PDict [(SStr "resource", PDict [(SStr "addr", PStr "x")])].

(** [apply(json=True)]. *)
Definition apply_with_json : apply_args :=
  {| apply_plan_file := None; apply_auto_approve := false;
     apply_compact_warnings := false; apply_input := None; apply_json := true;
     apply_lock := None; apply_lock_timeout := None; apply_color := None;
     apply_parallelism := None; apply_state := None; apply_state_out := None;
     apply_backup := None; apply_chdir := None |}.

(** [plan(json=True)]. *)
Definition plan_with_json : plan_args :=
  {| plan_out := None; plan_destroy := false; plan_refresh := Some true;
     plan_refresh_only := false; plan_replace := None; plan_target := None;
     plan_vars := None; plan_var_file := None; plan_compact_warnings := false;
     plan_input := None; plan_json := true; plan_lock := None;
     plan_lock_timeout := None; plan_color := None; plan_parallelism := None;
     plan_chdir := None; plan_state := None |}.

(** An executor whose subprocess fails, and one whose subprocess succeeds. *)
Definition failing_executor (out : string) (call : Call) : CommandResult :=
  {| success := false; stdout := out; stderr := "Error: state lock";
     callback_output := PNone; duration := Float "0.25" |}.

Definition succeeding_executor (out : string) (call : Call) : CommandResult :=
  {| success := true; stdout := out; stderr := "";
     callback_output := PNone; duration := Float "0.25" |}.

(** ** Predicates of the statements about the decoder *)

(** The two ways the decoder model refuses a text: the text is not JSON,
    or it denotes a value that has no image in the embedding. *)
Definition decode_failure (e : exn) : Prop :=
  e = JSONDecodeError ∨ e = OutsideEmbedding.

(** A scanner that succeeds has consumed at least one character; one that
    fails has failed as a decoder. *)
Definition progress {A} (s : string) (r : result (A * string)) : Prop :=
  match r with
  | Ok (_, rest) => (String.length rest < String.length s)%nat
  | Raise e => decode_failure e
  end.

(** [c in s]. *)
Fixpoint has_char (c : ascii) (s : string) : bool :=
  match s with
  | "" => false
  | String c' r => Ascii.eqb c' c || has_char c r
  end.

(** The warning [plan] logs when it leaves [-json] out. *)
Definition json_warning (self : Terraform) : log_entry :=
  Log Warn (PStr ("the option '-json' is supported since the version 1.0.0, and your version is "
                  +:+ version_str (_version self))).

(** What [plan], [init] and [apply] raise when the subprocess fails. *)
Definition plan_failure (r : CommandResult) : exn :=
  TerraformError OpPlan
    {| f_message := "Failed to run plan terraform"; f_command := "plan";
       f_stderr := stderr r; f_duration := duration r |}.

(** A [destroy] and an [init] whose unguarded options all have a value. *)
Definition destroy_all_set : destroy_args :=
  {| destroy_target := Some "aws_s3_bucket.b"; destroy_vars := None;
     destroy_var_file := Some "prod.tfvars"; destroy_auto_approve := true;
     destroy_input := None; destroy_color := None; destroy_lock := None;
     destroy_lock_timeout := None; destroy_parallelism := None;
     destroy_chdir := None |}.

Definition init_all_set : init_args :=
  {| init_color := None; init_lock := None; init_lock_timeout := None;
     init_input := None; init_upgrade := true; init_reconfigure := true;
     init_migrate_state := true; init_force_copy := true; init_backend := true;
     init_backend_config := Some "bucket=b"; init_get := true;
     init_get_plugins := true; init_plugin_dir := Some "plugins";
     init_readonly := false; init_chdir := None |}.

(** ** Predicates of the statements about [_parse_vars] *)

(** A character [_parse_vars] passes on as JSON reads it: no backslash,
    no control character. *)
Definition plain_char (c : ascii) : bool :=
  negb (Ascii.eqb c backslash) && (32 <=? code c)%N.

Definition plain (s : string) : bool := all_chars plain_char s.

Definition is_str_key (k : scalar) : bool :=
  match k with
  | SStr _ => true
  | _ => false
  end.

(** No two keys are equal (an invariant of every [dict]). *)
Fixpoint distinct_keys (ks : list scalar) : bool :=
  match ks with
  | [] => true
  | k :: ks' => negb (existsb (scalar_eqb k) ks') && distinct_keys ks'
  end.

(** A value JSON can hold as it is: [None], [bool], [int], [str], and
    the [list]s and [dict]s made of them, the keys of a [dict] being
    strings. A [tuple] is not one (it is decoded as a [list]). *)
Fixpoint json_like (v : pyval) : bool :=
  match v with
  | Atom _ => true
  | PList l => forallb json_like l
  | PTuple _ => false
  | PDict d =>
      distinct_keys (map fst d)
      && forallb (λ kv, is_str_key kv.1 && json_like kv.2) d
  end.

(** What may follow a value inside a JSON text. *)
Definition delimited (rest : string) : bool :=
  match rest with
  | "" => true
  | String c _ => Ascii.eqb c "," || Ascii.eqb c "]" || Ascii.eqb c "}"
  end.

(** The fuel the decoder needs for the text of a value. *)
Fixpoint size (v : pyval) : nat :=
  match v with
  | Atom _ => 1
  | PList l | PTuple l => S (list_sum (map (λ x, S (size x)) l))
  | PDict d => S (list_sum (map (λ kv, S (size kv.2)) d))
  end.

(** The text after [prefix], when the token starts with it. *)
Definition value_portion (prefix token : string) : option string :=
  strip_prefix prefix token.

(** What the round trip says of one value: with enough fuel the decoder
    reads it back from the head of the text, and leaves the rest. *)
Definition reads_back (v : pyval) : Prop :=
  json_like v = true →
  ∀ (fuel : nat) (rest : string),
    (size v ≤ fuel)%nat → delimited rest = true →
    parse_value fuel (json_dumps v +:+ rest) = Ok (v, rest).

(** The variables of the module's own run, and values that do not survive
    the trip through [_parse_vars] and the JSON decoder. *)
Definition example_vars : list (string * pyval) :=
  [("bucket_name", PStr "test_bucket");
   ("test_variable", PDict [(SStr "test1", PInt 1); (SStr "test2", PNone)])].

(** The five characters C : backslash n e w ... a path with a backslash. *)
Definition backslash_path : string := "C:" +:+ str1 backslash +:+ "new".

Definition trailing_backslash : string := "dir" +:+ str1 backslash.

(** ** The rest of the wrapper *)

(** *** The version report *)

(** One group [\d+] of [VERSION_REGEX]: the longest run of digits, and at
    least one. What follows a group in the pattern is never a digit, so no
    shorter run can match. *)
Definition scan_group (s : string) : option (uint * string) :=
  match scan_digits s with
  | (Nil, _) => None
  | (u, rest) => Some (u, rest)
  end.

(** [VERSION_REGEX.match(s)]: three groups of digits with a dot between
    them, from the start of the text to [$], which is the end of the text
    or the line feed that ends it. *)
Definition match_version (s : string) : option (uint * uint * uint) :=
  '(ma, rest) ← scan_group s;
  rest ← strip_prefix "." rest;
  '(mi, rest) ← scan_group rest;
  rest ← strip_prefix "." rest;
  '(pa, rest) ← scan_group rest;
  if String.eqb rest "" || String.eqb rest (str1 LF)
  then Some (ma, mi, pa)
  else None.

(** [v == False]. *)
Definition eq_False (v : pyval) : bool :=
  match v with
  | Atom a => scalar_eqb a (SBool false)
  | _ => false
  end.

(** [int(group)] on each group, or [dict(major=0, minor=0, patch=0)]. *)
Definition version_numbers (version_str : string) : version_dict :=
  match match_version version_str with
  | Some (ma, mi, pa) =>
      {| major := N.of_uint ma; minor := N.of_uint mi; patch := N.of_uint pa |}
  | None => {| major := 0; minor := 0; patch := 0 |}
  end.

(** [self._version = result]. *)
Definition set_version (self : Terraform) (detected : version_info) : Terraform :=
  {| _workspace := _workspace self; chdir := chdir self; _lock := _lock self;
     _lock_timeout := _lock_timeout self; _input := _input self;
     _paralellism := _paralellism self; _color := _color self;
     _var_file := _var_file self; _version := detected;
     _planfile := _planfile self |}.

Section Version.

(** [utils.run_command] and [utils.cmd_to_array], and the duration that
    [utils.exceptions] gives an error built without one. *)
Variable run_command : Call → CommandResult.
Variable cmd_to_array : string → list string.
Variable no_duration : pyfloat.

(** [run_command(cmd_to_array("terraform version -json"),
    show_output=False)]; [None] is an argument left to the executor. *)
Definition version_call : Call :=
  {| argv := cmd_to_array "terraform version -json"; title := None; cwd := None;
     show_output := false; callback := None; line_callback := None |}.

(** The report [version()] builds. A platform that is not a [str] has no
    image in [version_info]. *)
Definition version_report : result version_info :=
  let result := run_command version_call in
  if negb (success result)
  then Raise (TerraformError OpVersion
                {| f_message := "Failed to retrieve terrform version";
                   f_command := "version"; f_stderr := stderr result;
                   f_duration := no_duration |})
  else
    version ← json_loads (stdout result);
    version_str ← getitem version "terraform_version";
    version_str ← match version_str with
                  | PStr s => Ok s
                  | _ => Raise TypeError
                  end;
    let version_dict := version_numbers version_str in
    outdated ← getitem version "terraform_outdated";
    platform ← getitem version "platform";
    match platform with
    | PStr p =>
        Ok {| version := version_dict; version_str := version_str;
              latest := eq_False outdated; platform := p |}
    | _ => Raise OutsideEmbedding
    end.

(** [Terraform.version(self)]: the instance with its new [_version], and
    the report. *)
Definition Terraform_version (self : Terraform) : result (Terraform * version_info) :=
  detected ← version_report;
  Ok (set_version self detected, detected).

(** [Terraform(workspace, chdir, ...)], with the query [__init__] makes. *)
Definition Terraform_new (workspace : string) (chdir : option string) (lock : bool)
    (lock_timeout : Z) (input : bool) (parallelism : Z) (color : bool)
    (var_file : option string) : result Terraform :=
  detected ← version_report;
  Ok (__init__ workspace chdir lock lock_timeout input parallelism color var_file
        detected).

End Version.

(** *** The setters *)

(** [Terraform.color(self, enable)]. *)
Definition color (self : Terraform) (enable : bool) : Terraform :=
  {| _workspace := _workspace self; chdir := chdir self; _lock := _lock self;
     _lock_timeout := _lock_timeout self; _input := _input self;
     _paralellism := _paralellism self; _color := enable;
     _var_file := _var_file self; _version := _version self;
     _planfile := _planfile self |}.

(** [Terraform.lock(self, enable)]. *)
Definition lock (self : Terraform) (enable : bool) : Terraform :=
  {| _workspace := _workspace self; chdir := chdir self; _lock := enable;
     _lock_timeout := _lock_timeout self; _input := _input self;
     _paralellism := _paralellism self; _color := _color self;
     _var_file := _var_file self; _version := _version self;
     _planfile := _planfile self |}.

(** [Terraform.input(self, enable)]. *)
Definition input (self : Terraform) (enable : bool) : Terraform :=
  {| _workspace := _workspace self; chdir := chdir self; _lock := _lock self;
     _lock_timeout := _lock_timeout self; _input := enable;
     _paralellism := _paralellism self; _color := _color self;
     _var_file := _var_file self; _version := _version self;
     _planfile := _planfile self |}.

(** [Terraform.lock_timeout(self, timeout)]. *)
Definition lock_timeout (self : Terraform) (timeout : Z) : Terraform :=
  {| _workspace := _workspace self; chdir := chdir self; _lock := _lock self;
     _lock_timeout := timeout; _input := _input self;
     _paralellism := _paralellism self; _color := _color self;
     _var_file := _var_file self; _version := _version self;
     _planfile := _planfile self |}.

(** *** The global arguments *)

(** [Terraform._global_args(self, chdir)]. *)
Definition _global_args (self : Terraform) (chdir' : option string)
    : result (list string) :=
  let args := [] in
  match chdir' with
  | Some d => a ← _build_arg "chdir" (SStr d); Ok (args ++ [a])
  | None =>
      match chdir self with
      | Some d =>
          if negb (String.eqb d ".")
          then a ← _build_arg "chdir" (SStr d); Ok (args ++ [a])
          else Ok args
      | None => Ok args
      end
  end.

(** *** The commands without a version gate *)

(** [self.color]: the method, as [self.lock] is. *)
Definition getattr_color (self : Terraform) : attribute := BoundMethod "color".

(** [Terraform._build_arg(arg, value)] on what an attribute lookup gave. A
    bound method is no [bool] and no [str]: a bare flag is left out, and
    an option that takes a value would get the method's [repr], which
    holds an address. *)
Definition _build_arg_attribute (arg : string) (value : attribute) : result string :=
  match value with
  | Value v => _build_arg arg v
  | BoundMethod _ =>
      res ← terraform_arg arg;
      valued ← ends_with_eq res;
      match valued with
      | true => Raise OutsideEmbedding
      | false => Ok ""
      end
  end.

(** [if x:] on an optional [bool]. *)
Definition truthy (x : option bool) : bool :=
  match x with
  | Some true => true
  | _ => false
  end.

(** The f-string's text for an optional [str]. *)
Definition format_opt (x : option string) : string :=
  match x with
  | Some s => s
  | None => "None"
  end.

Definition completed_s (what : string) (d : pyfloat) : string :=
  "Terraform " +:+ what +:+ " completed in " +:+ float_str d +:+ "s".

Record get_args := {
  get_update : option bool;
  get_color : option bool
}.

Definition get_defaults : get_args := {| get_update := None; get_color := None |}.

Record host_args := {
  hostname : option string;
  host_chdir : option string
}.

Definition host_defaults : host_args := {| hostname := None; host_chdir := None |}.

Record fmt_args := {
  fmt_list_files : bool;
  fmt_diff : bool;
  fmt_write : bool;
  fmt_check : bool;
  fmt_recursive : bool;
  fmt_chdir : option string
}.

Definition fmt_defaults : fmt_args :=
  {| fmt_list_files := true; fmt_diff := false; fmt_write := true;
     fmt_check := false; fmt_recursive := false; fmt_chdir := None |}.

Record validate_args := {
  validate_json : option bool;
  validate_color : option bool;
  validate_chdir : option string
}.

Definition validate_defaults : validate_args :=
  {| validate_json := Some false; validate_color := None; validate_chdir := None |}.

Record output_args := {
  output_name : option string;
  output_json : option bool;
  output_raw : option bool;
  output_color : option bool;
  output_state : option string;
  output_chdir : option string
}.

Definition output_defaults : output_args :=
  {| output_name := None; output_json := Some true; output_raw := None;
     output_color := None; output_state := None; output_chdir := None |}.

(** [get]: the command list. *)
Definition get_command (a : get_args) : result (list string) :=
  let cmd := ["get"] in
  cmd ← append_arg cmd "update" (opt_bool (get_update a));
  cmd ← append_arg cmd "color" (opt_bool (get_color a));
  Ok cmd.

(** [login] and [logout]: the command list. *)
Definition host_command (what : string) (a : host_args) : list string :=
  let cmd := [what] in
  match hostname a with
  | None | Some "" => cmd
  | Some host => cmd ++ [shlex_quote host]
  end.

(** [fmt]: the command list (of the second definition of [fmt], which is
    the one the class keeps). *)
Definition fmt_command (a : fmt_args) : result (list string) :=
  let cmd := ["fmt"] in
  cmd ← append_arg cmd "diff" (SBool (fmt_diff a));
  cmd ← append_arg cmd "check" (SBool (fmt_check a));
  cmd ← append_arg cmd "recursive" (SBool (fmt_recursive a));
  cmd ← (if negb (fmt_list_files a)
         then append_arg cmd "list" (SBool (fmt_list_files a))
         else Ok cmd);
  cmd ← (if negb (fmt_write a)
         then append_arg cmd "write" (SBool (fmt_write a))
         else Ok cmd);
  Ok cmd.

(** [if color is False: color = self.color]. *)
Definition resolve_color (self : Terraform) (color : option bool) : attribute :=
  match color with
  | Some false => getattr_color self
  | _ => Value (opt_bool color)
  end.

(** [validate]: the command list. *)
Definition validate_command (self : Terraform) (a : validate_args)
    : result (list string) :=
  let cmd := ["validate"] in
  let color := resolve_color self (validate_color a) in
  token ← _build_arg_attribute "color" color;
  let cmd := cmd ++ [token] in
  cmd ← append_arg cmd "json" (opt_bool (validate_json a));
  Ok cmd.

(** [output]: the command list. *)
Definition output_command (self : Terraform) (a : output_args)
    : result (list string) :=
  let cmd := ["output"] in
  let color := resolve_color self (output_color a) in
  token ← _build_arg_attribute "color" color;
  let cmd := cmd ++ [token] in
  cmd ← append_arg cmd "json" (opt_bool (output_json a));
  cmd ← append_arg cmd "raw" (opt_bool (output_raw a));
  cmd ← append_arg cmd "state" (opt_str (output_state a));
  match output_name a with
  | None | Some "" => Ok cmd
  | Some name => Ok (cmd ++ [shlex_quote name])
  end.

Section MoreCommands.

Variable run_command : Call → CommandResult.

(** [Terraform.get]. *)
Definition get (self : Terraform) (a : get_args) : run bool :=
  cmd ← lift (get_command a);
  let result := run_command (cmd_call cmd (Some "Terraform get") (chdir self)
                               true None None) in
  (if success result
   then log Success (completed "get" (duration result))
   else throw (TerraformError OpGet
                 {| f_message := "Failed to run terraform get";
                    f_command := "get"; f_stderr := stderr result;
                    f_duration := duration result |}));;
  mret (success result).

(** [Terraform.login]. *)
Definition login (self : Terraform) (a : host_args) : run bool :=
  let cmd := host_command "login" a in
  let result := run_command (cmd_call cmd (Some "Terraform login")
                               (resolve_chdir self (host_chdir a)) true None None) in
  (if success result
   then log Success (completed "login" (duration result))
   else throw (TerraformError OpLogin
                 {| f_message := "Failed to terraform login to host '"
                                 +:+ format_opt (hostname a) +:+ "'";
                    f_command := "login"; f_stderr := stderr result;
                    f_duration := duration result |}));;
  mret (success result).

(** [Terraform.logout]. *)
Definition logout (self : Terraform) (a : host_args) : run bool :=
  let cmd := host_command "logout" a in
  let result := run_command (cmd_call cmd (Some "Terraform logout")
                               (resolve_chdir self (host_chdir a)) true None None) in
  (if success result
   then log Success (completed "logout" (duration result))
   else throw (TerraformError OpLogout
                 {| f_message := "Failed to terraform logout to host '"
                                 +:+ format_opt (hostname a) +:+ "'";
                    f_command := "logout"; f_stderr := stderr result;
                    f_duration := duration result |}));;
  mret (success result).

(** [Terraform.fmt]. *)
Definition fmt (self : Terraform) (a : fmt_args) : run bool :=
  cmd ← lift (fmt_command a);
  let result := run_command (cmd_call cmd (Some "Terraform fmt")
                               (resolve_chdir self (fmt_chdir a)) true None None) in
  (if success result
   then log Success (completed_s "fmt" (duration result))
   else throw (TerraformError OpFmt
                 {| f_message := "Failed to run terraform fmt";
                    f_command := "fmt"; f_stderr := stderr result;
                    f_duration := duration result |}));;
  mret (success result).

(** [Terraform.validate]. *)
Definition validate (self : Terraform) (a : validate_args) : run bool :=
  cmd ← lift (validate_command self a);
  let result := run_command (cmd_call cmd (Some "Terraform validate")
                               (resolve_chdir self (validate_chdir a)) true None None) in
  (if success result
   then log Success (completed_s "validate" (duration result))
   else throw (TerraformError OpValidate
                 {| f_message := "Failed to run terraform validate";
                    f_command := "validate"; f_stderr := stderr result;
                    f_duration := duration result |}));;
  mret (success result).

(** [Terraform.output]. The [print] of the exit code goes to the standard
    output of the process, which is no part of the log. *)
Definition output (self : Terraform) (a : output_args) : run pyval :=
  log_value Info (PList [PStr "output"]);;
  cmd ← lift (output_command self a);
  let result := run_command (cmd_call cmd (Some "Terraform output")
                               (resolve_chdir self (output_chdir a))
                               (negb (truthy (output_json a))) None None) in
  (if success result
   then log Success (completed_s "output" (duration result))
   else throw (TerraformError OpOutput
                 {| f_message := "Failed to run terraform output";
                    f_command := "output"; f_stderr := stderr result;
                    f_duration := duration result |}));;
  if truthy (output_json a)
  then lift (json_loads (stdout result))
  else mret (PBool (success result)).

End MoreCommands.
(** ** Predicates and inputs of the statements about the rest of the wrapper *)

(** The text [_build_arg] puts after the template of an option that takes
    a value. *)
Definition arg_text (value : scalar) : string :=
  match value with
  | SBool b => if b then "true" else "false"
  | v => py_str v
  end.
(** A character of a text that [VERSION_REGEX] matches. *)
Definition version_char (c : ascii) : bool :=
  is_digit c || Ascii.eqb c "." || Ascii.eqb c LF.

(** [cmd_to_array] on the one text the wrapper gives it. *)
Definition words (text : string) : list string := ["terraform"; "version"; "-json"].

(** The report of an engine 1.5.0, as the engine prints it, and the one of
    a pre-release. *)
Definition report_1_5_0 : string :=
  q "{'terraform_version': '1.5.0', 'platform': 'linux_amd64', 'provider_selections': {}, 'terraform_outdated': false}".

Definition report_beta : string :=
  q "{'terraform_version': '1.6.0-beta1', 'platform': 'linux_amd64', 'provider_selections': {}, 'terraform_outdated': false}".
(** ** Predicates of the statements about the aggregator *)

Definition is_dict (v : pyval) : bool :=
  match v with
  | PDict _ => true
  | _ => false
  end.

(** An entry the aggregate can hold: [outputs], [changes], or [result]
    with a [dict]. *)
Definition aggregate_entry (kv : scalar * pyval) : bool :=
  match kv with
  | (SStr k, v) =>
      String.eqb k "outputs" || String.eqb k "changes"
      || (String.eqb k "result" && is_dict v)
  | _ => false
  end.

Definition aggregate (d : pydict) : bool := forallb aggregate_entry d.

(** A statement sequence that keeps the aggregate an aggregate. *)
Definition keeps {A} (m : stateful A) : Prop :=
  ∀ st, aggregate st = true → aggregate (m st).1 = true.

(** A line that is no event of the three kinds: the decoder refuses it as
    no JSON, or it is no object, has no [type], or has another [type]. A
    line that denotes a value without an image in the embedding (a number
    with a fraction or an exponent, an escape above U+00FF) is not one: the
    code decodes such a line, and may find an event in it. *)
Definition ignored (text : string) : bool :=
  match json_loads text with
  | Ok line =>
      match getitem line "type" with
      | Ok ty =>
          negb (eq_str ty "outputs" || eq_str ty "change_summary"
                || eq_str ty "apply_complete")
      | Raise _ => true
      end
  | Raise JSONDecodeError => true
  | Raise _ => false
  end.

(** [line["hook"]["resource"]["addr"]], as a key. *)
Definition hook_address (line : pyval) : result scalar :=
  hook ← getitem line "hook";
  resource ← getitem hook "resource";
  addr ← getitem resource "addr";
  as_key addr.

(** A stream with a line of noise in the middle, the same stream without
    it, and an [apply_complete] event that has no hook. *)
Definition stream_with_noise : string :=
  line_outputs +:+ str1 LF +:+ line_not_json +:+ str1 LF +:+ line_apply_complete.

Definition stream_without_noise : string :=
  line_outputs +:+ str1 LF +:+ line_apply_complete.

Definition line_no_hook : string := q "{'type':'apply_complete'}".

Definition line_outputs_again : string := q "{'type':'outputs','outputs':{'b':2}}".
(** An executor that runs the completion callback on what the subprocess
    wrote and keeps its value, as [run_command] is asked to. *)
Definition calling_executor (out : string) (call : Call) : CommandResult :=
  {| success := true; stdout := out; stderr := "";
     callback_output :=
       match callback call with
       | Some f =>
           match f (Some out) (Some "") with
           | Ok v => v
           | Raise _ => PNone
           end
       | None => PNone
       end;
     duration := Float "0.25" |}.

(** What a command raises when the subprocess fails. *)
Definition command_failure (op : operation) (message command : string)
    (r : CommandResult) : exn :=
  TerraformError op
    {| f_message := message; f_command := command; f_stderr := stderr r;
       f_duration := duration r |}.

(** * Facts *)

(** ** Strings *)

(** [simpl] leaves [+:+] alone; these two equations unfold it. *)
Lemma app_cons_str (c : ascii) (s t : string) : String c s +:+ t = String c (s +:+ t).
Proof. reflexivity. Qed.

Lemma app_nil_l_str (t : string) : "" +:+ t = t.
Proof. reflexivity. Qed.

Lemma app_nil_r_str (s : string) : s +:+ "" = s.
Proof. induction s as [|c s IH]; [done|]. by rewrite app_cons_str, IH. Qed.

Lemma app_assoc_str (s t u : string) : (s +:+ t) +:+ u = s +:+ (t +:+ u).
Proof. induction s as [|c s IH]; [done|]. by rewrite !app_cons_str, IH. Qed.

Lemma length_app_str (s t : string) :
  String.length (s +:+ t) = (String.length s + String.length t)%nat.
Proof. induction s as [|c s IH]; [done|]. rewrite app_cons_str. simpl. by rewrite IH. Qed.

Lemma string_of_uint_nonempty (d : uint) : d ≠ Nil → string_of_uint d ≠ "".
Proof. by destruct d. Qed.

Lemma str_int_nonempty (z : Z) : str_int z ≠ "".
Proof.
  destruct z as [|p|p]; simpl; try done.
  apply string_of_uint_nonempty, DecimalPos.Unsigned.to_uint_nonnil.
Qed.

Lemma nonempty_length (s : string) : s ≠ "" → (0 <? String.length s)%nat = true.
Proof. by destruct s. Qed.

(** ** The argument builder *)

Section BuildArg.

Variables (opt template : string).
Hypothesis Hopt : TERRAFORM_ARGS !! opt = Some template.

Lemma terraform_arg_known : terraform_arg opt = Ok template.
Proof. unfold terraform_arg. by rewrite Hopt. Qed.

(** An option that takes a value. *)
Section Valued.

Hypothesis Hvalued : ends_with_eq template = Ok true.

Lemma build_arg_valued_none : _build_arg opt SNone = Ok "".
Proof. unfold _build_arg. by rewrite terraform_arg_known; simpl; rewrite Hvalued. Qed.

Lemma build_arg_valued_bool (b : bool) :
  _build_arg opt (SBool b) = Ok (bool_token template b).
Proof. unfold _build_arg. by rewrite terraform_arg_known; simpl; rewrite Hvalued. Qed.

Lemma build_arg_valued_int (z : Z) :
  _build_arg opt (SInt z) = Ok (template +:+ str_int z).
Proof.
  unfold _build_arg. rewrite terraform_arg_known; simpl; rewrite Hvalued; simpl.
  by rewrite (nonempty_length _ (str_int_nonempty z)).
Qed.

Lemma build_arg_valued_str (s : string) :
  _build_arg opt (SStr s) = Ok (value_token template (Some s)).
Proof.
  unfold _build_arg. rewrite terraform_arg_known; simpl; rewrite Hvalued.
  by destruct s.
Qed.

Lemma build_arg_valued_opt_str (x : option string) :
  _build_arg opt (opt_str x) = Ok (value_token template x).
Proof.
  destruct x as [s|]; simpl; [apply build_arg_valued_str | apply build_arg_valued_none].
Qed.

Lemma build_arg_valued_opt_bool (x : option bool) :
  _build_arg opt (opt_bool x)
  = Ok (match x with None => "" | Some b => bool_token template b end).
Proof.
  destruct x as [b|]; simpl; [apply build_arg_valued_bool | apply build_arg_valued_none].
Qed.

End Valued.

(** A bare flag. *)
Section Flag.

Hypothesis Hflag : ends_with_eq template = Ok false.

Lemma build_arg_flag (b : bool) : _build_arg opt (SBool b) = Ok (flag_token template b).
Proof. unfold _build_arg. by rewrite terraform_arg_known; simpl; rewrite Hflag. Qed.

End Flag.

End BuildArg.

(** From here on the builder is used through the equations above (or by
    computation on closed terms); [simpl] does not unfold the table. *)
Opaque _build_arg terraform_arg.

(** ** The lists the assemblers build, written out *)

(** Rewrites every call of the builder on a known option into its token. *)
Ltac build_arg :=
  repeat match goal with
  | |- context [_build_arg ?o (SBool ?b)] =>
      let t := eval vm_compute in (TERRAFORM_ARGS !! o) in
      match t with
      | Some ?tmpl =>
          first [ rewrite (build_arg_flag o tmpl eq_refl eq_refl b)
                | rewrite (build_arg_valued_bool o tmpl eq_refl eq_refl b) ]
      end
  | |- context [_build_arg ?o (SInt ?z)] =>
      let t := eval vm_compute in (TERRAFORM_ARGS !! o) in
      match t with
      | Some ?tmpl => rewrite (build_arg_valued_int o tmpl eq_refl eq_refl z)
      end
  | |- context [_build_arg ?o (opt_str ?x)] =>
      let t := eval vm_compute in (TERRAFORM_ARGS !! o) in
      match t with
      | Some ?tmpl => rewrite (build_arg_valued_opt_str o tmpl eq_refl eq_refl x)
      end
  | |- context [_build_arg ?o (opt_bool ?x)] =>
      let t := eval vm_compute in (TERRAFORM_ARGS !! o) in
      match t with
      | Some ?tmpl => rewrite (build_arg_valued_opt_bool o tmpl eq_refl eq_refl x)
      end
  | |- context [_build_arg ?o (SStr ?s)] =>
      let t := eval vm_compute in (TERRAFORM_ARGS !! o) in
      match t with
      | Some ?tmpl => rewrite (build_arg_valued_str o tmpl eq_refl eq_refl s)
      end
  | |- context [terraform_arg ?o] =>
      let t := eval vm_compute in (TERRAFORM_ARGS !! o) in
      match t with
      | Some ?tmpl => rewrite (terraform_arg_known o tmpl eq_refl)
      end
  end.

Lemma default_args_eq self color lock lock_timeout input :
  _default_args self color lock lock_timeout input
  = Ok (default_tokens self color lock lock_timeout input).
Proof.
  unfold _default_args, default_tokens, effective_lock_timeout.
  destruct self as [? ? lk lt inp ? col ? ? ?]; simpl.
  destruct color as [c|], lock as [[]|], lock_timeout as [t|], input as [i|],
    col, inp, (0 <? lt);
    build_arg; simpl; try reflexivity;
    destruct (0 <? t); reflexivity.
Qed.

(** Unfolds the binds of the two monads. *)
Ltac run_binds := unfold mbind, mret, result_bind, result_ret, run_bind, run_ret, lift, log, throw; simpl.

Lemma init_command_eq self a :
  init_command self a
  = Ok (["init"]
        ++ (if init_readonly a then ["-lockfile=readonly"] else [])
        ++ default_tokens self (init_color a) (init_lock a) (init_lock_timeout a) (init_input a)
        ++ [flag_token "-upgrade" (init_upgrade a);
            flag_token "-reconfigure" (init_reconfigure a);
            flag_token "-migrate-state" (init_migrate_state a);
            flag_token "-force-copy" (init_force_copy a);
            value_token "-backend-config=" (init_backend_config a);
            value_token "-plugin-dir=" (init_plugin_dir a)]
        ++ (if init_backend a then [] else ["-backend=false"])
        ++ (if init_get a then [] else ["-get=false"])
        ++ (if init_get_plugins a then [] else ["-get-plugins=false"])).
Proof.
  unfold init_command, append_arg. rewrite default_args_eq.
  destruct (init_readonly a), (init_backend a), (init_get a), (init_get_plugins a);
    build_arg; simpl; rewrite <- ?app_assoc; reflexivity.
Qed.

Lemma plan_command_eq self a :
  plan_command self a
  = let gate := ((1 <=? major (version (_version self)))%N
                 && (0 <=? minor (version (_version self)))%N) in
    Run (if gate then []
         else [Log Warn (PStr ("the option '-refresh-only' is supported since the version 1.1.0, and your version is "
                               +:+ version_str (_version self)));
               Log Warn (PStr ("the option '-json' is supported since the version 1.0.0, and your version is "
                               +:+ version_str (_version self)))])
        (Ok (["plan"]
             ++ default_tokens self (plan_color a) (plan_lock a) (plan_lock_timeout a) (plan_input a)
             ++ [if not_str (plan_out a) then value_token "-out=" (Some (_planfile self))
                 else value_token "-out=" (plan_out a)]
             ++ (if gate then [flag_token "-refresh-only" (plan_refresh_only a);
                               flag_token "-json" (plan_json a)] else [])
             ++ ["-parallelism=" +:+ str_int (resolve_parallelism self (plan_parallelism a));
                 flag_token "-destroy" (plan_destroy a);
                 match plan_refresh a with None => "" | Some b => bool_token "-refresh=" b end;
                 value_token "-replace=" (plan_replace a);
                 value_token "-target=" (plan_target a);
                 value_token "-var-file=" (plan_var_file a);
                 value_token "-state=" (plan_state a);
                 flag_token "-compact-warnings" (plan_compact_warnings a)]
             ++ _parse_vars (plan_vars a))).
Proof.
  unfold plan_command, append_arg. rewrite default_args_eq. build_arg.
  destruct ((1 <=? major (version (_version self)))%N
            && (0 <=? minor (version (_version self)))%N), (not_str (plan_out a));
    run_binds; rewrite <- ?app_assoc; reflexivity.
Qed.

Lemma apply_call_eq self a :
  apply_call self a
  = let gate := (1 <=? major (version (_version self)))%N in
    Ok (cmd_call
          (["apply"]
           ++ default_tokens self (apply_color a) (apply_lock a) (apply_lock_timeout a)
                (apply_input a)
           ++ (if gate then [flag_token "-json" (apply_json a)] else [])
           ++ ["-parallelism=" +:+ str_int (resolve_parallelism self (apply_parallelism a));
               flag_token "-auto-approve" (apply_auto_approve a);
               flag_token "-compact-warnings" (apply_compact_warnings a);
               value_token "-state=" (apply_state a);
               value_token "-state-out=" (apply_state_out a);
               value_token "-backup=" (apply_backup a)]
           ++ [shlex_quote (match apply_plan_file a with
                            | None | Some "" => _planfile self
                            | Some plan_file => plan_file
                            end)])
          (Some "Terraform apply") (resolve_chdir self (apply_chdir a))
          (negb (apply_json a) && gate)
          (if gate && apply_json a then Some _apply_callback else None)
          (if gate && apply_json a then Some _apply_line_callback else None)).
Proof.
  unfold apply_call, append_arg. rewrite default_args_eq. build_arg.
  destruct (1 <=? major (version (_version self)))%N, (apply_json a),
    (apply_plan_file a) as [[|c f]|];
    run_binds; rewrite <- ?app_assoc; reflexivity.
Qed.

Lemma destroy_command_eq self a :
  destroy_command self a
  = Ok (["destroy"]
        ++ default_tokens self (destroy_color a) (destroy_lock a)
             (destroy_lock_timeout a) (destroy_input a)
        ++ ["-parallelism=" +:+ str_int (resolve_parallelism self (destroy_parallelism a));
            flag_token "-auto-approve" (destroy_auto_approve a);
            value_token "-target=" (destroy_target a);
            value_token "-var-file=" (destroy_var_file a)]
        ++ _parse_vars (destroy_vars a)).
Proof.
  unfold destroy_command, append_arg. rewrite default_args_eq. build_arg.
  run_binds; rewrite <- ?app_assoc; reflexivity.
Qed.

Lemma show_command_eq self a :
  show_command self a
  = Ok ["show"; flag_token "-json" (show_json a);
        flag_token "-no-color" (match show_color a with Some c => c | None => _color self end);
        shlex_quote (match show_file a with
                     | None | Some "" => _planfile self
                     | Some file => file
                     end)].
Proof.
  unfold show_command, append_arg.
  destruct (show_color a) as [c|], (show_file a) as [[|c' f]|]; build_arg; reflexivity.
Qed.

(** ** The decoder: it consumes its input, and its fuel is enough *)

Lemma skip_ws_length (s : string) : (String.length (skip_ws s) ≤ String.length s)%nat.
Proof.
  induction s as [|c s IH]; simpl; [lia|]. destruct (is_ws c); simpl; lia.
Qed.

Lemma strip_prefix_length (p s r : string) :
  strip_prefix p s = Some r → String.length s = (String.length p + String.length r)%nat.
Proof.
  revert s. induction p as [|a p IH]; intros [|b s] H; simpl in *; simplify_eq; try done.
  destruct (Ascii.eqb a b); [|done]. by rewrite (IH _ H).
Qed.

Lemma progress_bind {A B} (s s' : string) (m : result (A * string))
    (f : A * string → result (B * string)) :
  progress s' m →
  (String.length s' ≤ String.length s)%nat →
  (∀ a rest, (String.length rest < String.length s')%nat → progress s (f (a, rest))) →
  progress s (m ≫= f).
Proof.
  intros Hm Hle Hf. destruct m as [[a rest]|e]; simpl in *; [by apply Hf | done].
Qed.

Lemma scan_string_progress (s : string) : progress s (scan_string s).
Proof.
  remember (String.length s) as n eqn:Hn.
  assert (String.length s ≤ n)%nat as Hle by lia. clear Hn.
  revert s Hle. induction n as [|n IH]; intros [|c r] Hle; simpl in *;
    try (by left); try lia.
  destruct (Ascii.eqb c dquote); [simpl; lia|].
  destruct (Ascii.eqb c backslash).
  - destruct r as [|e r']; [by left|].
    destruct (Ascii.eqb e "u").
    + destruct r' as [|h1 [|h2 [|h3 [|h4 r'']]]]; try (by left).
      destruct (hex4 h1 h2 h3 h4) as [k|]; [|by left].
      destruct (k <? 256)%N; [|by right].
      specialize (IH r''). simpl in Hle.
      destruct (scan_string r'') as [[str rest]|e']; simpl in *; [|apply IH; lia].
      assert (String.length rest < String.length r'')%nat by (apply IH; lia). lia.
    + destruct (unescape e); [|by left].
      specialize (IH r'). simpl in Hle.
      destruct (scan_string r') as [[str rest]|e']; simpl in *; [|apply IH; lia].
      assert (String.length rest < String.length r')%nat by (apply IH; lia). lia.
  - destruct (code c <? 32)%N; [by left|].
    specialize (IH r).
    destruct (scan_string r) as [[str rest]|e']; simpl in *; [|apply IH; lia].
    assert (String.length rest < String.length r)%nat by (apply IH; lia). lia.
Qed.

Lemma scan_digits_length (s : string) :
  (String.length (scan_digits s).2 ≤ String.length s)%nat.
Proof.
  induction s as [|c s IH]; simpl; [lia|].
  destruct (digit_of c); [|simpl; lia].
  destruct (scan_digits s) as [ds rest]; simpl in *. lia.
Qed.

Lemma scan_digits_consumes (c : ascii) (s : string) :
  is_digit c = true →
  (String.length (scan_digits (String c s)).2 < String.length (String c s))%nat.
Proof.
  intros Hd. simpl.
  assert (∃ d, digit_of c = Some d) as [d ->].
  { destruct c as [[] [] [] [] [] [] [] []]; try discriminate Hd; vm_compute; eauto. }
  pose proof (scan_digits_length s). destruct (scan_digits s); simpl in *. lia.
Qed.

Lemma scan_number_progress (s : string) : progress s (scan_number s).
Proof.
  unfold scan_number.
  assert (∀ (neg : bool) (s1 : string), (String.length s1 ≤ String.length s)%nat →
    progress s
      match s1 with
      | "" => Raise JSONDecodeError
      | String c r =>
          if is_digit c then
            let '(u, rest) := if Ascii.eqb c "0" then (D0 Nil, r) else scan_digits s1 in
            if starts_fraction rest || starts_exponent rest then Raise OutsideEmbedding
            else Ok (PInt (let n := Z.of_N (N.of_uint u) in if neg then - n else n), rest)
          else if is_prefix "Infinity" s1 || (negb neg && is_prefix "NaN" s1)
          then Raise OutsideEmbedding
          else Raise JSONDecodeError
      end) as Hmain.
  { intros neg [|c r] Hle; [by left|].
    destruct (is_digit c) eqn:Hd.
    - destruct (Ascii.eqb c "0").
      + destruct (_ || _); [by right|]. simpl in *. lia.
      + pose proof (scan_digits_consumes c r Hd) as Hc.
        destruct (scan_digits (String c r)) as [ds rest].
        destruct (_ || _); [by right|]. simpl in *. lia.
    - destruct (_ || _); [by right | by left]. }
  destruct (strip_prefix "-" s) as [r|] eqn:Hminus.
  - apply (Hmain true). apply strip_prefix_length in Hminus. lia.
  - by apply (Hmain false).
Qed.

(** The steps below split on what [strip_prefix] returns, not on its code. *)
#[local] Opaque strip_prefix.

Lemma parse_progress (fuel : nat) :
  (∀ s, (2 * String.length s + 1 ≤ fuel)%nat → progress s (parse_value fuel s))
  ∧ (∀ s, (2 * String.length s + 2 ≤ fuel)%nat → progress s (parse_elems fuel s))
  ∧ (∀ s, (2 * String.length s + 2 ≤ fuel)%nat → progress s (parse_members fuel s)).
Proof.
  induction fuel as [|fuel (IHv & IHe & IHm)]; [repeat split; intros; lia|].
  repeat split; intros s Hfuel.
  - (* a value *)
    destruct s as [|c r]; [by left|]. simpl in Hfuel. simpl.
    destruct (Ascii.eqb c dquote).
    { eapply progress_bind; [apply scan_string_progress | simpl; lia |].
      intros str rest Hrest. simpl. lia. }
    destruct (Ascii.eqb c "{").
    { pose proof (skip_ws_length r) as Hws.
      destruct (skip_ws r) as [|c' r']; [by left|]. simpl in Hws.
      destruct (Ascii.eqb c' "}"); [simpl; lia|].
      destruct (Ascii.eqb c' dquote); [|by left].
      eapply progress_bind; [apply IHm; lia | simpl; lia |].
      intros pairs rest Hrest. simpl. lia. }
    destruct (Ascii.eqb c "[").
    { pose proof (skip_ws_length r) as Hws.
      destruct (strip_prefix "]" (skip_ws r)) as [r'|] eqn:Hclose.
      - apply strip_prefix_length in Hclose. simpl in *. lia.
      - eapply progress_bind; [apply IHe; lia | simpl; lia |].
        intros l rest Hrest. simpl. lia. }
    destruct (strip_prefix "null" (String c r)) as [rest|] eqn:Hnull.
    { apply strip_prefix_length in Hnull. simpl in *. lia. }
    destruct (strip_prefix "true" (String c r)) as [rest|] eqn:Htrue.
    { apply strip_prefix_length in Htrue. simpl in *. lia. }
    destruct (strip_prefix "false" (String c r)) as [rest|] eqn:Hfalse.
    { apply strip_prefix_length in Hfalse. simpl in *. lia. }
    apply scan_number_progress.
  - (* the elements of an array *)
    simpl.
    eapply progress_bind; [apply (IHv s); lia | lia |].
    intros v rest Hrest. simpl.
    pose proof (skip_ws_length rest) as Hws.
    destruct (skip_ws rest) as [|c r]; [by left|]. simpl in Hws.
    destruct (Ascii.eqb c "]"); [simpl; lia|].
    destruct (Ascii.eqb c ","); [|by left].
    pose proof (skip_ws_length r) as Hws'.
    eapply progress_bind; [apply IHe; lia | lia |].
    intros l rest' Hrest'. simpl. lia.
  - (* the members of an object *)
    simpl.
    eapply progress_bind; [apply scan_string_progress | lia |].
    intros key rest Hrest. simpl.
    pose proof (skip_ws_length rest) as Hws.
    destruct (strip_prefix ":" (skip_ws rest)) as [r|] eqn:Hcolon; [|by left].
    apply strip_prefix_length in Hcolon. simpl in Hcolon.
    pose proof (skip_ws_length r) as Hws'.
    eapply progress_bind; [apply IHv; lia | lia |].
    intros v rest' Hrest'. simpl.
    pose proof (skip_ws_length rest') as Hws''.
    destruct (skip_ws rest') as [|c r']; [by left|]. simpl in Hws''.
    destruct (Ascii.eqb c "}"); [simpl; lia|].
    destruct (Ascii.eqb c ","); [|by left].
    pose proof (skip_ws_length r') as Hws3.
    destruct (skip_ws r') as [|c' r'']; [by left|]. simpl in Hws3.
    destruct (Ascii.eqb c' dquote); [|by left].
    eapply progress_bind; [apply IHm; lia | lia |].
    intros pairs rest'' Hrest''. simpl. lia.
Qed.

#[local] Transparent strip_prefix.

(** [json.loads] never runs out of fuel: it returns a value or fails as a
    decoder. *)
Lemma json_loads_failure (s : string) (e : exn) :
  json_loads s = Raise e → decode_failure e.
Proof.
  unfold json_loads. intros H.
  pose proof (skip_ws_length s) as Hws.
  pose proof (proj1 (parse_progress (S (2 * String.length s))) (skip_ws s)) as Hp.
  destruct (parse_value _ _) as [[v rest]|e']; simpl in *.
  - destruct (skip_ws rest); [done|]. simplify_eq. by left.
  - simplify_eq. apply Hp. lia.
Qed.

(** ** Which tokens an argument vector can hold *)

Lemma has_char_app (c : ascii) (s t : string) :
  has_char c (s +:+ t) = has_char c s || has_char c t.
Proof.
  induction s as [|c' s IH]; [done|]. rewrite app_cons_str. simpl.
  by rewrite IH, orb_assoc.
Qed.

(** A token built from a template that holds [=] differs from every text
    that holds none. *)
Lemma app_ne_without_eq (template s x : string) :
  has_char "=" template = true → has_char "=" x = false → template +:+ s ≠ x.
Proof.
  intros Ht Hx <-. rewrite has_char_app, Ht in Hx. done.
Qed.

Lemma value_token_ne (template : string) (o : option string) (x : string) :
  has_char "=" template = true → has_char "=" x = false → x ≠ "" →
  value_token template o ≠ x.
Proof.
  intros Ht Hx Hne. destruct o as [[|c s]|]; simpl; try done.
  by apply app_ne_without_eq.
Qed.

Lemma bool_token_ne (template : string) (b : bool) (x : string) :
  has_char "=" template = true → has_char "=" x = false → bool_token template b ≠ x.
Proof. intros. by apply app_ne_without_eq. Qed.

Lemma flag_token_ne (template : string) (b : bool) (x : string) :
  template ≠ x → x ≠ "" → flag_token template b ≠ x.
Proof. by destruct b. Qed.

Lemma default_tokens_ne (self : Terraform) (color lock : option bool)
    (lock_timeout : option Z) (input : option bool) (x : string) :
  has_char "=" x = false → x ≠ "" → x ≠ "-no-color" →
  Forall (λ t, t ≠ x) (default_tokens self color lock lock_timeout input).
Proof.
  intros Hx Hne Hcolor. unfold default_tokens.
  repeat apply Forall_app_2.
  - destruct color as [c|]; [|destruct (_color self)];
      repeat constructor; [by apply flag_token_ne | done].
  - destruct lock as [[]|]; repeat constructor. intros <-. done.
  - destruct (effective_lock_timeout self lock_timeout); repeat constructor.
    by apply app_ne_without_eq.
  - destruct input as [i|]; [|destruct (_input self)]; repeat constructor.
    + by apply bool_token_ne.
    + intros <-. done.
Qed.

Lemma parse_vars_ne (vars : option (list (string * pyval))) (x : string) :
  has_char "=" x = false → x ≠ "-var" →
  Forall (λ t, t ≠ x) (_parse_vars vars).
Proof.
  intros Hx Hvar. destruct vars as [d|]; [|constructor].
  induction d as [|[key value] d IH]; simpl; [constructor|].
  constructor; [done|]. constructor; [|exact IH].
  intros <-. rewrite !has_char_app in Hx. simpl in Hx.
  by rewrite orb_true_r in Hx.
Qed.

(** Counting the empty elements of an argument vector. *)
Lemma count_empty_app (l1 l2 : list string) :
  count_empty (l1 ++ l2) = (count_empty l1 + count_empty l2)%nat.
Proof. unfold count_empty. by rewrite filter_app, length_app. Qed.

Lemma count_empty_cons (t : string) (l : list string) :
  count_empty (t :: l) = ((if decide (t = "") then 1 else 0) + count_empty l)%nat.
Proof. unfold count_empty. rewrite filter_cons. by destruct (decide (t = "")). Qed.

Lemma count_false_cons (b : bool) (l : list bool) :
  count_false (b :: l) = ((if b then 0 else 1) + count_false l)%nat.
Proof. unfold count_false. rewrite filter_cons. by destruct b. Qed.

Lemma count_none_cons {A} (x : option A) (l : list (option A)) :
  count_none (x :: l)
  = (match x with Some _ => 0 | None => 1 end + count_none l)%nat.
Proof. unfold count_none. rewrite filter_cons. by destruct x. Qed.

Lemma flag_token_false (template : string) (b : bool) :
  b = false → flag_token template b = "".
Proof. by intros ->. Qed.

(** Splits a statement about every token of an assembled list into one
    statement per token. *)
Ltac split_tokens :=
  repeat match goal with
  | |- Forall _ (default_tokens _ _ _ _ _) => by apply default_tokens_ne
  | |- Forall _ (_parse_vars _) => by apply parse_vars_ne
  | |- Forall _ (_ ++ _) => apply Forall_app_2
  | |- Forall _ (_ :: _) => apply Forall_cons_2
  | |- Forall _ [] => apply Forall_nil_2
  end.

Lemma version_gate (self : Terraform) :
  ((1 <=? major (version (_version self)))%N && (0 <=? minor (version (_version self)))%N)
  = (1 <=? major (version (_version self)))%N.
Proof.
  rewrite (proj2 (N.leb_le 0 (minor (version (_version self)))) (N.le_0_l _)).
  apply andb_true_r.
Qed.

(** ** The decoder reads back what the encoder wrote *)

(** *** Strings *)

Lemma scan_escape_char (c : ascii) (t : string) :
  scan_string (escape_char c +:+ t)
  = '(str, rest) ← scan_string t; Ok (String c str, rest).
Proof.
  destruct c as [[] [] [] [] [] [] [] []]; cbv [escape_char]; simpl; reflexivity.
Qed.

Lemma scan_escape_string (s rest : string) :
  scan_string (escape_string s +:+ String dquote rest) = Ok (s, rest).
Proof.
  induction s as [|c s IH]; [reflexivity|].
  simpl escape_string. rewrite app_assoc_str, scan_escape_char, IH. reflexivity.
Qed.

Lemma scan_quoted_char (c : ascii) (t : string) :
  plain_char c = true →
  scan_string (escape_quotes (String c "") +:+ t)
  = '(str, rest) ← scan_string t; Ok (String c str, rest).
Proof.
  destruct c as [[] [] [] [] [] [] [] []]; intros Hc; try discriminate Hc;
    simpl; reflexivity.
Qed.

Lemma escape_quotes_cons (c : ascii) (s : string) :
  escape_quotes (String c s) = escape_quotes (String c "") +:+ escape_quotes s.
Proof. simpl. destruct (Ascii.eqb c dquote); reflexivity. Qed.

Lemma scan_escape_quotes (s rest : string) :
  plain s = true →
  scan_string (escape_quotes s +:+ String dquote rest) = Ok (s, rest).
Proof.
  induction s as [|c s IH]; [reflexivity|].
  unfold plain. simpl all_chars. intros [Hc Hs]%andb_true_iff.
  rewrite escape_quotes_cons, app_assoc_str, scan_quoted_char, IH by done.
  reflexivity.
Qed.

(** *** Numbers *)

Lemma delimited_after_number (rest : string) :
  delimited rest = true →
  scan_digits rest = (Nil, rest)
  ∧ starts_fraction rest = false ∧ starts_exponent rest = false.
Proof.
  destruct rest as [|c r]; [done|].
  destruct c as [[] [] [] [] [] [] [] []]; intros H; try discriminate H; done.
Qed.

#[local] Opaque starts_fraction starts_exponent.

Lemma scan_digits_uint (d : uint) (rest : string) :
  scan_digits rest = (Nil, rest) →
  scan_digits (string_of_uint d +:+ rest) = (d, rest).
Proof.
  intros Hrest.
  induction d as [|d IH|d IH|d IH|d IH|d IH|d IH|d IH|d IH|d IH|d IH];
    simpl string_of_uint; [done|..];
    rewrite app_cons_str; simpl; by rewrite IH.
Qed.

Lemma pos_to_uint_head (p : positive) :
  match Pos.to_uint p with
  | Nil | D0 _ => False
  | _ => True
  end.
Proof.
  pose proof (DecimalPos.Unsigned.to_of (Pos.to_uint p)) as Hnorm.
  rewrite DecimalPos.Unsigned.of_to in Hnorm. simpl in Hnorm.
  pose proof (DecimalPos.Unsigned.to_uint_nonzero p) as Hnz.
  destruct (Pos.to_uint p) as [|d| | | | | | | | |] eqn:Hp; try done.
  rewrite DecimalFacts.unorm_D0 in Hnorm. unfold unorm in Hnorm.
  destruct (nzhead d) as [|u| | | | | | | | |] eqn:Hd; try discriminate Hnorm.
  - injection Hnorm as ->. by apply Hnz.
  - by apply (DecimalFacts.nzhead_nonzero d u).
Qed.

Lemma scan_number_N (neg : bool) (p : positive) (rest : string) :
  delimited rest = true →
  match string_of_uint (Pos.to_uint p) +:+ rest with
  | "" => Raise JSONDecodeError
  | String c r =>
      if is_digit c then
        let '(u, rest) :=
          if Ascii.eqb c "0" then (D0 Nil, r)
          else scan_digits (string_of_uint (Pos.to_uint p) +:+ rest) in
        if starts_fraction rest || starts_exponent rest then Raise OutsideEmbedding
        else Ok (PInt (let n := Z.of_N (N.of_uint u) in if neg then - n else n), rest)
      else if is_prefix "Infinity" (string_of_uint (Pos.to_uint p) +:+ rest)
              || (negb neg && is_prefix "NaN" (string_of_uint (Pos.to_uint p) +:+ rest))
      then Raise OutsideEmbedding
      else Raise JSONDecodeError
  end = Ok (PInt (if neg then Zneg p else Zpos p), rest).
Proof.
  intros Hrest. destruct (delimited_after_number rest Hrest) as (Hd & Hf & He).
  rewrite (scan_digits_uint (Pos.to_uint p) rest Hd).
  pose proof (DecimalPos.Unsigned.of_to p) as Hof.
  pose proof (pos_to_uint_head p) as Hhead.
  destruct (Pos.to_uint p) as [|d|d|d|d|d|d|d|d|d|d]; try done;
    simpl string_of_uint; rewrite app_cons_str; simpl;
    rewrite Hf, He; simpl in Hof |- *; injection Hof as <-; by destruct neg.
Qed.

Lemma scan_number_int (z : Z) (rest : string) :
  delimited rest = true →
  scan_number (str_int z +:+ rest) = Ok (PInt z, rest).
Proof.
  intros Hrest. unfold scan_number.
  destruct z as [|p|p]; simpl str_int.
  - destruct (delimited_after_number rest Hrest) as (_ & Hf & He).
    rewrite app_cons_str, app_nil_l_str. simpl. by rewrite Hf, He.
  - unfold str_N. simpl N.to_uint.
    assert (strip_prefix "-" (string_of_uint (Pos.to_uint p) +:+ rest) = None) as ->.
    { pose proof (pos_to_uint_head p).
      destruct (Pos.to_uint p); try done; reflexivity. }
    apply (scan_number_N false p rest Hrest).
  - unfold str_N. simpl N.to_uint. rewrite app_cons_str.
    change (strip_prefix "-" (String "-" ?s)) with (Some s).
    apply (scan_number_N true p rest Hrest).
Qed.

#[local] Transparent starts_fraction starts_exponent.

(** A text that starts like a number is read by [scan_number]. *)
Lemma parse_value_number (fuel : nat) (z : Z) (rest : string) :
  parse_value (S fuel) (str_int z +:+ rest) = scan_number (str_int z +:+ rest).
Proof.
  assert (∃ c r, str_int z +:+ rest = String c r
                 ∧ (is_digit c || Ascii.eqb c "-") = true) as (c & r & -> & Hc).
  { destruct z as [|p|p]; simpl str_int; unfold str_N; simpl N.to_uint.
    - by eexists _, _.
    - pose proof (pos_to_uint_head p).
      destruct (Pos.to_uint p); try done; by eexists _, _.
    - by eexists _, _. }
  destruct c as [[] [] [] [] [] [] [] []]; try discriminate Hc; reflexivity.
Qed.

(** *** Dictionaries: distinct string keys come back in their order *)

Lemma dict_set_fresh (k : scalar) (v : pyval) (d : pydict) :
  existsb (λ k', scalar_eqb k' k) (map fst d) = false →
  dict_set k v d = d ++ [(k, v)].
Proof.
  induction d as [|[k' v'] d IH]; [done|]. simpl.
  intros [Hk Hd]%orb_false_iff. rewrite Hk. by rewrite IH.
Qed.

Lemma distinct_keys_middle (l1 l2 : list scalar) (k : scalar) :
  distinct_keys (l1 ++ k :: l2) = true →
  existsb (λ k', scalar_eqb k' k) l1 = false.
Proof.
  induction l1 as [|k1 l1 IH]; [done|]. simpl.
  intros [Hk1 Hrest]%andb_true_iff. rewrite (IH Hrest), orb_false_r.
  apply negb_true_iff in Hk1. rewrite existsb_app in Hk1.
  apply orb_false_iff in Hk1 as [_ Hk1]. simpl in Hk1.
  by apply orb_false_iff in Hk1 as [Hk1 _].
Qed.

Lemma dict_of_pairs_distinct (d acc : pydict) :
  forallb (λ kv, is_str_key kv.1 && json_like kv.2) d = true →
  distinct_keys (map fst acc ++ map fst d) = true →
  fold_left (λ (d : pydict) (kv : string * pyval), dict_set (SStr kv.1) kv.2 d)
    (map (λ kv : scalar * pyval, (dumps_key kv.1, kv.2)) d) acc
  = acc ++ d.
Proof.
  revert acc. induction d as [|[k x] d IH]; intros acc Hkeys Hdistinct.
  - by rewrite app_nil_r.
  - simpl in Hkeys. apply andb_true_iff in Hkeys as [[Hk _]%andb_true_iff Hkeys].
    destruct k as [| | |s]; try discriminate Hk. simpl.
    rewrite dict_set_fresh by (by eapply distinct_keys_middle).
    rewrite IH; [by rewrite <- app_assoc | done |].
    by rewrite map_app, <- app_assoc.
Qed.

Lemma dict_of_pairs_dumps (d : pydict) :
  json_like (PDict d) = true →
  dict_of_pairs (map (λ kv : scalar * pyval, (dumps_key kv.1, kv.2)) d) = d.
Proof.
  simpl. intros [Hdistinct Hkeys]%andb_true_iff.
  unfold dict_of_pairs. by rewrite dict_of_pairs_distinct.
Qed.

(** *** How the text of a value starts, and what follows it *)

Lemma str_int_head (z : Z) :
  ∃ c r, str_int z = String c r ∧ (is_digit c || Ascii.eqb c "-") = true.
Proof.
  destruct z as [|p|p]; simpl str_int; unfold str_N; simpl N.to_uint.
  - by eexists _, _.
  - pose proof (pos_to_uint_head p).
    destruct (Pos.to_uint p); try done; by eexists _, _.
  - by eexists _, _.
Qed.

Lemma json_dumps_head (v : pyval) :
  ∃ c r, json_dumps v = String c r
         ∧ is_ws c = false ∧ Ascii.eqb c "]" = false.
Proof.
  destruct v as [[|[]|z|s]|l|l|d]; try (by eexists _, _).
  destruct (str_int_head z) as (c & r & Hz & Hc). exists c, r.
  split; [done|].
  destruct c as [[] [] [] [] [] [] [] []]; try discriminate Hc; done.
Qed.

Lemma skip_ws_json_dumps (v : pyval) (t : string) :
  skip_ws (json_dumps v +:+ t) = json_dumps v +:+ t.
Proof.
  destruct (json_dumps_head v) as (c & r & -> & Hws & _).
  rewrite app_cons_str. simpl. by rewrite Hws.
Qed.

Lemma skip_ws_delimited (rest : string) :
  delimited rest = true → skip_ws rest = rest.
Proof.
  destruct rest as [|c r]; [done|].
  destruct c as [[] [] [] [] [] [] [] []]; intros H; try discriminate H; done.
Qed.

(** *** One step of the decoder, on a text whose parts are known *)

Lemma strip_prefix_mismatch (a c : ascii) (p r : string) :
  Ascii.eqb c a = false → strip_prefix (String a p) (String c r) = None.
Proof. intros H. simpl. by rewrite Ascii.eqb_sym, H. Qed.

Lemma skip_ws_space (t : string) : skip_ws (String " " t) = skip_ws t.
Proof. reflexivity. Qed.

Lemma parse_value_string (fuel : nat) (s str rest : string) :
  scan_string s = Ok (str, rest) →
  parse_value (S fuel) (String dquote s) = Ok (PStr str, rest).
Proof. intros H. simpl. by rewrite H. Qed.

Lemma parse_value_empty_list (fuel : nat) (rest : string) :
  parse_value (S fuel) (String "[" (String "]" rest)) = Ok (PList [], rest).
Proof. reflexivity. Qed.

#[local] Opaque strip_prefix.

Lemma parse_value_list (fuel : nat) (t rest : string) (l : list pyval) :
  skip_ws t = t → strip_prefix "]" t = None →
  parse_elems fuel t = Ok (l, rest) →
  parse_value (S fuel) (String "[" t) = Ok (PList l, rest).
Proof. intros Hws Hopen H. simpl. by rewrite Hws, Hopen, H. Qed.

#[local] Transparent strip_prefix.

Lemma parse_value_empty_dict (fuel : nat) (rest : string) :
  parse_value (S fuel) (String "{" (String "}" rest)) = Ok (PDict [], rest).
Proof. reflexivity. Qed.

Lemma parse_value_dict (fuel : nat) (s rest : string) (pairs : list (string * pyval)) :
  parse_members fuel s = Ok (pairs, rest) →
  parse_value (S fuel) (String "{" (String dquote s))
  = Ok (PDict (dict_of_pairs pairs), rest).
Proof. intros H. simpl. by rewrite H. Qed.

Lemma parse_elems_last (fuel : nat) (s rest : string) (v : pyval) :
  parse_value fuel s = Ok (v, String "]" rest) →
  parse_elems (S fuel) s = Ok ([v], rest).
Proof. intros H. simpl. by rewrite H. Qed.

Lemma parse_elems_more (fuel : nat) (s t rest : string) (v : pyval) (l : list pyval) :
  parse_value fuel s = Ok (v, String "," (String " " t)) →
  skip_ws t = t →
  parse_elems fuel t = Ok (l, rest) →
  parse_elems (S fuel) s = Ok (v :: l, rest).
Proof. intros H Hws Hl. cbn. rewrite H. cbn. by rewrite Hws, Hl. Qed.

Lemma parse_members_last (fuel : nat) (s key t rest : string) (v : pyval) :
  scan_string s = Ok (key, String ":" (String " " t)) →
  skip_ws t = t →
  parse_value fuel t = Ok (v, String "}" rest) →
  parse_members (S fuel) s = Ok ([(key, v)], rest).
Proof. intros H Hws Hv. cbn. rewrite H. cbn. by rewrite Hws, Hv. Qed.

Lemma parse_members_more (fuel : nat) (s key t s' rest : string) (v : pyval)
    (pairs : list (string * pyval)) :
  scan_string s = Ok (key, String ":" (String " " t)) →
  skip_ws t = t →
  parse_value fuel t = Ok (v, String "," (String " " (String dquote s'))) →
  parse_members fuel s' = Ok (pairs, rest) →
  parse_members (S fuel) s = Ok ((key, v) :: pairs, rest).
Proof.
  intros H Hws Hv Hp. cbn. rewrite H. cbn. rewrite Hws, Hv. cbn.
  by rewrite Hp.
Qed.

(** *** The shape of the encoder's text *)

Lemma join_cons2 (sep x y : string) (l : list string) :
  join sep (x :: y :: l) = x +:+ sep +:+ join sep (y :: l).
Proof. reflexivity. Qed.

Lemma dumps_list_text (l : list pyval) (rest : string) :
  json_dumps (PList l) +:+ rest
  = String "[" (join ", " (map json_dumps l) +:+ String "]" rest).
Proof.
  change (json_dumps (PList l)) with ("[" +:+ join ", " (map json_dumps l) +:+ "]").
  by rewrite !app_cons_str, !app_nil_l_str, app_assoc_str.
Qed.

Lemma dumps_dict_text (d : pydict) (rest : string) :
  json_dumps (PDict d) +:+ rest
  = String "{"
      (join ", " (map (λ kv, encode_string (dumps_key kv.1) +:+ ": " +:+ json_dumps kv.2) d)
       +:+ String "}" rest).
Proof.
  change (json_dumps (PDict d))
    with ("{" +:+ join ", " (map (λ kv, encode_string (dumps_key kv.1) +:+ ": "
                                        +:+ json_dumps kv.2) d) +:+ "}").
  by rewrite !app_cons_str, !app_nil_l_str, app_assoc_str.
Qed.

Lemma items_text (x : pyval) (l : list pyval) (t : string) :
  join ", " (map json_dumps (x :: l)) +:+ t
  = json_dumps x +:+ match l with
                     | [] => t
                     | _ => String "," (String " " (join ", " (map json_dumps l) +:+ t))
                     end.
Proof.
  destruct l as [|y l]; [reflexivity|].
  change (map json_dumps (x :: y :: l))
    with (json_dumps x :: json_dumps y :: map json_dumps l).
  rewrite join_cons2, !app_assoc_str. reflexivity.
Qed.

Lemma entries_text (k : scalar) (x : pyval) (d : pydict) (t : string) :
  join ", " (map (λ kv, encode_string (dumps_key kv.1) +:+ ": " +:+ json_dumps kv.2)
               ((k, x) :: d)) +:+ t
  = String dquote
      (escape_string (dumps_key k)
       +:+ String dquote (String ":" (String " "
             (json_dumps x
              +:+ match d with
                  | [] => t
                  | _ => String "," (String " "
                           (join ", " (map (λ kv, encode_string (dumps_key kv.1) +:+ ": "
                                                  +:+ json_dumps kv.2) d) +:+ t))
                  end)))).
Proof.
  destruct d as [|[k' y] d].
  - simpl map. simpl join. unfold encode_string.
    by rewrite !app_cons_str, !app_assoc_str.
  - set (f := λ kv : scalar * pyval,
               encode_string (dumps_key kv.1) +:+ ": " +:+ json_dumps kv.2).
    change (map f ((k, x) :: (k', y) :: d)) with (f (k, x) :: f (k', y) :: map f d).
    rewrite join_cons2. unfold f at 1. simpl fst. simpl snd. unfold encode_string at 1.
    by rewrite !app_cons_str, !app_assoc_str.
Qed.

Lemma skip_ws_items (x : pyval) (l : list pyval) (t : string) :
  skip_ws (join ", " (map json_dumps (x :: l)) +:+ t)
  = join ", " (map json_dumps (x :: l)) +:+ t.
Proof. rewrite items_text. apply skip_ws_json_dumps. Qed.

(** *** Values *)

Lemma parse_elems_dumps (l : list pyval) :
  Forall reads_back l →
  forallb json_like l = true →
  l ≠ [] →
  ∀ (fuel : nat) (rest : string),
    (list_sum (map (λ x, S (size x)) l) ≤ fuel)%nat →
    parse_elems fuel (join ", " (map json_dumps l) +:+ String "]" rest) = Ok (l, rest).
Proof.
  induction l as [|x l IH]; [done|].
  intros Hall Hlike _ fuel rest Hfuel.
  apply Forall_cons in Hall as [Hx Hall].
  simpl in Hlike. apply andb_true_iff in Hlike as [Hxlike Hlike].
  simpl in Hfuel. destruct fuel as [|fuel]; [lia|].
  rewrite items_text. destruct l as [|y l].
  - apply parse_elems_last, Hx; [done | lia | done].
  - eapply parse_elems_more.
    + apply Hx; [done | simpl in *; lia | done].
    + apply skip_ws_items.
    + apply IH; [done | done | done | simpl in *; lia].
Qed.

Lemma parse_members_dumps (d : pydict) :
  Forall (λ kv, reads_back kv.2) d →
  forallb (λ kv, is_str_key kv.1 && json_like kv.2) d = true →
  d ≠ [] →
  ∀ (fuel : nat) (rest : string),
    (list_sum (map (λ kv, S (size kv.2)) d) ≤ fuel)%nat →
    ∃ s,
      join ", " (map (λ kv, encode_string (dumps_key kv.1) +:+ ": " +:+ json_dumps kv.2) d)
        +:+ String "}" rest
      = String dquote s
      ∧ parse_members fuel s
        = Ok (map (λ kv : scalar * pyval, (dumps_key kv.1, kv.2)) d, rest).
Proof.
  induction d as [|[k x] d IH]; [done|].
  intros Hall Hlike _ fuel rest Hfuel.
  apply Forall_cons in Hall as [Hx Hall]. simpl in Hx.
  simpl in Hlike. apply andb_true_iff in Hlike as [[Hk Hxlike]%andb_true_iff Hlike].
  simpl in Hfuel. destruct fuel as [|fuel]; [lia|].
  rewrite entries_text. eexists. split; [reflexivity|].
  destruct d as [|[k' y] d].
  - eapply parse_members_last.
    + apply scan_escape_string.
    + apply skip_ws_json_dumps.
    + apply Hx; [done | lia | done].
  - destruct (IH Hall Hlike ltac:(done) fuel rest ltac:(simpl in *; lia))
      as (s & Hs & Hparse).
    rewrite Hs. eapply parse_members_more.
    + apply scan_escape_string.
    + apply skip_ws_json_dumps.
    + apply Hx; [done | simpl in *; lia | done].
    + exact Hparse.
Qed.

(** The decoder reads back every JSON-like value from the text the
    encoder wrote for it. *)
Lemma parse_value_dumps (v : pyval) : reads_back v.
Proof.
  revert v.
  apply (pyval_rect' reads_back (Forall reads_back) (Forall (λ kv, reads_back kv.2)));
    try (by constructor).
  - (* an atom *)
    intros a _ [|fuel] rest Hfuel Hrest; [simpl in Hfuel; lia|].
    destruct a as [|[]|z|s]; try reflexivity.
    + change (json_dumps (PInt z)) with (str_int z).
      by rewrite parse_value_number, scan_number_int.
    + change (json_dumps (PStr s)) with (String dquote (escape_string s +:+ str1 dquote)).
      rewrite app_cons_str, app_assoc_str.
      apply parse_value_string, scan_escape_string.
  - (* a list *)
    intros l IHl Hlike [|fuel] rest Hfuel Hrest; [simpl in Hfuel; lia|].
    simpl in Hlike, Hfuel. rewrite dumps_list_text.
    destruct l as [|x l]; [apply parse_value_empty_list|].
    apply parse_value_list.
    + apply skip_ws_items.
    + rewrite items_text.
      destruct (json_dumps_head x) as (c & r & -> & _ & Hc).
      rewrite app_cons_str. by apply strip_prefix_mismatch.
    + apply parse_elems_dumps; [done | done | done | lia].
  - (* a tuple is not JSON-like *)
    done.
  - (* a dict *)
    intros d IHd Hlike [|fuel] rest Hfuel Hrest; [simpl in Hfuel; lia|].
    pose proof (dict_of_pairs_dumps d Hlike) as Hpairs.
    simpl in Hlike, Hfuel. apply andb_true_iff in Hlike as [_ Hlike].
    rewrite dumps_dict_text.
    destruct d as [|kv d]; [apply parse_value_empty_dict|].
    destruct (parse_members_dumps (kv :: d) IHd Hlike ltac:(done) fuel rest ltac:(lia))
      as (s & Hs & Hparse).
    rewrite Hs, <- Hpairs at 1. by apply parse_value_dict.
Qed.

(** *** From the head of a text to [json.loads] *)

Lemma items_length (l : list pyval) :
  Forall (λ x, size x ≤ String.length (json_dumps x))%nat l →
  (list_sum (map (λ x, S (size x)) l)
   ≤ String.length (join ", " (map json_dumps l)) + 1)%nat.
Proof.
  induction l as [|x l IH]; [simpl; lia|].
  intros [Hx Hl]%Forall_cons. specialize (IH Hl).
  rewrite <- (app_nil_r_str (join _ _)), items_text.
  destruct l as [|y l]; rewrite length_app_str.
  - simpl. lia.
  - rewrite app_nil_r_str. simpl in *. lia.
Qed.

Lemma entries_length (d : pydict) :
  Forall (λ kv, size kv.2 ≤ String.length (json_dumps kv.2))%nat d →
  (list_sum (map (λ kv, S (size kv.2)) d)
   ≤ String.length
       (join ", " (map (λ kv, encode_string (dumps_key kv.1) +:+ ": " +:+ json_dumps kv.2) d))
     + 1)%nat.
Proof.
  induction d as [|[k x] d IH]; [simpl; lia|].
  intros [Hx Hd]%Forall_cons. specialize (IH Hd). simpl in Hx.
  rewrite <- (app_nil_r_str (join _ _)), entries_text.
  destruct d as [|kv d]; simpl String.length; rewrite !length_app_str;
    simpl String.length; rewrite ?length_app_str.
  - simpl. lia.
  - rewrite app_nil_r_str. simpl in *. lia.
Qed.

Lemma size_le_length (v : pyval) : (size v ≤ String.length (json_dumps v))%nat.
Proof.
  revert v.
  apply (pyval_rect' (λ v, size v ≤ String.length (json_dumps v))%nat
           (Forall (λ x, size x ≤ String.length (json_dumps x))%nat)
           (Forall (λ kv, size kv.2 ≤ String.length (json_dumps kv.2))%nat));
    try (by constructor).
  - intros [|[]|z|s]; simpl; try lia.
    pose proof (str_int_nonempty z). destruct (str_int z); [done|simpl; lia].
  - intros l Hl. pose proof (items_length l Hl).
    pose proof (dumps_list_text l "") as Htext. rewrite app_nil_r_str in Htext.
    rewrite Htext. simpl. rewrite length_app_str. simpl. lia.
  - intros l Hl. pose proof (items_length l Hl).
    pose proof (dumps_list_text l "") as Htext. rewrite app_nil_r_str in Htext.
    change (json_dumps (PTuple l)) with (json_dumps (PList l)).
    rewrite Htext. simpl. rewrite length_app_str. simpl. lia.
  - intros d Hd. pose proof (entries_length d Hd).
    pose proof (dumps_dict_text d "") as Htext. rewrite app_nil_r_str in Htext.
    rewrite Htext. simpl. rewrite length_app_str. simpl. lia.
Qed.

(** [json.loads(json.dumps(v)) == v] for every JSON-like value. *)
Lemma json_loads_dumps (v : pyval) :
  json_like v = true → json_loads (json_dumps v) = Ok v.
Proof.
  intros Hlike. unfold json_loads.
  pose proof (skip_ws_json_dumps v "") as Hws. rewrite app_nil_r_str in Hws.
  pose proof (parse_value_dumps v Hlike (S (2 * String.length (json_dumps v))) ""
                ltac:(pose proof (size_le_length v); lia) eq_refl) as Hparse.
  rewrite app_nil_r_str in Hparse. by rewrite Hws, Hparse.
Qed.

(** A quoted plain string is decoded to itself. *)
Lemma json_loads_quoted (s : string) :
  plain s = true →
  json_loads (str1 dquote +:+ escape_quotes s +:+ str1 dquote) = Ok (PStr s).
Proof.
  intros Hplain. unfold json_loads.
  change (str1 dquote +:+ escape_quotes s +:+ str1 dquote)
    with (String dquote (escape_quotes s +:+ String dquote "")).
  change (skip_ws (String dquote ?t)) with (String dquote t).
  by rewrite (parse_value_string _ _ s "" (scan_escape_quotes s "" Hplain)).
Qed.

Lemma strip_prefix_app (p s : string) : strip_prefix p (p +:+ s) = Some s.
Proof.
  induction p as [|c p IH]; [by destruct s|].
  rewrite app_cons_str. simpl. by rewrite Ascii.eqb_refl.
Qed.

(** * The statements of the specification *)

(** ** The stream aggregator *)

(** C1. For every stdout whose lines are exactly the [outputs] event, the
    [apply_complete] event and the text [not json], [_apply_callback]
    returns a mapping whose [outputs] key is the object with a = 1 and
    whose [result] key maps the address x to the full hook payload; the
    mapping has no [changes] key, and the third line, which the decoder
    refuses, raises nothing. *)
Theorem apply_callback_scenario (stdout : string) (stderr : option string) :
  splitlines stdout = [line_outputs; line_apply_complete; line_not_json] →
  ∃ result,
    _apply_callback (Some stdout) stderr = Ok (PDict result)
    ∧ dict_get (SStr "outputs") result = Some (PDict [(SStr "a", PInt 1)])
    ∧ dict_get (SStr "result") result = Some (PDict [(SStr "x", hook_payload)])
    ∧ (json_loads line_apply_complete ≫= (λ line, getitem line "hook")) = Ok hook_payload
    ∧ dict_mem (SStr "changes") result = false
    ∧ json_loads line_not_json = Raise JSONDecodeError.
Proof.
  intros Hlines. unfold _apply_callback. rewrite Hlines.
  eexists. split; [reflexivity|]. vm_compute. repeat split; reflexivity.
Qed.

Lemma apply_callback_scenario_witness :
  ∃ result,
    _apply_callback
      (Some (line_outputs +:+ str1 LF +:+ line_apply_complete +:+ str1 LF +:+ line_not_json))
      None = Ok (PDict result)
    ∧ dict_get (SStr "outputs") result = Some (PDict [(SStr "a", PInt 1)])
    ∧ dict_get (SStr "result") result = Some (PDict [(SStr "x", hook_payload)])
    ∧ (json_loads line_apply_complete ≫= (λ line, getitem line "hook")) = Ok hook_payload
    ∧ dict_mem (SStr "changes") result = false
    ∧ json_loads line_not_json = Raise JSONDecodeError.
Proof. apply apply_callback_scenario. vm_compute. reflexivity. Defined.

(** C2 (the code differs). The per-line callback of a streamed apply does
    not tolerate a malformed or irrelevant line: [_apply_line_callback]
    raises [JSONDecodeError] on a line that is not JSON, [KeyError] on a
    JSON object without the [@message] key and [TypeError] on a JSON value
    that is not an object, where the completion callback [_apply_callback]
    skips the same malformed line. *)
Theorem apply_line_callback_raises :
  outcome (_apply_line_callback (Some line_not_json) None) = Raise JSONDecodeError
  ∧ outcome (_apply_line_callback (Some line_outputs) None)
    = Raise (KeyError (SStr "@message"))
  ∧ outcome (_apply_line_callback (Some "[1]") None) = Raise TypeError
  ∧ _apply_callback (Some line_not_json) None = Ok (PDict []).
Proof. vm_compute. repeat split; reflexivity. Qed.

(** ** The version gates *)

(** C3, as stated, fails at an engine 1.0.0: [plan(json=True)] emits
    [-json] there and logs no warning. *)
Lemma plan_json_at_1_0 :
  major (version (_version (terraform (engine 1 0 0)))) = 1%N
  ∧ minor (version (_version (terraform (engine 1 0 0)))) = 0%N
  ∧ plan_json plan_with_json = true
  ∧ plan_command (terraform (engine 1 0 0)) plan_with_json
    = Run [] (Ok ["plan"; "-input=false"; "-out=plan.tfplan"; ""; "-json";
                  "-parallelism=10"; ""; "-refresh=true"; ""; ""; ""; ""; ""]).
Proof. repeat split; by rewrite plan_command_eq. Qed.

(** C3, amended. For every [plan] invocation with [json=True], the [-json]
    flag is emitted if and only if the detected major version is at least
    1, that is (major, minor) >= (1, 0); no warning is logged then. At a
    major version 0 the flag is omitted, a warning that names the minimum
    1.0.0 and the detected version is logged, and the command still
    proceeds: the executor is called and its answer decides the result. *)
Theorem plan_json_gate (run_command : Call → CommandResult) (self : Terraform)
    (a : plan_args) :
  plan_json a = true →
  ∃ cmd, outcome (plan_command self a) = Ok cmd
    ∧ ("-json" ∈ cmd ↔ (1 ≤ major (version (_version self)))%N)
    ∧ ((1 ≤ major (version (_version self)))%N → logged (plan_command self a) = [])
    ∧ ((major (version (_version self)) < 1)%N →
       json_warning self ∈ logged (plan_command self a)
       ∧ outcome (plan_call self a)
         = Ok (cmd_call cmd (Some "Terraform plan") (resolve_chdir self (plan_chdir a))
                 true None None)
       ∧ outcome (plan run_command self a)
         = let r := run_command (cmd_call cmd (Some "Terraform plan")
                                   (resolve_chdir self (plan_chdir a)) true None None) in
           if success r then Ok true else Raise (plan_failure r)).
Proof.
  intros Hjson. eexists. split; [by rewrite plan_command_eq|].
  unfold plan, plan_call. rewrite plan_command_eq, version_gate, Hjson.
  destruct (1 <=? major (version (_version self)))%N eqn:Hgate.
  - apply N.leb_le in Hgate. repeat split; try done; try lia.
    rewrite !elem_of_app, !elem_of_cons. simpl. tauto.
  - apply N.leb_gt in Hgate. repeat split; try done; try lia.
    + intros Hin. exfalso.
      refine (proj1 (Forall_forall (λ t : string, t ≠ "-json") _) _ _ Hin eq_refl).
      split_tokens; try done;
        try (by apply flag_token_ne);
        try (by apply value_token_ne);
        try (by apply app_ne_without_eq).
      * destruct (not_str (plan_out a)); by apply value_token_ne.
      * destruct (plan_refresh a); [by apply bool_token_ne | done].
    + simpl. unfold json_warning. do 2 constructor.
    + run_binds. by destruct (success _).
Qed.

Lemma plan_json_gate_witness :
  ∃ cmd, outcome (plan_command (terraform (engine 0 14 0)) plan_with_json) = Ok cmd
    ∧ ("-json" ∉ cmd)
    ∧ json_warning (terraform (engine 0 14 0))
      ∈ logged (plan_command (terraform (engine 0 14 0)) plan_with_json)
    ∧ outcome (plan (succeeding_executor "") (terraform (engine 0 14 0)) plan_with_json)
      = Ok true.
Proof.
  destruct (plan_json_gate (succeeding_executor "") (terraform (engine 0 14 0))
              plan_with_json eq_refl) as (cmd & Hcmd & Hiff & _ & Hold).
  destruct (Hold eq_refl) as (Hwarn & _ & Hrun).
  exists cmd. split; [exact Hcmd|]. split; [|split; [exact Hwarn | exact Hrun]].
  intros Hin. apply Hiff in Hin. vm_compute in Hin. by apply Hin.
Defined.

(** C5 (the code differs). [apply(json=True)] at an engine 1.5.0 passes
    [-json], installs the completion and the per-line callback and turns
    the echo off. At an engine 0.14.0 it leaves [-json] out and installs no
    callback, but the echo is off there too: [show_output] is
    [not json and major >= 1], which is false whenever [json] is true. *)
Theorem apply_json_by_version :
  (∃ call, apply_call (terraform (engine 1 5 0)) apply_with_json = Ok call
     ∧ ("-json" ∈ argv call)
     ∧ callback call = Some _apply_callback
     ∧ line_callback call = Some _apply_line_callback
     ∧ show_output call = false)
  ∧ (∃ call, apply_call (terraform (engine 0 14 0)) apply_with_json = Ok call
       ∧ ("-json" ∉ argv call)
       ∧ callback call = None
       ∧ line_callback call = None
       ∧ show_output call = false).
Proof.
  split; eexists; (split; [rewrite apply_call_eq; reflexivity|]); simpl;
    (split; [by apply (bool_decide_unpack _)|]); repeat split; reflexivity.
Qed.

(** ** The argument builder *)

Lemma default_tokens_no_lock (self : Terraform) (color : option bool)
    (lock_timeout : option Z) (input : option bool) :
  "-lock=false" ∉ default_tokens self color None lock_timeout input.
Proof.
  unfold default_tokens.
  rewrite !elem_of_app.
  destruct color as [[]|], (_color self), (effective_lock_timeout self lock_timeout),
    input as [[]|], (_input self); simpl;
    rewrite ?elem_of_cons, ?elem_of_nil; vm_compute; intuition discriminate.
Qed.

(** C4 (the code differs). With no per-call lock override, the default
    arguments never hold [-lock=false], whatever the instance's lock flag:
    [_default_args] tests [self.lock], the method, and not [self._lock].
    For the instance built with [lock=False] they are [-input=false]
    alone. *)
Theorem default_args_ignore_instance_lock :
  (∀ (self : Terraform) (color : option bool) (lock_timeout : option Z)
     (input : option bool),
     ∃ args, _default_args self color None lock_timeout input = Ok args
             ∧ "-lock=false" ∉ args)
  ∧ _lock (terraform_unlocked (engine 1 5 0)) = false
  ∧ _default_args (terraform_unlocked (engine 1 5 0)) None None None None
    = Ok ["-input=false"].
Proof.
  split; [|split; [reflexivity | by rewrite default_args_eq]].
  intros. eexists. split; [apply default_args_eq | apply default_tokens_no_lock].
Qed.

(** C6. For every option whose flag template ends in [=], [_build_arg]
    returns the empty token both for the empty string and for [None]: an
    explicit empty string and an absent value are indistinguishable, and
    both omit the flag. *)
Theorem build_arg_empty_string_as_none (opt template : string) :
  TERRAFORM_ARGS !! opt = Some template →
  ends_with_eq template = Ok true →
  _build_arg opt (SStr "") = Ok "" ∧ _build_arg opt SNone = Ok "".
Proof.
  intros Hopt Hvalued. split.
  - by rewrite (build_arg_valued_str opt template Hopt Hvalued).
  - by apply (build_arg_valued_none opt template).
Qed.

Lemma build_arg_empty_string_as_none_witness :
  TERRAFORM_ARGS !! "var_file" = Some "-var-file="
  ∧ _build_arg "var_file" (SStr "") = Ok "" ∧ _build_arg "var_file" SNone = Ok "".
Proof.
  split; [reflexivity|].
  apply (build_arg_empty_string_as_none "var_file" "-var-file="); reflexivity.
Defined.
(** ** Variables on the command line *)

(** C7, as stated, fails for a string that holds a backslash: only the
    double quote is escaped, so the path [C:\new] is read back with a line
    feed in it, and a string that ends in a backslash is not read back at
    all. *)
Lemma parse_vars_backslash_not_restored :
  _parse_vars (Some [("path", PStr backslash_path)])
  = ["-var"; "path=" +:+ str1 dquote +:+ backslash_path +:+ str1 dquote]
  ∧ json_loads (str1 dquote +:+ backslash_path +:+ str1 dquote)
    = Ok (PStr ("C:" +:+ str1 LF +:+ "ew"))
  ∧ PStr ("C:" +:+ str1 LF +:+ "ew") ≠ PStr backslash_path
  ∧ _parse_vars (Some [("dir", PStr trailing_backslash)])
    = ["-var"; "dir=" +:+ str1 dquote +:+ trailing_backslash +:+ str1 dquote]
  ∧ json_loads (str1 dquote +:+ trailing_backslash +:+ str1 dquote)
    = Raise JSONDecodeError.
Proof. vm_compute. repeat split; try reflexivity. discriminate. Qed.

Lemma parse_vars_tokens (vars : list (string * pyval)) :
  length (_parse_vars (Some vars)) = (2 * length vars)%nat
  ∧ ∀ (i : nat) (key : string) (value : pyval),
      vars !! i = Some (key, value) →
      _parse_vars (Some vars) !! (2 * i)%nat = Some "-var"
      ∧ _parse_vars (Some vars) !! (2 * i + 1)%nat
        = Some (key +:+ "=" +:+ encode_var value).
Proof.
  induction vars as [|[k v] vars [IHlen IH]]; [split; [done | intros ? ? ? [=]]|].
  split.
  - simpl in *. rewrite IHlen. lia.
  - intros [|i] key value Hi.
    + injection Hi as -> ->. done.
    + replace (2 * S i)%nat with (S (S (2 * i))) by lia.
      replace (S (S (2 * i)) + 1)%nat with (S (S (2 * i + 1))) by lia.
      apply (IH i key value Hi).
Qed.

(** C7, amended. For every mapping of variables, [_parse_vars] returns two
    tokens per entry, in order: the literal [-var], then the key, [=] and a
    payload, and stripping the key and [=] gives the payload back. Decoding
    the payload as JSON gives the original value for a string made of
    printable ASCII characters without a backslash, and for a list or a
    mapping made of [None], booleans, integers, such strings, lists and
    mappings with distinct string keys. *)
Theorem parse_vars_round_trip (vars : list (string * pyval)) :
  length (_parse_vars (Some vars)) = (2 * length vars)%nat
  ∧ ∀ (i : nat) (key : string) (value : pyval),
      vars !! i = Some (key, value) →
      _parse_vars (Some vars) !! (2 * i)%nat = Some "-var"
      ∧ ∃ payload,
          _parse_vars (Some vars) !! (2 * i + 1)%nat = Some (key +:+ "=" +:+ payload)
          ∧ value_portion (key +:+ "=") (key +:+ "=" +:+ payload) = Some payload
          ∧ match value with
            | PStr s => plain s = true → json_loads payload = Ok (PStr s)
            | PDict _ | PList _ => json_like value = true → json_loads payload = Ok value
            | _ => True
            end.
Proof.
  destruct (parse_vars_tokens vars) as [Hlen Htokens]. split; [exact Hlen|].
  intros i key value Hi. destruct (Htokens i key value Hi) as [Hvar Htoken].
  split; [exact Hvar|]. exists (encode_var value).
  split; [exact Htoken|]. split.
  - unfold value_portion. rewrite <- app_assoc_str. apply strip_prefix_app.
  - destruct value as [[| | |s]|l|l|d]; try done.
    + apply json_loads_quoted.
    + apply (json_loads_dumps (PList l)).
    + apply (json_loads_dumps (PDict d)).
Qed.

Lemma parse_vars_round_trip_witness :
  _parse_vars (Some example_vars) !! 1%nat
  = Some ("bucket_name=" +:+ q "'test_bucket'")
  ∧ json_loads (q "'test_bucket'") = Ok (PStr "test_bucket")
  ∧ _parse_vars (Some example_vars) !! 3%nat
    = Some ("test_variable=" +:+ q "{'test1': 1, 'test2': null}")
  ∧ json_loads (q "{'test1': 1, 'test2': null}")
    = Ok (PDict [(SStr "test1", PInt 1); (SStr "test2", PNone)]).
Proof.
  destruct (parse_vars_round_trip example_vars) as [_ Htokens].
  destruct (Htokens 0%nat "bucket_name" (PStr "test_bucket") eq_refl)
    as (_ & p0 & Ht0 & _ & Hv0).
  destruct (Htokens 1%nat "test_variable"
              (PDict [(SStr "test1", PInt 1); (SStr "test2", PNone)]) eq_refl)
    as (_ & p1 & Ht1 & _ & Hv1).
  vm_compute in Ht0. injection Ht0 as <-.
  vm_compute in Ht1. injection Ht1 as <-.
  split; [reflexivity|]. split; [exact (Hv0 eq_refl)|].
  split; [reflexivity | exact (Hv1 eq_refl)].
Defined.

(** ** Failure of a command *)

(** C8. For every instance, argument set and executor, [destroy] raises
    the destroy error when the executor reports a failure, with the
    message, the command joined by spaces, the captured stderr and the
    duration of the run; it returns [True] on success and never returns
    [False]. *)
Theorem destroy_failure_is_raised (run_command : Call → CommandResult)
    (self : Terraform) (a : destroy_args) :
  ∃ cmd, destroy_command self a = Ok cmd
    ∧ let result := run_command (destroy_call self cmd a) in
      (success result = false →
       outcome (destroy run_command self a)
       = Raise (TerraformError OpDestroy
                  {| f_message := "Failed to destroy terraform resources";
                     f_command := join " " cmd;
                     f_stderr := stderr result;
                     f_duration := duration result |}))
      ∧ (success result = true → outcome (destroy run_command self a) = Ok true)
      ∧ outcome (destroy run_command self a) ≠ Ok false.
Proof.
  eexists. split; [apply destroy_command_eq|].
  unfold destroy. rewrite destroy_command_eq. run_binds.
  destruct (success (run_command _)); simpl; repeat split; congruence.
Qed.

Lemma destroy_failure_is_raised_witness :
  outcome (destroy (failing_executor "") (terraform (engine 1 5 0)) destroy_defaults)
  = Raise (TerraformError OpDestroy
             {| f_message := "Failed to destroy terraform resources";
                f_command := "destroy -input=false -parallelism=10   ";
                f_stderr := "Error: state lock";
                f_duration := Float "0.25" |}).
Proof.
  destruct (destroy_failure_is_raised (failing_executor "") (terraform (engine 1 5 0))
              destroy_defaults) as (cmd & Hcmd & Hfail & _).
  rewrite destroy_command_eq in Hcmd. injection Hcmd as <-.
  apply Hfail. reflexivity.
Defined.

(** C9. For every instance, argument set and executor that reports a
    failure, [show] logs the failure at the critical level, raises no
    operation-specific error, and goes on to decode: it returns the decoded
    stdout when [json] is true, the decode error when stdout is not JSON,
    and the raw stdout when [json] is false. *)
Theorem show_failure_is_logged (run_command : Call → CommandResult)
    (self : Terraform) (a : show_args) :
  ∃ cmd, show_command self a = Ok cmd
    ∧ let result := run_command (show_call self cmd a) in
      (success result = false →
       logged (show run_command self a)
       = [Log Info (PStr "Running Terraform show");
          Log Critical (PStr ("Failed to show terraform state in: "
                              +:+ float_str (duration result) +:+ " seconds"))]
       ∧ outcome (show run_command self a)
         = (if show_json a then json_loads (stdout result)
            else Ok (PStr (stdout result)))
       ∧ ∀ op info, outcome (show run_command self a) ≠ Raise (TerraformError op info)).
Proof.
  eexists. split; [apply show_command_eq|].
  intros result Hfail. subst result.
  unfold show. rewrite show_command_eq. run_binds. rewrite Hfail. simpl.
  destruct (show_json a); simpl.
  - destruct (json_loads _) as [v|e] eqn:Hloads; simpl; repeat split; try done.
    intros op info [= ->]. by destruct (json_loads_failure _ _ Hloads).
  - repeat split; done.
Qed.

Lemma show_failure_is_logged_witness :
  logged (show (failing_executor (q "{'a':1}")) (terraform (engine 1 5 0)) show_defaults)
  = [Log Info (PStr "Running Terraform show");
     Log Critical (PStr "Failed to show terraform state in: 0.25 seconds")]
  ∧ outcome (show (failing_executor (q "{'a':1}")) (terraform (engine 1 5 0)) show_defaults)
    = Ok (PDict [(SStr "a", PInt 1)]).
Proof.
  destruct (show_failure_is_logged (failing_executor (q "{'a':1}"))
              (terraform (engine 1 5 0)) show_defaults) as (cmd & Hcmd & Hfail).
  destruct (Hfail eq_refl) as (Hlog & Hout & _).
  split; [exact Hlog | rewrite Hout; reflexivity].
Defined.

(** ** Empty tokens *)

(** C10, as stated, fails for the options that a command tests before it
    appends: [destroy] with [lock=None] and [init] with [readonly=False]
    build a command with no empty token at all, though [_build_arg] gives
    the empty token for both. *)
Lemma guarded_options_leave_no_token :
  destroy_lock destroy_all_set = None
  ∧ _build_arg "lock" SNone = Ok ""
  ∧ destroy_command (terraform (engine 1 5 0)) destroy_all_set
    = Ok ["destroy"; "-input=false"; "-parallelism=10"; "-auto-approve";
          "-target=aws_s3_bucket.b"; "-var-file=prod.tfvars"]
  ∧ init_readonly init_all_set = false
  ∧ _build_arg "readonly" (SBool false) = Ok ""
  ∧ init_command (terraform (engine 1 5 0)) init_all_set
    = Ok ["init"; "-input=false"; "-upgrade"; "-reconfigure"; "-migrate-state";
          "-force-copy"; "-backend-config=bucket=b"; "-plugin-dir=plugins"].
Proof.
  repeat split; try (by rewrite destroy_command_eq); by rewrite init_command_eq.
Qed.

Lemma flag_token_count (template : string) (b : bool) :
  ((if b then 0 else 1) ≤ (if decide (flag_token template b = "") then 1 else 0))%nat.
Proof.
  destruct b; [apply Nat.le_0_l|]. unfold flag_token. by rewrite decide_True.
Qed.

Lemma value_token_count (template : string) (x : option string) :
  (match x with Some _ => 0 | None => 1 end
   ≤ (if decide (value_token template x = "") then 1 else 0))%nat.
Proof. destruct x; [apply Nat.le_0_l|]. by rewrite decide_True. Qed.

Lemma refresh_token_count (x : option bool) :
  (match x with Some _ => 0 | None => 1 end
   ≤ (if decide (match x with None => "" | Some b => bool_token "-refresh=" b end = "")
      then 1 else 0))%nat.
Proof. destruct x; [apply Nat.le_0_l|]. by rewrite decide_True. Qed.

(** The default arguments hold one empty token when the call passes
    [color=False], and none otherwise. *)
Lemma default_tokens_count (self : Terraform) (color lock : option bool)
    (lock_timeout : option Z) (input : option bool) :
  count_empty (default_tokens self color lock lock_timeout input)
  = count_false (option_list color).
Proof.
  unfold default_tokens. rewrite !count_empty_app.
  assert (count_empty match color with
                      | Some c => [flag_token "-no-color" c]
                      | None => if _color self then [] else ["-no-color"]
                      end = count_false (option_list color)) as ->.
  { by destruct color as [[]|], (_color self). }
  assert (count_empty match lock with Some false => ["-lock=false"] | _ => [] end
          = 0%nat) as ->.
  { by destruct lock as [[]|]. }
  assert (count_empty match effective_lock_timeout self lock_timeout with
                      | Some t => ["-lock-timeout=" +:+ str_int t]
                      | None => []
                      end = 0%nat) as ->.
  { destruct (effective_lock_timeout self lock_timeout) as [t|]; [|done].
    rewrite count_empty_cons. by case_decide. }
  assert (count_empty match input with
                      | Some i => [bool_token "-input=" i]
                      | None => if _input self then [] else ["-input=false"]
                      end = 0%nat) as ->.
  { by destruct input as [[]|], (_input self). }
  lia.
Qed.

(** Counts the empty tokens of an assembled list from below. *)
Ltac count_tokens :=
  repeat first [rewrite count_empty_app | rewrite count_empty_cons
               | rewrite count_false_cons | rewrite count_none_cons];
  rewrite ?default_tokens_count;
  repeat match goal with
  | |- context [decide (flag_token ?t ?b = "")] =>
      generalize (flag_token_count t b);
      generalize (if decide (flag_token t b = "") then 1 else 0)%nat; intros ? ?
  | |- context [decide (value_token ?t ?x = "")] =>
      generalize (value_token_count t x);
      generalize (if decide (value_token t x = "") then 1 else 0)%nat; intros ? ?
  | |- context [decide (match ?x with None => "" | Some b => bool_token "-refresh=" b end = "")] =>
      generalize (refresh_token_count x);
      generalize (if decide (match x with None => "" | Some b => bool_token "-refresh=" b end = "")
                  then 1 else 0)%nat; intros ? ?
  end.

(** C10, amended. For every instance and every argument set, the command
    built by [plan], [apply], [init] and [destroy] holds at least one empty
    token for each option that the command appends without a test and
    whose value is [False] or [None], and one for the call's [color] when
    it is [False]; the options behind the version test count when the
    detected major version is at least 1. Of the default options only
    [color=False] leaves an empty token: the list of [_default_args] holds
    exactly one then and none otherwise, whatever [lock], [lock_timeout]
    and [input] are. *)
Theorem empty_tokens_are_kept (self : Terraform) :
  (∀ a : plan_args, ∃ call,
     outcome (plan_call self a) = Ok call
     ∧ (count_false [plan_destroy a; plan_compact_warnings a]
        + count_none [plan_replace a; plan_target a; plan_var_file a; plan_state a]
        + count_none [plan_refresh a]
        + (if (1 <=? major (version (_version self)))%N
           then count_false [plan_refresh_only a; plan_json a] else 0)
        + count_false (option_list (plan_color a))
        ≤ count_empty (argv call))%nat)
  ∧ (∀ a : apply_args, ∃ call,
       apply_call self a = Ok call
       ∧ (count_false [apply_auto_approve a; apply_compact_warnings a]
          + count_none [apply_state a; apply_state_out a; apply_backup a]
          + (if (1 <=? major (version (_version self)))%N
             then count_false [apply_json a] else 0)
          + count_false (option_list (apply_color a))
          ≤ count_empty (argv call))%nat)
  ∧ (∀ a : init_args, ∃ call,
       outcome (init_call self a) = Ok call
       ∧ (count_false [init_upgrade a; init_reconfigure a; init_migrate_state a;
                       init_force_copy a]
          + count_none [init_backend_config a; init_plugin_dir a]
          + count_false (option_list (init_color a))
          ≤ count_empty (argv call))%nat)
  ∧ (∀ a : destroy_args, ∃ cmd,
       destroy_command self a = Ok cmd
       ∧ (count_false [destroy_auto_approve a]
          + count_none [destroy_target a; destroy_var_file a]
          + count_false (option_list (destroy_color a))
          ≤ count_empty (argv (destroy_call self cmd a)))%nat)
  ∧ (∀ (color lock : option bool) (lock_timeout : option Z) (input : option bool),
       ∃ args, _default_args self color lock lock_timeout input = Ok args
               ∧ count_empty args = count_false (option_list color)).
Proof.
  split; [|split; [|split; [|split]]].
  - intros a. eexists.
    split; [unfold plan_call; rewrite plan_command_eq; reflexivity|].
    rewrite version_gate. simpl argv.
    destruct (1 <=? major (version (_version self)))%N; count_tokens;
      generalize (count_false (option_list (plan_color a))); intros ?;
      unfold count_false, count_none; simpl; lia.
  - intros a. eexists.
    split; [rewrite apply_call_eq; reflexivity|]. simpl argv.
    destruct (1 <=? major (version (_version self)))%N; count_tokens;
      generalize (count_false (option_list (apply_color a))); intros ?;
      unfold count_false, count_none; simpl; lia.
  - intros a. eexists.
    split; [unfold init_call; rewrite init_command_eq; reflexivity|]. simpl argv.
    count_tokens; generalize (count_false (option_list (init_color a))); intros ?;
      unfold count_false, count_none; simpl; lia.
  - intros a. eexists.
    split; [apply destroy_command_eq|]. simpl argv.
    count_tokens; generalize (count_false (option_list (destroy_color a))); intros ?;
      unfold count_false, count_none; simpl; lia.
  - intros color lock lock_timeout input. eexists.
    split; [apply default_args_eq | apply default_tokens_count].
Qed.

(** * The rest of the wrapper *)

(** ** The argument builder on the whole table *)

(** Every template of the table has a last character. *)
Lemma table_template (arg template : string) :
  TERRAFORM_ARGS !! arg = Some template → ∃ valued, ends_with_eq template = Ok valued.
Proof.
  unfold TERRAFORM_ARGS. intros H. apply elem_of_list_to_map_2 in H.
  repeat (apply elem_of_cons in H as [[= -> ->]|H]; [by eexists|]).
  by apply elem_of_nil in H.
Qed.

Lemma build_arg_flag_other (opt template : string) (value : scalar) :
  TERRAFORM_ARGS !! opt = Some template →
  ends_with_eq template = Ok false →
  _build_arg opt value
  = Ok (match value with SBool true => template | _ => "" end).
Proof.
  intros Hopt Hflag.
  with_strategy transparent [_build_arg terraform_arg]
    (unfold _build_arg, terraform_arg).
  rewrite Hopt. simpl. rewrite Hflag. by destruct value as [|[]| |].
Qed.

(** X1. An option name that the table does not hold makes [_build_arg]
    raise [KeyError] with that name, whatever the value. *)
Theorem build_arg_unknown_option (arg : string) (value : scalar) :
  TERRAFORM_ARGS !! arg = None →
  _build_arg arg value = Raise (KeyError (SStr arg)).
Proof.
  intros Hopt.
  with_strategy transparent [_build_arg terraform_arg]
    (unfold _build_arg, terraform_arg).
  by rewrite Hopt.
Qed.

Lemma build_arg_unknown_option_witness :
  _build_arg "colour" (SBool true) = Raise (KeyError (SStr "colour")).
Proof. apply build_arg_unknown_option. reflexivity. Defined.

(** X2. On every option of the table and every value, [_build_arg]
    returns a token and raises nothing. The token is empty, or it is the
    template followed by the text of the value ([true] and [false] in
    lower case for a [bool]), or it is the bare flag, and the bare flag is
    returned for the value [True] only: no [int] and no [str] turns a flag
    on. *)
Theorem build_arg_known_option (arg template : string) (value : scalar) :
  TERRAFORM_ARGS !! arg = Some template →
  ∃ token, _build_arg arg value = Ok token
    ∧ (token = ""
       ∨ (ends_with_eq template = Ok true ∧ token = template +:+ arg_text value)
       ∨ (ends_with_eq template = Ok false ∧ token = template ∧ value = SBool true)).
Proof.
  intros Hopt. destruct (table_template arg template Hopt) as [[] Hlast].
  - destruct value as [|b|z|s].
    + rewrite (build_arg_valued_none arg template Hopt Hlast).
      eexists. split; [reflexivity|]. by left.
    + rewrite (build_arg_valued_bool arg template Hopt Hlast).
      eexists. split; [reflexivity|]. right. left. by split.
    + rewrite (build_arg_valued_int arg template Hopt Hlast).
      eexists. split; [reflexivity|]. right. left. by split.
    + rewrite (build_arg_valued_str arg template Hopt Hlast).
      eexists. split; [reflexivity|].
      destruct s; [by left|]. right. left. by split.
  - rewrite (build_arg_flag_other arg template value Hopt Hlast).
    eexists. split; [reflexivity|].
    destruct value as [|[]| |]; try (by left). right. right. by repeat split.
Qed.

Lemma build_arg_known_option_witness :
  ∃ token, _build_arg "parallelism" (SInt 10) = Ok token
    ∧ (token = ""
       ∨ (ends_with_eq "-parallelism=" = Ok true
          ∧ token = "-parallelism=" +:+ arg_text (SInt 10))
       ∨ (ends_with_eq "-parallelism=" = Ok false
          ∧ token = "-parallelism=" ∧ SInt 10 = SBool true)).
Proof. apply build_arg_known_option. reflexivity. Defined.

(** ** The default arguments *)

(** What the list of [_default_args] holds. *)
Lemma default_tokens_elem (self : Terraform) (color lock : option bool)
    (lock_timeout : option Z) (input : option bool) (x : string) :
  x ∈ default_tokens self color lock lock_timeout input
  ↔ (x = "-no-color" ∧ (color = Some true ∨ (color = None ∧ _color self = false)))
    ∨ (x = "" ∧ color = Some false)
    ∨ (x = "-lock=false" ∧ lock = Some false)
    ∨ (∃ t, effective_lock_timeout self lock_timeout = Some t
            ∧ x = "-lock-timeout=" +:+ str_int t)
    ∨ (x = "-input=true" ∧ input = Some true)
    ∨ (x = "-input=false" ∧ (input = Some false ∨ (input = None ∧ _input self = false))).
Proof.
  unfold default_tokens. rewrite !elem_of_app.
  assert (x ∈ match color with
              | Some c => [flag_token "-no-color" c]
              | None => if _color self then [] else ["-no-color"]
              end
          ↔ (x = "-no-color" ∧ (color = Some true ∨ (color = None ∧ _color self = false)))
            ∨ (x = "" ∧ color = Some false)) as ->.
  { destruct color as [[]|], (_color self); simpl;
      rewrite ?elem_of_cons, ?elem_of_nil; intuition discriminate. }
  assert (x ∈ match lock with Some false => ["-lock=false"] | _ => [] end
          ↔ x = "-lock=false" ∧ lock = Some false) as ->.
  { destruct lock as [[]|]; rewrite ?elem_of_cons, ?elem_of_nil; intuition discriminate. }
  assert (x ∈ match effective_lock_timeout self lock_timeout with
              | Some t => ["-lock-timeout=" +:+ str_int t]
              | None => []
              end
          ↔ ∃ t, effective_lock_timeout self lock_timeout = Some t
                 ∧ x = "-lock-timeout=" +:+ str_int t) as ->.
  { destruct (effective_lock_timeout self lock_timeout) as [t|];
      rewrite ?elem_of_cons, ?elem_of_nil.
    - split; [intros [->|[]]; by exists t | intros (t' & [= <-] & ->); by left].
    - split; [done | by intros (t' & [=] & _)]. }
  assert (x ∈ match input with
              | Some i => [bool_token "-input=" i]
              | None => if _input self then [] else ["-input=false"]
              end
          ↔ (x = "-input=true" ∧ input = Some true)
            ∨ (x = "-input=false"
               ∧ (input = Some false ∨ (input = None ∧ _input self = false)))) as ->.
  { destruct input as [[]|], (_input self); simpl;
      rewrite ?elem_of_cons, ?elem_of_nil; intuition discriminate. }
  tauto.
Qed.

(** Settles a statement about a closed token and the disjunction above. *)
Ltac closed_token :=
  rewrite default_tokens_elem;
  split;
  [ intros [[? ?]|[[? ?]|[[? ?]|[(? & ? & Ht)|[[? ?]|[? ?]]]]]];
    try discriminate; try (vm_compute in Ht; discriminate Ht); tauto
  | intuition ].

(** X3. [_default_args] always returns, and the [-lock=false] token is in
    its list if and only if the call itself passes [lock=False]; the list
    never holds [-lock=true]. *)
Theorem default_args_lock_token (self : Terraform) (color lock : option bool)
    (lock_timeout : option Z) (input : option bool) :
  ∃ args, _default_args self color lock lock_timeout input = Ok args
    ∧ ("-lock=false" ∈ args ↔ lock = Some false)
    ∧ "-lock=true" ∉ args.
Proof.
  eexists. split; [apply default_args_eq|]. split; [closed_token|].
  rewrite default_tokens_elem.
  intros [[? ?]|[[? ?]|[[? ?]|[(? & ? & Ht)|[[? ?]|[? ?]]]]]];
    try discriminate; vm_compute in Ht; discriminate Ht.
Qed.

(** X4. The [-no-color] token is in the list of [_default_args] if and
    only if the call passes [color=True], or passes no [color] while the
    instance's colour flag is false. *)
Theorem default_args_color_token (self : Terraform) (color lock : option bool)
    (lock_timeout : option Z) (input : option bool) :
  ∃ args, _default_args self color lock lock_timeout input = Ok args
    ∧ ("-no-color" ∈ args
       ↔ color = Some true ∨ (color = None ∧ _color self = false)).
Proof. eexists. split; [apply default_args_eq|]. closed_token. Qed.

(** X5. The [-input=true] token is in the list of [_default_args] if and
    only if the call passes [input=True]: the instance's flag alone never
    puts it there. The [-input=false] token is in the list if and only if
    the call passes [input=False], or passes no [input] while the
    instance's flag is false. *)
Theorem default_args_input_token (self : Terraform) (color lock : option bool)
    (lock_timeout : option Z) (input : option bool) :
  ∃ args, _default_args self color lock lock_timeout input = Ok args
    ∧ ("-input=true" ∈ args ↔ input = Some true)
    ∧ ("-input=false" ∈ args
       ↔ input = Some false ∨ (input = None ∧ _input self = false)).
Proof. eexists. split; [apply default_args_eq|]. split; closed_token. Qed.

(** X6. A lock timeout of the call that is not positive does not switch
    the instance's timeout off: when the instance's timeout is positive,
    its [-lock-timeout=] token is in the list. A positive timeout of the
    call is the one in the list. *)
Theorem default_args_lock_timeout (self : Terraform) (color lock : option bool)
    (input : option bool) (t : Z) :
  0 < _lock_timeout self →
  ∃ args, _default_args self color lock (Some t) input = Ok args
    ∧ (t ≤ 0 → "-lock-timeout=" +:+ str_int (_lock_timeout self) ∈ args)
    ∧ (0 < t → "-lock-timeout=" +:+ str_int t ∈ args).
Proof.
  intros Hself. eexists. split; [apply default_args_eq|].
  unfold default_tokens, effective_lock_timeout.
  rewrite (proj2 (Z.ltb_lt 0 (_lock_timeout self)) Hself).
  split; intros Ht.
  - rewrite (proj2 (Z.ltb_ge 0 t) Ht). set_solver.
  - rewrite (proj2 (Z.ltb_lt 0 t) Ht). set_solver.
Qed.

Lemma default_args_lock_timeout_witness :
  ∃ args, _default_args (lock_timeout (terraform (engine 1 5 0)) 30)
            None None (Some 0) None = Ok args
    ∧ "-lock-timeout=30" ∈ args.
Proof.
  destruct (default_args_lock_timeout (lock_timeout (terraform (engine 1 5 0)) 30)
              None None None 0 eq_refl) as (args & Hargs & Hzero & _).
  exists args. split; [exact Hargs|]. apply Hzero. done.
Defined.

(** ** The setters *)

(** X7. A setter changes the flag it names and the next [_default_args]
    shows it, but for [lock]: after [color(enable)] the list holds
    [-no-color] if and only if [enable] is false, after [input(enable)] it
    holds [-input=false] if and only if [enable] is false, after
    [lock_timeout(t)] with a positive [t] it holds that timeout, and after
    [lock(enable)] the flag is stored and the list still holds no
    [-lock=false]. *)
Theorem setters_reach_default_args (self : Terraform) :
  (∀ enable, ∃ args,
     _default_args (color self enable) None None None None = Ok args
     ∧ ("-no-color" ∈ args ↔ enable = false))
  ∧ (∀ enable, ∃ args,
       _default_args (input self enable) None None None None = Ok args
       ∧ ("-input=false" ∈ args ↔ enable = false))
  ∧ (∀ t, ∃ args,
       _default_args (lock_timeout self t) None None None None = Ok args
       ∧ (0 < t → "-lock-timeout=" +:+ str_int t ∈ args))
  ∧ (∀ enable, ∃ args,
       _default_args (lock self enable) None None None None = Ok args
       ∧ _lock (lock self enable) = enable
       ∧ "-lock=false" ∉ args).
Proof.
  repeat split; intros x; eexists; (split; [apply default_args_eq|]).
  - rewrite default_tokens_elem. cbn [color _color]. split.
    + intros [[? ?]|[[? ?]|[[? ?]|[(? & ? & Ht)|[[? ?]|[? ?]]]]]];
        try discriminate; try (vm_compute in Ht; discriminate Ht);
        intuition congruence.
    + intuition.
  - rewrite default_tokens_elem. cbn [input _input]. split.
    + intros [[? ?]|[[? ?]|[[? ?]|[(? & ? & Ht)|[[? ?]|[? ?]]]]]];
        try discriminate; try (vm_compute in Ht; discriminate Ht);
        intuition congruence.
    + intuition.
  - intros Ht. apply default_tokens_elem. do 3 right. left. exists x.
    split; [|done]. unfold effective_lock_timeout. simpl.
    by rewrite (proj2 (Z.ltb_lt 0 x) Ht).
  - split; [reflexivity|]. rewrite default_tokens_elem.
    intros [[? ?]|[[? ?]|[[? ?]|[(? & ? & Ht)|[[? ?]|[? ?]]]]]];
      try discriminate; vm_compute in Ht; discriminate Ht.
Qed.
(** ** The version report *)

Lemma to_uint_nonnil (n : N) : N.to_uint n ≠ Nil.
Proof. destruct n; [done|]. apply DecimalPos.Unsigned.to_uint_nonnil. Qed.

Lemma scan_group_N (n : N) (rest : string) :
  scan_digits rest = (Nil, rest) →
  scan_group (str_N n +:+ rest) = Some (N.to_uint n, rest).
Proof.
  intros Hrest. unfold scan_group, str_N.
  rewrite (scan_digits_uint _ _ Hrest).
  pose proof (to_uint_nonnil n). by destruct (N.to_uint n).
Qed.

Lemma match_version_dotted (ma mi pa : N) (tail : string) :
  tail = "" ∨ tail = str1 LF →
  match_version (str_N ma +:+ "." +:+ str_N mi +:+ "." +:+ str_N pa +:+ tail)
  = Some (N.to_uint ma, N.to_uint mi, N.to_uint pa).
Proof.
  intros Htail. unfold match_version.
  rewrite !app_cons_str, !app_nil_l_str.
  rewrite (scan_group_N ma) by reflexivity. simpl.
  rewrite (scan_group_N mi) by reflexivity. simpl.
  rewrite (scan_group_N pa) by (by destruct Htail as [-> | ->]). simpl.
  by destruct Htail as [-> | ->].
Qed.

Lemma version_numbers_dotted (ma mi pa : N) (tail : string) :
  tail = "" ∨ tail = str1 LF →
  version_numbers (str_N ma +:+ "." +:+ str_N mi +:+ "." +:+ str_N pa +:+ tail)
  = {| major := ma; minor := mi; patch := pa |}.
Proof.
  intros Htail. unfold version_numbers.
  rewrite (match_version_dotted ma mi pa tail Htail).
  by rewrite !DecimalN.Unsigned.of_to.
Qed.

Lemma digit_of_is_digit (c : ascii) (d : uint → uint) :
  digit_of c = Some d → is_digit c = true.
Proof. destruct c as [[] [] [] [] [] [] [] []]; intros H; try discriminate H; done. Qed.

Lemma scan_digits_chars (s : string) :
  all_chars version_char (scan_digits s).2 = true → all_chars version_char s = true.
Proof.
  induction s as [|c s IH]; [done|]. simpl.
  destruct (digit_of c) as [d|] eqn:Hd; [|done].
  destruct (scan_digits s) as [u rest]. simpl in *. intros Hrest.
  unfold version_char at 1. by rewrite (digit_of_is_digit c d Hd), (IH Hrest).
Qed.

Lemma scan_group_chars (s : string) (u : uint) (rest : string) :
  scan_group s = Some (u, rest) →
  all_chars version_char rest = true → all_chars version_char s = true.
Proof.
  unfold scan_group. intros Hs Hrest. apply scan_digits_chars.
  destruct (scan_digits s) as [[] r]; simplify_eq; done.
Qed.

Lemma strip_dot_chars (s rest : string) :
  strip_prefix "." s = Some rest →
  all_chars version_char rest = true → all_chars version_char s = true.
Proof.
  destruct s as [|c s]; [done|].
  change (strip_prefix "." (String c s))
    with (if Ascii.eqb "." c then Some s else None).
  destruct (Ascii.eqb "." c) eqn:Hc; [|done].
  apply Ascii.eqb_eq in Hc as <-. intros [= ->] Hrest. simpl. by rewrite Hrest.
Qed.

#[local] Opaque strip_prefix scan_group.

(** A text the pattern matches is made of digits, dots and line feeds. *)
Lemma match_version_chars (s : string) (groups : uint * uint * uint) :
  match_version s = Some groups → all_chars version_char s = true.
Proof.
  unfold match_version. intros H.
  destruct (scan_group s) as [[ma r1]|] eqn:H1; [|done]. simpl in H.
  destruct (strip_prefix "." r1) as [r2|] eqn:H2; [|done]. simpl in H.
  destruct (scan_group r2) as [[mi r3]|] eqn:H3; [|done]. simpl in H.
  destruct (strip_prefix "." r3) as [r4|] eqn:H4; [|done]. simpl in H.
  destruct (scan_group r4) as [[pa r5]|] eqn:H5; [|done]. simpl in H.
  apply (scan_group_chars _ _ _ H1), (strip_dot_chars _ _ H2),
    (scan_group_chars _ _ _ H3), (strip_dot_chars _ _ H4), (scan_group_chars _ _ _ H5).
  destruct (String.eqb r5 "") eqn:Ha.
  - by apply String.eqb_eq in Ha as ->.
  - destruct (String.eqb r5 (str1 LF)) eqn:Hb; [|done].
    by apply String.eqb_eq in Hb as ->.
Qed.

#[local] Transparent strip_prefix scan_group.

(** The tokens of a [plan] on an engine of major version 0. *)
Lemma plan_tokens_without_json (self : Terraform) (a : plan_args) :
  (major (version (_version self)) < 1)%N →
  ∃ cmd, outcome (plan_command self a) = Ok cmd
    ∧ ("-json" ∉ cmd)
    ∧ json_warning self ∈ logged (plan_command self a).
Proof.
  intros Hold. apply N.leb_gt in Hold.
  eexists. split; [by rewrite plan_command_eq|].
  rewrite plan_command_eq, version_gate, Hold. cbv zeta. cbn [outcome logged]. split.
  - intros Hin.
    refine (proj1 (Forall_forall (λ t : string, t ≠ "-json") _) _ _ Hin eq_refl).
    split_tokens; try done;
      try (by apply flag_token_ne);
      try (by apply value_token_ne);
      try (by apply app_ne_without_eq).
    + destruct (not_str (plan_out a)); by apply value_token_ne.
    + destruct (plan_refresh a); [by apply bool_token_ne | done].
  - unfold json_warning. do 2 constructor.
Qed.

Section VersionFacts.

Variable run_command : Call → CommandResult.
Variable cmd_to_array : string → list string.
Variable no_duration : pyfloat.

Let answer := run_command (version_call cmd_to_array).

(** What [version()] returns once the payload is decoded. *)
Lemma version_report_decoded (d : pydict) (s p : string) (outdated : pyval) :
  success answer = true →
  json_loads (stdout answer) = Ok (PDict d) →
  dict_get (SStr "terraform_version") d = Some (PStr s) →
  dict_get (SStr "terraform_outdated") d = Some outdated →
  dict_get (SStr "platform") d = Some (PStr p) →
  version_report run_command cmd_to_array no_duration
  = Ok {| version := version_numbers s; version_str := s;
          latest := eq_False outdated; platform := p |}.
Proof.
  intros Hok Hjson Hversion Houtdated Hplatform.
  unfold version_report. fold answer. rewrite Hok, Hjson. simpl.
  by rewrite Hversion, Houtdated, Hplatform.
Qed.

End VersionFacts.

(** X8. When the engine answers the version query with a JSON object
    whose [terraform_version] is three decimal numbers with dots between
    them, alone or followed by one line feed, [version()] reports exactly
    these numbers as major, minor and patch, keeps the text as it came,
    and reports [latest] as [terraform_outdated == False] and the platform
    as given, whatever other keys the object holds. *)
Theorem version_reads_dotted (run_command : Call → CommandResult)
    (cmd_to_array : string → list string) (no_duration : pyfloat)
    (d : pydict) (ma mi pa : N) (tail p : string) (outdated : pyval) :
  success (run_command (version_call cmd_to_array)) = true →
  json_loads (stdout (run_command (version_call cmd_to_array))) = Ok (PDict d) →
  dict_get (SStr "terraform_version") d
  = Some (PStr (str_N ma +:+ "." +:+ str_N mi +:+ "." +:+ str_N pa +:+ tail)) →
  tail = "" ∨ tail = str1 LF →
  dict_get (SStr "terraform_outdated") d = Some outdated →
  dict_get (SStr "platform") d = Some (PStr p) →
  version_report run_command cmd_to_array no_duration
  = Ok {| version := {| major := ma; minor := mi; patch := pa |};
          version_str := str_N ma +:+ "." +:+ str_N mi +:+ "." +:+ str_N pa +:+ tail;
          latest := eq_False outdated; platform := p |}.
Proof.
  intros Hok Hjson Hversion Htail Houtdated Hplatform.
  rewrite (version_report_decoded run_command cmd_to_array no_duration d _ p outdated
             Hok Hjson Hversion Houtdated Hplatform).
  by rewrite (version_numbers_dotted ma mi pa tail Htail).
Qed.

Lemma version_reads_dotted_witness :
  version_report (succeeding_executor report_1_5_0) words (Float "0")
  = Ok {| version := {| major := 1; minor := 5; patch := 0 |};
          version_str := "1.5.0"; latest := true; platform := "linux_amd64" |}.
Proof.
  exact (version_reads_dotted (succeeding_executor report_1_5_0) words (Float "0")
           [(SStr "terraform_version", PStr "1.5.0");
            (SStr "platform", PStr "linux_amd64");
            (SStr "provider_selections", PDict []);
            (SStr "terraform_outdated", PBool false)]
           1 5 0 "" "linux_amd64" (PBool false)
           eq_refl eq_refl eq_refl (or_introl eq_refl) eq_refl eq_refl).
Defined.

(** X9. When the reported [terraform_version] holds a character that is
    no digit, no dot and no line feed (a pre-release such as 1.6.0-beta1, a
    leading v), [version()] reports 0.0.0 and keeps the text. An instance
    that holds this report then plans without [-json] and with the
    warning, and applies without the callbacks, even when JSON is asked
    for. *)
Theorem version_unmatched_is_zero (run_command : Call → CommandResult)
    (cmd_to_array : string → list string) (no_duration : pyfloat)
    (d : pydict) (s p : string) (outdated : pyval) :
  success (run_command (version_call cmd_to_array)) = true →
  json_loads (stdout (run_command (version_call cmd_to_array))) = Ok (PDict d) →
  dict_get (SStr "terraform_version") d = Some (PStr s) →
  all_chars version_char s = false →
  dict_get (SStr "terraform_outdated") d = Some outdated →
  dict_get (SStr "platform") d = Some (PStr p) →
  ∃ detected,
    version_report run_command cmd_to_array no_duration = Ok detected
    ∧ version detected = {| major := 0; minor := 0; patch := 0 |}
    ∧ version_str detected = s
    ∧ ∀ self, _version self = detected →
        (∀ a, ∃ cmd, outcome (plan_command self a) = Ok cmd
                     ∧ ("-json" ∉ cmd)
                     ∧ json_warning self ∈ logged (plan_command self a))
        ∧ (∀ a, ∃ call, apply_call self a = Ok call
                        ∧ callback call = None ∧ line_callback call = None).
Proof.
  intros Hok Hjson Hversion Hchars Houtdated Hplatform.
  eexists. split.
  { apply (version_report_decoded run_command cmd_to_array no_duration d s p outdated
             Hok Hjson Hversion Houtdated Hplatform). }
  assert (version_numbers s = {| major := 0; minor := 0; patch := 0 |}) as Hzero.
  { unfold version_numbers. destruct (match_version s) as [groups|] eqn:Hm; [|done].
    apply match_version_chars in Hm. congruence. }
  simpl. rewrite Hzero. repeat split.
  - intros a. apply plan_tokens_without_json. by rewrite H.
  - intros a. eexists. split; [apply apply_call_eq|]. rewrite H. by simpl.
Qed.

Lemma version_unmatched_is_zero_witness :
  ∃ detected,
    version_report (succeeding_executor report_beta) words (Float "0") = Ok detected
    ∧ version detected = {| major := 0; minor := 0; patch := 0 |}
    ∧ version_str detected = "1.6.0-beta1"
    ∧ ∃ call, apply_call (terraform detected) apply_with_json = Ok call
              ∧ callback call = None ∧ line_callback call = None.
Proof.
  destruct (version_unmatched_is_zero (succeeding_executor report_beta) words (Float "0")
              [(SStr "terraform_version", PStr "1.6.0-beta1");
               (SStr "platform", PStr "linux_amd64");
               (SStr "provider_selections", PDict []);
               (SStr "terraform_outdated", PBool false)]
              "1.6.0-beta1" "linux_amd64" (PBool false)
              eq_refl eq_refl eq_refl eq_refl eq_refl eq_refl)
    as (detected & Hreport & Hzero & Hstr & Hgates).
  exists detected. repeat split; try assumption.
  apply (Hgates (terraform detected) eq_refl).
Defined.

(** X10. When the version query fails, [version()] raises the version
    error with the captured stderr and does not look at stdout, and so does
    the constructor: no instance exists without a report. *)
Theorem version_failure_is_raised (run_command : Call → CommandResult)
    (cmd_to_array : string → list string) (no_duration : pyfloat) :
  success (run_command (version_call cmd_to_array)) = false →
  let error :=
    TerraformError OpVersion
      {| f_message := "Failed to retrieve terrform version"; f_command := "version";
         f_stderr := stderr (run_command (version_call cmd_to_array));
         f_duration := no_duration |} in
  version_report run_command cmd_to_array no_duration = Raise error
  ∧ (∀ self, Terraform_version run_command cmd_to_array no_duration self = Raise error)
  ∧ ∀ workspace chdir lock lock_timeout input parallelism color var_file,
      Terraform_new run_command cmd_to_array no_duration workspace chdir lock
        lock_timeout input parallelism color var_file = Raise error.
Proof.
  intros Hfail error.
  assert (version_report run_command cmd_to_array no_duration = Raise error) as Hreport.
  { unfold version_report. by rewrite Hfail. }
  repeat split; intros; unfold Terraform_version, Terraform_new; by rewrite Hreport.
Qed.

Lemma version_failure_is_raised_witness :
  Terraform_new (failing_executor "") words (Float "0") "default" None true 0 false 10
    true None
  = Raise (TerraformError OpVersion
             {| f_message := "Failed to retrieve terrform version";
                f_command := "version"; f_stderr := "Error: state lock";
                f_duration := Float "0" |}).
Proof.
  destruct (version_failure_is_raised (failing_executor "") words (Float "0") eq_refl)
    as (_ & _ & Hnew).
  apply Hnew.
Defined.

(** X11. When the version query succeeds, a payload that is not what
    [version()] expects is not recovered: a text that is not JSON raises
    the decoder's error, a JSON value that is not an object raises
    [TypeError], an object without [terraform_version] raises [KeyError]
    with that key, and a version that is not a string raises
    [TypeError]. None of them is the version error. *)
Theorem version_payload_defects (run_command : Call → CommandResult)
    (cmd_to_array : string → list string) (no_duration : pyfloat) :
  success (run_command (version_call cmd_to_array)) = true →
  let payload := json_loads (stdout (run_command (version_call cmd_to_array))) in
  let report := version_report run_command cmd_to_array no_duration in
  (∀ e, payload = Raise e → report = Raise e ∧ decode_failure e)
  ∧ (∀ v, payload = Ok v → (∀ d, v ≠ PDict d) → report = Raise TypeError)
  ∧ (∀ d, payload = Ok (PDict d) →
       dict_get (SStr "terraform_version") d = None →
       report = Raise (KeyError (SStr "terraform_version")))
  ∧ (∀ d v, payload = Ok (PDict d) →
       dict_get (SStr "terraform_version") d = Some v →
       (∀ s, v ≠ PStr s) → report = Raise TypeError).
Proof.
  intros Hok payload report. subst payload report. unfold version_report.
  rewrite Hok. simpl. repeat split.
  - by rewrite H.
  - by apply json_loads_failure in H.
  - intros v Hv Hnot. rewrite Hv. simpl.
    destruct v as [a|l|l|d]; try done. by destruct (Hnot d).
  - intros d Hd Hkey. rewrite Hd. simpl. by rewrite Hkey.
  - intros d v Hd Hkey Hnot. rewrite Hd. simpl. rewrite Hkey. simpl.
    destruct v as [[| | |s]|l|l|d']; try done. by destruct (Hnot s).
Qed.

Lemma version_payload_defects_witness :
  version_report (succeeding_executor "Terraform v1.5.0") words (Float "0")
  = Raise JSONDecodeError.
Proof.
  destruct (version_payload_defects (succeeding_executor "Terraform v1.5.0") words
              (Float "0") eq_refl) as (Hdecode & _).
  apply (Hdecode JSONDecodeError). reflexivity.
Defined.
(** ** The completion callback of [apply] *)

Lemma scalar_eqb_refl (k : scalar) : scalar_eqb k k = true.
Proof.
  destruct k as [|b|z|s]; simpl; [done|by destruct b|apply Z.eqb_refl|apply String.eqb_refl].
Qed.

Lemma dict_get_set (k : scalar) (v : pyval) (d : pydict) :
  dict_get k (dict_set k v d) = Some v.
Proof.
  induction d as [|[k' v'] d IH]; simpl.
  - by rewrite scalar_eqb_refl.
  - destruct (scalar_eqb k' k) eqn:Hk; simpl; by rewrite Hk.
Qed.

Lemma aggregate_set (k : string) (v : pyval) (d : pydict) :
  aggregate_entry (SStr k, v) = true →
  aggregate d = true → aggregate (dict_set (SStr k) v d) = true.
Proof.
  intros Hentry. unfold aggregate.
  induction d as [|[k' v'] d IH]; cbn [dict_set forallb].
  - by rewrite Hentry.
  - intros [Hhead Htail]%andb_prop.
    destruct (scalar_eqb k' (SStr k)) eqn:Hk; cbn [forallb].
    + rewrite Htail, andb_true_r. destruct k' as [| | |s]; try done.
      simpl in Hk. apply String.eqb_eq in Hk as ->. exact Hentry.
    + by rewrite Hhead, (IH Htail).
Qed.

Lemma aggregate_result (d : pydict) (v : pyval) :
  aggregate d = true → dict_get (SStr "result") d = Some v → is_dict v = true.
Proof.
  unfold aggregate. induction d as [|[k' v'] d IH]; cbn [dict_get forallb]; [done|].
  intros [Hhead Htail]%andb_prop.
  destruct (scalar_eqb k' (SStr "result")) eqn:Hk; [|by apply IH].
  intros [= ->]. destruct k' as [| | |s]; try done.
  simpl in Hk. apply String.eqb_eq in Hk as ->. exact Hhead.
Qed.

Lemma keeps_bind {A B} (m : stateful A) (f : A → stateful B) :
  keeps m → (∀ a, keeps (f a)) → keeps (m ≫= f).
Proof.
  intros Hm Hf st Hst. unfold mbind, stateful_bind.
  specialize (Hm st Hst). destruct (m st) as [st' [a|e]]; simpl in *; [|done].
  by apply Hf.
Qed.

Lemma keeps_eval {A} (r : result A) : keeps (eval r).
Proof. by intros st Hst. Qed.

Lemma keeps_ret {A} (a : A) : keeps (mret a).
Proof. by intros st Hst. Qed.

Lemma keeps_contains (key : string) : keeps (contains key).
Proof. by intros st Hst. Qed.

Lemma keeps_assign (key : string) (v : pyval) :
  aggregate_entry (SStr key, v) = true → keeps (assign key v).
Proof. intros Hentry st Hst. by apply aggregate_set. Qed.

Lemma keeps_assign_in (k v : pyval) : keeps (assign_in "result" k v).
Proof.
  intros st Hst. unfold assign_in.
  destruct (dict_get (SStr "result") st) as [[a|l|l|inner]|]; try done.
  destruct (as_key k); [|done]. by apply aggregate_set.
Qed.

Lemma keeps_apply_event (text : string) : keeps (apply_event text).
Proof.
  unfold apply_event.
  repeat first
    [ apply keeps_bind; [|intros ?]
    | apply keeps_eval | apply keeps_ret | apply keeps_contains
    | apply keeps_assign_in | by apply keeps_assign
    | match goal with |- keeps (if ?b then _ else _) => destruct b end ].
Qed.

Lemma aggregate_fold (lines : list string) (st : pydict) :
  aggregate st = true →
  aggregate (fold_left (λ result line, try_pass (apply_event line) result) lines st)
  = true.
Proof.
  revert st. induction lines as [|line lines IH]; intros st Hst; [done|].
  simpl. apply IH. by apply keeps_apply_event.
Qed.

(** X12. On every text, [_apply_callback] returns a mapping and raises
    nothing, whatever the lines hold. The mapping has no key but
    [outputs], [changes] and [result], and what it holds under [result] is
    a mapping. With no text at all (the default [stdout=None]) it raises
    [AttributeError]. *)
Theorem apply_callback_aggregate (stdout : string) (stderr : option string) :
  (∃ result, _apply_callback (Some stdout) stderr = Ok (PDict result)
     ∧ aggregate result = true
     ∧ ∀ k v, (k, v) ∈ result →
         k = SStr "outputs" ∨ k = SStr "changes"
         ∨ (k = SStr "result" ∧ ∃ inner, v = PDict inner))
  ∧ _apply_callback None stderr = Raise AttributeError.
Proof.
  split; [|done]. eexists. split; [reflexivity|].
  pose proof (aggregate_fold (splitlines stdout) [] eq_refl) as Hagg.
  split; [exact Hagg|]. intros k v Hin.
  unfold aggregate in Hagg. rewrite forallb_forall in Hagg.
  apply list_elem_of_In, Hagg in Hin.
  destruct k as [| | |s]; try done. simpl in Hin.
  destruct (String.eqb s "outputs") eqn:H1; [apply String.eqb_eq in H1 as ->; by left|].
  destruct (String.eqb s "changes") eqn:H2;
    [apply String.eqb_eq in H2 as ->; right; by left|].
  simpl in Hin. apply andb_prop in Hin as [H3 Hdict].
  apply String.eqb_eq in H3 as ->. right. right. split; [done|].
  destruct v; try done. by eexists.
Qed.

Lemma try_pass_ignored (text : string) (st : pydict) :
  ignored text = true → try_pass (apply_event text) st = st.
Proof.
  unfold ignored, try_pass, apply_event, mbind, stateful_bind, eval.
  destruct (json_loads text) as [line|e]; [|done]. simpl.
  destruct (getitem line "type") as [ty|e]; [|done]. simpl.
  intros H. apply negb_true_iff in H.
  apply orb_false_elim in H as [[H1 H2]%orb_false_elim H3].
  by rewrite H1, H2, H3.
Qed.

(** X13. A line that is no event (refused by the decoder as no JSON, no
    object, without [type], or of another [type]) changes nothing: the
    result for a text with such a line is the result for the text whose
    lines are the others, in the same order. A line that the embedding
    cannot decode, though the code can, is no such line. *)
Theorem apply_callback_skips_noise (stdout stdout' : string) (stderr : option string)
    (before after : list string) (line : string) :
  splitlines stdout = before ++ line :: after →
  splitlines stdout' = before ++ after →
  ignored line = true →
  _apply_callback (Some stdout) stderr = _apply_callback (Some stdout') stderr.
Proof.
  intros Hlines Hlines' Hnoise. unfold _apply_callback.
  rewrite Hlines, Hlines', !fold_left_app. simpl.
  by rewrite (try_pass_ignored line _ Hnoise).
Qed.

Lemma apply_callback_skips_noise_witness :
  _apply_callback (Some stream_with_noise) None
  = _apply_callback (Some stream_without_noise) None.
Proof.
  apply (apply_callback_skips_noise stream_with_noise stream_without_noise None
           [line_outputs] [line_apply_complete] line_not_json);
    vm_compute; reflexivity.
Defined.

(** Unfolds the statements of the [try] body. *)
Ltac event_steps :=
  unfold try_pass, apply_event, mbind, mret, stateful_bind, stateful_ret, eval,
    assign, contains.

(** X14. An [apply_complete] event whose address cannot be read (no
    [hook], no [resource], no [addr], or an address that is no key) is not
    skipped as a whole: the [result] key is made before the address is
    read, so a text with this one line gives a mapping whose [result] is
    empty. *)
Theorem apply_complete_without_address (stdout : string) (stderr : option string)
    (line : string) (d : pydict) (e : exn) :
  splitlines stdout = [line] →
  json_loads line = Ok (PDict d) →
  dict_get (SStr "type") d = Some (PStr "apply_complete") →
  hook_address (PDict d) = Raise e →
  _apply_callback (Some stdout) stderr = Ok (PDict [(SStr "result", PDict [])]).
Proof.
  intros Hlines Hjson Htype Haddr. unfold _apply_callback. rewrite Hlines. simpl.
  event_steps. rewrite Hjson. simpl. rewrite Htype. simpl.
  unfold hook_address, mbind, result_bind in Haddr. simpl in Haddr.
  destruct (dict_get (SStr "hook") d) as [hook|]; [|done]. simpl.
  destruct (getitem hook "resource") as [resource|]; [|done]. simpl.
  destruct (getitem resource "addr") as [addr|]; [|done]. simpl.
  unfold assign_in. simpl. by rewrite Haddr.
Qed.

Lemma apply_complete_without_address_witness :
  _apply_callback (Some line_no_hook) None = Ok (PDict [(SStr "result", PDict [])]).
Proof.
  apply (apply_complete_without_address line_no_hook None line_no_hook
           [(SStr "type", PStr "apply_complete")] (KeyError (SStr "hook")));
    vm_compute; reflexivity.
Defined.

(** X15. The last event decides: when the last line of the text is an
    [outputs] event, the result holds its payload under [outputs],
    whatever the lines before it hold; and when it is a [change_summary]
    event, the result holds its payload under [changes]. *)
Theorem apply_callback_last_event_wins (stdout : string) (stderr : option string)
    (before : list string) (line : string) (d : pydict) (payload : pyval) :
  splitlines stdout = before ++ [line] →
  json_loads line = Ok (PDict d) →
  (dict_get (SStr "type") d = Some (PStr "outputs") →
   dict_get (SStr "outputs") d = Some payload →
   ∃ result, _apply_callback (Some stdout) stderr = Ok (PDict result)
             ∧ dict_get (SStr "outputs") result = Some payload)
  ∧ (dict_get (SStr "type") d = Some (PStr "change_summary") →
     dict_get (SStr "changes") d = Some payload →
     ∃ result, _apply_callback (Some stdout) stderr = Ok (PDict result)
               ∧ dict_get (SStr "changes") result = Some payload).
Proof.
  intros Hlines Hjson. unfold _apply_callback. rewrite Hlines, fold_left_app. simpl.
  split; intros Htype Hpayload; (eexists; split; [reflexivity|]);
    event_steps; rewrite Hjson; simpl; rewrite Htype; simpl; rewrite Hpayload; simpl;
    apply dict_get_set.
Qed.

Lemma apply_callback_last_event_wins_witness :
  ∃ result,
    _apply_callback (Some (line_outputs +:+ str1 LF +:+ line_outputs_again)) None
    = Ok (PDict result)
    ∧ dict_get (SStr "outputs") result = Some (PDict [(SStr "b", PInt 2)]).
Proof.
  refine (proj1 (apply_callback_last_event_wins
                   (line_outputs +:+ str1 LF +:+ line_outputs_again) None
                   [line_outputs] line_outputs_again
                   [(SStr "type", PStr "outputs");
                    (SStr "outputs", PDict [(SStr "b", PInt 2)])]
                   (PDict [(SStr "b", PInt 2)]) _ _) eq_refl eq_refl);
    vm_compute; reflexivity.
Defined.

(** X16. When the last line of the text is an [apply_complete] event with
    a hook whose resource has an address, the result holds the whole hook
    under that address inside [result], whatever the lines before it
    hold. *)
Theorem apply_callback_records_hook (stdout : string) (stderr : option string)
    (before : list string) (line : string) (d : pydict) (hook : pyval)
    (addr : scalar) :
  splitlines stdout = before ++ [line] →
  json_loads line = Ok (PDict d) →
  dict_get (SStr "type") d = Some (PStr "apply_complete") →
  dict_get (SStr "hook") d = Some hook →
  hook_address (PDict d) = Ok addr →
  ∃ result inner,
    _apply_callback (Some stdout) stderr = Ok (PDict result)
    ∧ dict_get (SStr "result") result = Some (PDict inner)
    ∧ dict_get addr inner = Some hook.
Proof.
  intros Hlines Hjson Htype Hhook Haddr.
  unfold _apply_callback. rewrite Hlines, fold_left_app. simpl.
  pose proof (aggregate_fold before [] eq_refl) as Hagg.
  match goal with
  | |- context [fold_left ?f before []] => set (st := fold_left f before []) in *
  end.
  unfold hook_address, mbind, result_bind in Haddr. simpl in Haddr.
  rewrite Hhook in Haddr.
  destruct (getitem hook "resource") as [resource|] eqn:Hres; [|done].
  destruct (getitem resource "addr") as [a|] eqn:Ha; [|done].
  event_steps. rewrite Hjson. simpl. rewrite Htype. simpl.
  unfold dict_mem.
  destruct (dict_get (SStr "result") st) as [v|] eqn:Hget; simpl.
  - pose proof (aggregate_result st v Hagg Hget) as Hdict.
    destruct v as [| | |inner]; try done.
    rewrite Hhook. simpl. rewrite Hres. simpl. rewrite Ha. simpl.
    unfold assign_in. rewrite Hget, Haddr. simpl.
    eexists _, _. split; [reflexivity|]. split; apply dict_get_set.
  - rewrite Hhook. simpl. rewrite Hres. simpl. rewrite Ha. simpl.
    unfold assign_in. rewrite dict_get_set, Haddr. simpl.
    eexists _, _. split; [reflexivity|].
    split; [apply dict_get_set | exact (dict_get_set addr hook [])].
Qed.

Lemma apply_callback_records_hook_witness :
  ∃ result inner,
    _apply_callback (Some (line_outputs +:+ str1 LF +:+ line_apply_complete)) None
    = Ok (PDict result)
    ∧ dict_get (SStr "result") result = Some (PDict inner)
    ∧ dict_get (SStr "x") inner = Some hook_payload.
Proof.
  apply (apply_callback_records_hook
           (line_outputs +:+ str1 LF +:+ line_apply_complete) None
           [line_outputs] line_apply_complete
           [(SStr "type", PStr "apply_complete"); (SStr "hook", hook_payload)]
           hook_payload (SStr "x"));
    vm_compute; reflexivity.
Defined.
(** ** The commands without a version gate: the lists they build *)

Lemma build_arg_flag_opt_bool (opt template : string) (x : option bool) :
  TERRAFORM_ARGS !! opt = Some template →
  ends_with_eq template = Ok false →
  _build_arg opt (opt_bool x) = Ok (flag_token template (truthy x)).
Proof.
  intros Hopt Hflag. rewrite (build_arg_flag_other opt template _ Hopt Hflag).
  by destruct x as [[]|].
Qed.

Lemma build_arg_attribute_color (self : Terraform) (color : option bool) :
  _build_arg_attribute "color" (resolve_color self color)
  = Ok (flag_token "-no-color" (truthy color)).
Proof.
  destruct color as [[]|];
    cbn [resolve_color _build_arg_attribute opt_bool getattr_color truthy flag_token].
  - by rewrite (build_arg_flag_other "color" "-no-color" (SBool true) eq_refl eq_refl).
  - by rewrite (terraform_arg_known "color" "-no-color" eq_refl).
  - by rewrite (build_arg_flag_other "color" "-no-color" SNone eq_refl eq_refl).
Qed.

Lemma get_command_eq (a : get_args) :
  get_command a
  = Ok ["get"; flag_token "-update" (truthy (get_update a));
        flag_token "-no-color" (truthy (get_color a))].
Proof.
  unfold get_command, append_arg.
  rewrite (build_arg_flag_opt_bool "update" "-update" _ eq_refl eq_refl),
    (build_arg_flag_opt_bool "color" "-no-color" _ eq_refl eq_refl).
  reflexivity.
Qed.

Lemma fmt_command_eq (a : fmt_args) :
  fmt_command a
  = Ok (["fmt"; flag_token "-diff" (fmt_diff a); flag_token "-check" (fmt_check a);
         flag_token "-recursive" (fmt_recursive a)]
        ++ (if fmt_list_files a then [] else ["-list=false"])
        ++ (if fmt_write a then [] else ["-write=false"])).
Proof.
  unfold fmt_command, append_arg.
  destruct (fmt_list_files a), (fmt_write a); build_arg; reflexivity.
Qed.

Lemma validate_command_eq (self : Terraform) (a : validate_args) :
  validate_command self a
  = Ok ["validate"; flag_token "-no-color" (truthy (validate_color a));
        flag_token "-json" (truthy (validate_json a))].
Proof.
  unfold validate_command, append_arg.
  rewrite build_arg_attribute_color,
    (build_arg_flag_opt_bool "json" "-json" _ eq_refl eq_refl).
  reflexivity.
Qed.

Lemma output_command_eq (self : Terraform) (a : output_args) :
  output_command self a
  = Ok (["output"; flag_token "-no-color" (truthy (output_color a));
         flag_token "-json" (truthy (output_json a));
         flag_token "-raw" (truthy (output_raw a));
         value_token "-state=" (output_state a)]
        ++ match output_name a with
           | None | Some "" => []
           | Some name => [shlex_quote name]
           end).
Proof.
  unfold output_command, append_arg.
  rewrite build_arg_attribute_color,
    (build_arg_flag_opt_bool "json" "-json" _ eq_refl eq_refl),
    (build_arg_flag_opt_bool "raw" "-raw" _ eq_refl eq_refl),
    (build_arg_valued_opt_str "state" "-state=" eq_refl eq_refl).
  by destruct (output_name a) as [[|c name]|].
Qed.

(** ** Failure and success of the commands *)

(** X17. When the executor reports a failure, every command but [show]
    raises its own error, with its message, its subcommand name, the
    captured stderr and the duration of the run: [init], [get], [plan],
    [apply], [fmt], [validate], [output], [login] and [logout] return no
    value then, whatever their arguments. *)
Theorem failure_is_raised (run_command : Call → CommandResult) (self : Terraform) :
  (∀ call, success (run_command call) = false) →
  (∀ a, ∃ call, outcome (init run_command self a)
     = Raise (command_failure OpInit "Failed to initialize terraform project" "init"
                (run_command call)))
  ∧ (∀ a, ∃ call, outcome (get run_command self a)
       = Raise (command_failure OpGet "Failed to run terraform get" "get"
                  (run_command call)))
  ∧ (∀ a, ∃ call, outcome (plan run_command self a)
       = Raise (command_failure OpPlan "Failed to run plan terraform" "plan"
                  (run_command call)))
  ∧ (∀ a, ∃ call, outcome (apply run_command self a)
       = Raise (command_failure OpApply "Failed to apply changes to state" "apply"
                  (run_command call)))
  ∧ (∀ a, ∃ call, outcome (fmt run_command self a)
       = Raise (command_failure OpFmt "Failed to run terraform fmt" "fmt"
                  (run_command call)))
  ∧ (∀ a, ∃ call, outcome (validate run_command self a)
       = Raise (command_failure OpValidate "Failed to run terraform validate"
                  "validate" (run_command call)))
  ∧ (∀ a, ∃ call, outcome (output run_command self a)
       = Raise (command_failure OpOutput "Failed to run terraform output" "output"
                  (run_command call)))
  ∧ (∀ a, ∃ call, outcome (login run_command self a)
       = Raise (command_failure OpLogin
                  ("Failed to terraform login to host '" +:+ format_opt (hostname a)
                   +:+ "'") "login" (run_command call)))
  ∧ (∀ a, ∃ call, outcome (logout run_command self a)
       = Raise (command_failure OpLogout
                  ("Failed to terraform logout to host '" +:+ format_opt (hostname a)
                   +:+ "'") "logout" (run_command call))).
Proof.
  intros Hfail. repeat split; intros a; eexists.
  - unfold init, init_call. rewrite init_command_eq. run_binds. by rewrite Hfail.
  - unfold get. rewrite get_command_eq. run_binds. by rewrite Hfail.
  - unfold plan, plan_call. rewrite plan_command_eq. run_binds. by rewrite Hfail.
  - unfold apply. rewrite apply_call_eq. run_binds. by rewrite Hfail.
  - unfold fmt. rewrite fmt_command_eq. run_binds. by rewrite Hfail.
  - unfold validate. rewrite validate_command_eq. run_binds. by rewrite Hfail.
  - unfold output. rewrite output_command_eq. run_binds. by rewrite Hfail.
  - unfold login. run_binds. by rewrite Hfail.
  - unfold logout. run_binds. by rewrite Hfail.
Qed.

Lemma failure_is_raised_witness :
  ∃ call, outcome (login (failing_executor "") (terraform (engine 1 5 0)) host_defaults)
  = Raise (command_failure OpLogin "Failed to terraform login to host 'None'" "login"
             (failing_executor "" call)).
Proof.
  destruct (failure_is_raised (failing_executor "") (terraform (engine 1 5 0))
              (λ call, eq_refl)) as (_ & _ & _ & _ & _ & _ & _ & Hlogin & _).
  apply (Hlogin host_defaults).
Defined.

(** X18. When the executor reports a success, [init], [get], [plan],
    [fmt], [validate], [login] and [logout] return [True], whatever their
    arguments; [get] and [fmt] log one line then, at the success level. *)
Theorem success_is_returned (run_command : Call → CommandResult) (self : Terraform) :
  (∀ call, success (run_command call) = true) →
  (∀ a, outcome (init run_command self a) = Ok true)
  ∧ (∀ a, outcome (get run_command self a) = Ok true)
  ∧ (∀ a, outcome (plan run_command self a) = Ok true)
  ∧ (∀ a, outcome (fmt run_command self a) = Ok true)
  ∧ (∀ a, outcome (validate run_command self a) = Ok true)
  ∧ (∀ a, outcome (login run_command self a) = Ok true)
  ∧ (∀ a, outcome (logout run_command self a) = Ok true)
  ∧ (∀ a, ∃ line, logged (get run_command self a) = [Log Success line])
  ∧ (∀ a, ∃ line, logged (fmt run_command self a) = [Log Success line]).
Proof.
  intros Hok. repeat split; intros a.
  - unfold init, init_call. rewrite init_command_eq. run_binds. by rewrite !Hok.
  - unfold get. rewrite get_command_eq. run_binds. by rewrite !Hok.
  - unfold plan, plan_call. rewrite plan_command_eq. run_binds. by rewrite !Hok.
  - unfold fmt. rewrite fmt_command_eq. run_binds. by rewrite !Hok.
  - unfold validate. rewrite validate_command_eq. run_binds. by rewrite !Hok.
  - unfold login. run_binds. by rewrite !Hok.
  - unfold logout. run_binds. by rewrite !Hok.
  - unfold get. rewrite get_command_eq. run_binds. rewrite !Hok. by eexists.
  - unfold fmt. rewrite fmt_command_eq. run_binds. rewrite !Hok. by eexists.
Qed.

Lemma success_is_returned_witness :
  outcome (init (succeeding_executor "") (terraform (engine 1 5 0)) init_defaults)
  = Ok true.
Proof.
  destruct (success_is_returned (succeeding_executor "") (terraform (engine 1 5 0))
              (λ call, eq_refl)) as (Hinit & _).
  apply (Hinit init_defaults).
Defined.

Lemma apply_outcome (run_command : Call → CommandResult) (self : Terraform)
    (a : apply_args) (call : Call) :
  apply_call self a = Ok call →
  outcome (apply run_command self a)
  = if success (run_command call)
    then Ok (if apply_json a && (1 <=? major (version (_version self)))%N
             then callback_output (run_command call)
             else PBool true)
    else Raise (command_failure OpApply "Failed to apply changes to state" "apply"
                  (run_command call)).
Proof.
  intros Hcall. unfold apply. rewrite Hcall. run_binds.
  destruct (success (run_command call)) eqn:Hok; simpl; [|done].
  by destruct (apply_json a && (1 <=? major (version (_version self)))%N).
Qed.

(** X19. From the subprocess to the caller: on an engine of major version
    1 or more, when the executor succeeds and keeps the value of the
    completion callback it was given, [apply(json=True)] returns what
    [_apply_callback] makes of the subprocess's stdout. *)
Theorem apply_returns_aggregate (run_command : Call → CommandResult)
    (self : Terraform) (a : apply_args) :
  (1 ≤ major (version (_version self)))%N →
  apply_json a = true →
  (∀ call, apply_call self a = Ok call →
     success (run_command call) = true
     ∧ ∀ f, callback call = Some f →
         f (Some (stdout (run_command call))) (Some (stderr (run_command call)))
         = Ok (callback_output (run_command call))) →
  ∃ call, apply_call self a = Ok call
    ∧ outcome (apply run_command self a)
      = _apply_callback (Some (stdout (run_command call)))
          (Some (stderr (run_command call))).
Proof.
  intros Hgate Hjson Hexec. apply N.leb_le in Hgate.
  pose proof (apply_call_eq self a) as Hcall. cbv zeta in Hcall.
  rewrite Hgate, Hjson in Hcall.
  destruct (Hexec _ Hcall) as [Hok Hcallback].
  eexists. split; [exact Hcall|].
  rewrite (apply_outcome run_command self a _ Hcall), Hok, Hjson, Hgate.
  symmetry. apply Hcallback. reflexivity.
Qed.

Lemma apply_returns_aggregate_witness :
  outcome (apply (calling_executor stream_with_noise) (terraform (engine 1 5 0))
             apply_with_json)
  = Ok (PDict [(SStr "outputs", PDict [(SStr "a", PInt 1)]);
               (SStr "result", PDict [(SStr "x", hook_payload)])]).
Proof.
  destruct (apply_returns_aggregate (calling_executor stream_with_noise)
              (terraform (engine 1 5 0)) apply_with_json) as (call & Hcall & Hout).
  - done.
  - reflexivity.
  - intros call Hcall. rewrite apply_call_eq in Hcall. injection Hcall as <-.
    split; [reflexivity|]. intros f [= <-]. vm_compute. reflexivity.
  - rewrite Hout. rewrite apply_call_eq in Hcall. injection Hcall as <-.
    vm_compute. reflexivity.
Defined.

(** X20. [output] raises its error on a failure before it decodes
    anything, where [show] decodes what a failed run wrote. On a success it
    returns the decoded stdout when [json] is true, so a stdout that is not
    JSON raises the decoder's error, and [True] when [json] is [False] or
    [None]; it echoes the subprocess's output only in the second case, and
    its first log line is the command list as it stood, [output] alone. *)
Theorem output_decodes_after_success (run_command : Call → CommandResult)
    (self : Terraform) (a : output_args) :
  ∃ cmd, output_command self a = Ok cmd
    ∧ let call := cmd_call cmd (Some "Terraform output")
                    (resolve_chdir self (output_chdir a))
                    (negb (truthy (output_json a))) None None in
      (success (run_command call) = false →
       outcome (output run_command self a)
       = Raise (command_failure OpOutput "Failed to run terraform output" "output"
                  (run_command call)))
      ∧ (success (run_command call) = true →
         outcome (output run_command self a)
         = if truthy (output_json a)
           then json_loads (stdout (run_command call))
           else Ok (PBool true))
      ∧ head (logged (output run_command self a))
        = Some (Log Info (PList [PStr "output"])).
Proof.
  eexists. split; [apply output_command_eq|].
  unfold output. rewrite output_command_eq. run_binds.
  split; [|split].
  - intros Hfail. by rewrite Hfail.
  - intros Hok. rewrite Hok. simpl. destruct (truthy (output_json a)); [|done].
    simpl. by destruct (json_loads _).
  - reflexivity.
Qed.
(** ** The plan file, from [plan] to [apply] and [show] *)

Lemma shlex_escape_length (s : string) :
  (String.length s ≤ String.length (shlex_escape s))%nat.
Proof.
  induction s as [|c s IH]; simpl; [lia|].
  destruct (Ascii.eqb c apostrophe); simpl; lia.
Qed.

(** [shlex.quote] leaves a text as it is exactly when the text is not
    empty and all its characters are safe. *)
Lemma shlex_quote_fixed (s : string) :
  s ≠ "" → (shlex_quote s = s ↔ all_chars shell_safe s = true).
Proof.
  intros Hne. destruct s as [|c s]; [done|]. unfold shlex_quote.
  destruct (all_chars shell_safe (String c s)); split; try done.
  intros H. apply (f_equal String.length) in H.
  unfold str1 in H. rewrite app_cons_str, app_nil_l_str in H.
  cbn [String.length] in H. rewrite length_app_str in H. cbn [String.length] in H.
  pose proof (shlex_escape_length (String c s)) as Hlen.
  cbn [String.length] in Hlen. lia.
Qed.

Lemma last_argv (front : list string) (x : string) :
  last ("terraform" :: front ++ [x]) = Some x.
Proof. by rewrite app_comm_cons, last_snoc. Qed.

(** X21. The default plan file goes from [plan] to [apply] and [show]:
    on every instance the constructor builds, a [plan] without [out]
    passes [-out=plan.tfplan], and an [apply] without [plan_file] and a
    [show] without [file] end their command with [plan.tfplan]. *)
Theorem default_plan_file_handover (workspace : string) (chdir : option string)
    (lock : bool) (lock_timeout : Z) (input : bool) (parallelism : Z) (color : bool)
    (var_file : option string) (detected : version_info) :
  let self := __init__ workspace chdir lock lock_timeout input parallelism color
                var_file detected in
  (∀ a, not_str (plan_out a) = true →
     ∃ cmd, outcome (plan_command self a) = Ok cmd ∧ "-out=plan.tfplan" ∈ cmd)
  ∧ (∀ a, not_str (apply_plan_file a) = true →
       ∃ call, apply_call self a = Ok call ∧ last (argv call) = Some "plan.tfplan")
  ∧ (∀ a, not_str (show_file a) = true →
       ∃ cmd, show_command self a = Ok cmd ∧ last cmd = Some "plan.tfplan").
Proof.
  intros self. repeat split; intros a Hnot.
  - eexists. split; [by rewrite plan_command_eq|].
    rewrite Hnot.
    apply elem_of_app. right. apply elem_of_app. right. apply elem_of_app. left.
    constructor.
  - eexists. split; [apply apply_call_eq|]. cbv zeta. cbn [argv cmd_call].
    rewrite !app_assoc, last_argv.
    by destruct (apply_plan_file a) as [[|c f]|].
  - eexists. split; [apply show_command_eq|].
    by destruct (show_file a) as [[|c f]|].
Qed.

(** X22. A plan file named by the caller: [plan] passes the name as it
    is, after [-out=]; [apply] and [show] end their command with the name
    as it is if and only if the name is made of letters, digits and the
    characters [@%+=:,./-_], and with the name between apostrophes
    otherwise, so that the two commands name the same file to the engine
    only for such names. *)
Theorem named_plan_file_quoting (self : Terraform) (f : string) :
  f ≠ "" →
  (∀ a, plan_out a = Some f →
     ∃ cmd, outcome (plan_command self a) = Ok cmd ∧ "-out=" +:+ f ∈ cmd)
  ∧ (∀ a, apply_plan_file a = Some f →
       ∃ call token, apply_call self a = Ok call ∧ last (argv call) = Some token
         ∧ (token = f ↔ all_chars shell_safe f = true)
         ∧ (all_chars shell_safe f = false
            → token = str1 apostrophe +:+ shlex_escape f +:+ str1 apostrophe))
  ∧ (∀ a, show_file a = Some f →
       ∃ cmd token, show_command self a = Ok cmd ∧ last cmd = Some token
         ∧ (token = f ↔ all_chars shell_safe f = true)
         ∧ (all_chars shell_safe f = false
            → token = str1 apostrophe +:+ shlex_escape f +:+ str1 apostrophe)).
Proof.
  intros Hne.
  assert (all_chars shell_safe f = false
          → shlex_quote f = str1 apostrophe +:+ shlex_escape f +:+ str1 apostrophe)
    as Hquoted.
  { intros Hunsafe. unfold shlex_quote. rewrite Hunsafe. by destruct f. }
  repeat split; intros a Hf.
  - eexists. split; [by rewrite plan_command_eq|].
    rewrite Hf.
    replace (not_str (Some f)) with false by (by destruct f).
    replace (value_token "-out=" (Some f)) with ("-out=" +:+ f) by (by destruct f).
    apply elem_of_app. right. apply elem_of_app. right. apply elem_of_app. left.
    constructor.
  - eexists _, _. split; [apply apply_call_eq|]. cbv zeta. cbn [argv cmd_call].
    rewrite !app_assoc, last_argv, Hf.
    replace (match f with "" => _planfile self | String _ _ => f end) with f
      by (by destruct f).
    split; [reflexivity|]. split; [by apply shlex_quote_fixed | exact Hquoted].
  - eexists _, _. split; [apply show_command_eq|]. rewrite Hf.
    replace (match f with "" => _planfile self | String _ _ => f end) with f
      by (by destruct f).
    split; [reflexivity|]. split; [by apply shlex_quote_fixed | exact Hquoted].
Qed.

Lemma named_plan_file_quoting_witness :
  ∃ call,
    apply_call (terraform (engine 1 5 0))
      {| apply_plan_file := Some "my plan"; apply_auto_approve := false;
         apply_compact_warnings := false; apply_input := None; apply_json := false;
         apply_lock := None; apply_lock_timeout := None; apply_color := None;
         apply_parallelism := None; apply_state := None; apply_state_out := None;
         apply_backup := None; apply_chdir := None |} = Ok call
    ∧ last (argv call) = Some "'my plan'".
Proof.
  destruct (named_plan_file_quoting (terraform (engine 1 5 0)) "my plan")
    as (_ & Happly & _); [done|].
  destruct (Happly {| apply_plan_file := Some "my plan"; apply_auto_approve := false;
                      apply_compact_warnings := false; apply_input := None;
                      apply_json := false; apply_lock := None;
                      apply_lock_timeout := None; apply_color := None;
                      apply_parallelism := None; apply_state := None;
                      apply_state_out := None; apply_backup := None;
                      apply_chdir := None |} eq_refl)
    as (call & token & Hcall & Hlast & _ & Hquoted).
  exists call. split; [exact Hcall|]. rewrite Hlast. f_equal. by apply Hquoted.
Defined.
(** ** Which flags the commands pass *)

Lemma app_ne_prefix (template s x : string) :
  is_prefix template x = false → template +:+ s ≠ x.
Proof. intros Hx <-. unfold is_prefix in Hx. by rewrite strip_prefix_app in Hx. Qed.

Lemma value_token_ne_prefix (template : string) (o : option string) (x : string) :
  is_prefix template x = false → x ≠ "" → value_token template o ≠ x.
Proof.
  intros Hx Hne. destruct o as [[|c s]|]; simpl; try done. by apply app_ne_prefix.
Qed.

(** No token of the default arguments is [x]. *)
Lemma default_tokens_without (self : Terraform) (color lock : option bool)
    (lock_timeout : option Z) (input : option bool) (x : string) :
  x ≠ "" → x ≠ "-no-color" → x ≠ "-lock=false" → x ≠ "-input=true" →
  x ≠ "-input=false" → is_prefix "-lock-timeout=" x = false →
  Forall (λ t, t ≠ x) (default_tokens self color lock lock_timeout input).
Proof.
  intros H1 H2 H3 H4 H5 H6. apply Forall_forall. intros t Ht <-.
  apply default_tokens_elem in Ht
    as [[? ?]|[[? ?]|[[? ?]|[(z & ? & Ht)|[[? ?]|[? ?]]]]]]; try done.
  by apply (app_ne_prefix "-lock-timeout=" (str_int z) t).
Qed.

(** Every token of the list differs from a closed text [x]. *)
Ltac no_token :=
  repeat match goal with
  | |- Forall _ (default_tokens _ _ _ _ _) => by apply default_tokens_without
  | |- Forall _ (_parse_vars _) => by apply parse_vars_ne
  | |- Forall _ (if ?b then _ else _) => destruct b
  | |- Forall _ (_ ++ _) => apply Forall_app_2
  | |- Forall _ (_ :: _) => apply Forall_cons_2
  | |- Forall _ [] => apply Forall_nil_2
  | |- flag_token _ _ ≠ _ => by apply flag_token_ne
  | |- value_token _ _ ≠ _ => by apply value_token_ne_prefix
  | |- bool_token _ _ ≠ _ => by apply app_ne_prefix
  | |- _ +:+ _ ≠ _ => by apply app_ne_prefix
  | |- (if ?b then _ else _) ≠ _ => destruct b
  | |- match ?o with Some _ => _ | None => _ end ≠ _ => destruct o
  | |- _ ≠ _ => done
  end.

(** [x] is in the list when the list is written out and [x] is there. *)
Ltac has_token :=
  rewrite ?elem_of_app, ?elem_of_cons; intuition.

(** X23. The bare flags of [plan]: for every instance and every argument
    set, [-destroy] is in the command if and only if [destroy] is true,
    [-compact-warnings] if and only if [compact_warnings] is true, and
    [-refresh-only] if and only if [refresh_only] is true and the detected
    major version is at least 1 (the minor version is not looked at,
    though the warning names 1.1.0); the variables are the last tokens of
    the command. *)
Theorem plan_bare_flags (self : Terraform) (a : plan_args) :
  ∃ cmd, outcome (plan_command self a) = Ok cmd
    ∧ ("-destroy" ∈ cmd ↔ plan_destroy a = true)
    ∧ ("-compact-warnings" ∈ cmd ↔ plan_compact_warnings a = true)
    ∧ ("-refresh-only" ∈ cmd
       ↔ plan_refresh_only a = true ∧ (1 ≤ major (version (_version self)))%N)
    ∧ ∃ front, cmd = front ++ _parse_vars (plan_vars a).
Proof.
  eexists. split; [by rewrite plan_command_eq|]. rewrite version_gate.
  split; [|split; [|split]].
  - split.
    + intros Hin. destruct (plan_destroy a); [done|]. exfalso.
      refine (proj1 (Forall_forall (λ t : string, t ≠ "-destroy") _) _ _ Hin eq_refl).
      no_token.
    + intros ->. has_token.
  - split.
    + intros Hin. destruct (plan_compact_warnings a); [done|]. exfalso.
      refine (proj1 (Forall_forall (λ t : string, t ≠ "-compact-warnings") _) _ _
                Hin eq_refl).
      no_token.
    + intros ->. has_token.
  - rewrite <- N.leb_le. split.
    + intros Hin.
      destruct (plan_refresh_only a), (1 <=? major (version (_version self)))%N;
        try done; exfalso;
        refine (proj1 (Forall_forall (λ t : string, t ≠ "-refresh-only") _) _ _
                  Hin eq_refl);
        no_token.
    + intros [-> ->]. has_token.
  - eexists. rewrite !app_assoc. reflexivity.
Qed.

(** X24. The flags of [init]: for every instance and every argument set,
    each of [-upgrade], [-reconfigure], [-migrate-state] and [-force-copy]
    is in the command if and only if its option is true,
    [-lockfile=readonly] if and only if [readonly] is true, and each of
    [-backend=false], [-get=false] and [-get-plugins=false] if and only if
    its option is false; [-backend=true] is never there. *)
Theorem init_flags (self : Terraform) (a : init_args) :
  ∃ cmd, init_command self a = Ok cmd
    ∧ ("-upgrade" ∈ cmd ↔ init_upgrade a = true)
    ∧ ("-reconfigure" ∈ cmd ↔ init_reconfigure a = true)
    ∧ ("-migrate-state" ∈ cmd ↔ init_migrate_state a = true)
    ∧ ("-force-copy" ∈ cmd ↔ init_force_copy a = true)
    ∧ ("-lockfile=readonly" ∈ cmd ↔ init_readonly a = true)
    ∧ ("-backend=false" ∈ cmd ↔ init_backend a = false)
    ∧ ("-get=false" ∈ cmd ↔ init_get a = false)
    ∧ ("-get-plugins=false" ∈ cmd ↔ init_get_plugins a = false)
    ∧ "-backend=true" ∉ cmd.
Proof.
  eexists. split; [apply init_command_eq|].
  repeat match goal with |- _ ∧ _ => split end.
  - split.
    + intros Hin. destruct (init_upgrade a); [done|]. exfalso.
      refine (proj1 (Forall_forall (λ t : string, t ≠ "-upgrade") _) _ _ Hin eq_refl).
      no_token.
    + intros ->. has_token.
  - split.
    + intros Hin. destruct (init_reconfigure a); [done|]. exfalso.
      refine (proj1 (Forall_forall (λ t : string, t ≠ "-reconfigure") _) _ _ Hin eq_refl).
      no_token.
    + intros ->. has_token.
  - split.
    + intros Hin. destruct (init_migrate_state a); [done|]. exfalso.
      refine (proj1 (Forall_forall (λ t : string, t ≠ "-migrate-state") _) _ _ Hin eq_refl).
      no_token.
    + intros ->. has_token.
  - split.
    + intros Hin. destruct (init_force_copy a); [done|]. exfalso.
      refine (proj1 (Forall_forall (λ t : string, t ≠ "-force-copy") _) _ _ Hin eq_refl).
      no_token.
    + intros ->. has_token.
  - split.
    + intros Hin. destruct (init_readonly a); [done|]. exfalso.
      refine (proj1 (Forall_forall (λ t : string, t ≠ "-lockfile=readonly") _) _ _
                Hin eq_refl).
      no_token.
    + intros ->. has_token.
  - split.
    + intros Hin. destruct (init_backend a); [|done]. exfalso.
      refine (proj1 (Forall_forall (λ t : string, t ≠ "-backend=false") _) _ _
                Hin eq_refl).
      no_token.
    + intros ->. has_token.
  - split.
    + intros Hin. destruct (init_get a); [|done]. exfalso.
      refine (proj1 (Forall_forall (λ t : string, t ≠ "-get=false") _) _ _ Hin eq_refl).
      no_token.
    + intros ->. has_token.
  - split.
    + intros Hin. destruct (init_get_plugins a); [|done]. exfalso.
      refine (proj1 (Forall_forall (λ t : string, t ≠ "-get-plugins=false") _) _ _
                Hin eq_refl).
      no_token.
    + intros ->. has_token.
  - intros Hin.
    refine (proj1 (Forall_forall (λ t : string, t ≠ "-backend=true") _) _ _ Hin eq_refl).
    no_token.
Qed.
(** ** The colour flag outside the default arguments *)

(** X25. [show] passes [-no-color] when colour is on: its command is
    [show], the [-json] flag when [json] is true, the colour token and the
    file, and the colour token is [-no-color] if and only if the call
    passes [color=True], or passes no [color] while the instance's colour
    flag is true. With no [color] in the call, [show] passes [-no-color]
    exactly when [_default_args] does not. *)
Theorem show_color_token (self : Terraform) (a : show_args) :
  ∃ json_token color_token file_token,
    show_command self a = Ok ["show"; json_token; color_token; file_token]
    ∧ (json_token = "-json" ↔ show_json a = true)
    ∧ (color_token = "-no-color"
       ↔ show_color a = Some true ∨ (show_color a = None ∧ _color self = true))
    ∧ (show_color a = None →
       ∀ lock lock_timeout input, ∃ args,
         _default_args self None lock lock_timeout input = Ok args
         ∧ (color_token = "-no-color" ↔ "-no-color" ∉ args)).
Proof.
  eexists _, _, _. split; [apply show_command_eq|].
  split; [by destruct (show_json a)|]. split.
  - destruct (show_color a) as [[]|], (_color self); simpl; intuition congruence.
  - intros Hcolor lock lock_timeout input. eexists. split; [apply default_args_eq|].
    rewrite Hcolor, default_tokens_elem. destruct (_color self); simpl; split.
    + intros _ [[? ?]|[[? ?]|[[? ?]|[(? & ? & Ht)|[[? ?]|[? ?]]]]]];
        try discriminate; try (vm_compute in Ht; discriminate Ht);
        intuition congruence.
    + done.
    + done.
    + intros Hnot. destruct Hnot. left. split; [done|]. by right.
Qed.

(** X26. The instance's colour flag never reaches [validate] and
    [output]: their command is the same on every instance, its second
    token is [-no-color] if and only if the call passes [color=True], and
    [color=False] leaves the empty token there, as no [color] does. *)
Theorem validate_output_color (self : Terraform) :
  (∀ a, ∃ color_token rest,
     validate_command self a = Ok ("validate" :: color_token :: rest)
     ∧ (color_token = "-no-color" ↔ validate_color a = Some true)
     ∧ (validate_color a ≠ Some true → color_token = "")
     ∧ ∀ other, validate_command other a = validate_command self a)
  ∧ (∀ a, ∃ color_token rest,
       output_command self a = Ok ("output" :: color_token :: rest)
       ∧ (color_token = "-no-color" ↔ output_color a = Some true)
       ∧ (output_color a ≠ Some true → color_token = "")
       ∧ ∀ other, output_command other a = output_command self a).
Proof.
  split; intros a; eexists _, _.
  - split; [apply validate_command_eq|].
    split; [|split].
    + destruct (validate_color a) as [[]|]; simpl; intuition congruence.
    + by destruct (validate_color a) as [[]|].
    + intros other. by rewrite !validate_command_eq.
  - split; [apply output_command_eq|].
    split; [|split].
    + destruct (output_color a) as [[]|]; simpl; intuition congruence.
    + by destruct (output_color a) as [[]|].
    + intros other. by rewrite !output_command_eq.
Qed.

(** ** Variables that are no string and no container *)

(** X27. A variable that is an [int] goes on the command line as its
    decimal text, which the JSON decoder reads back as the same [int]. A
    [bool] and [None] go as Python writes them ([True], [False], [None]),
    which are no JSON. A [tuple] goes as a JSON array, which the decoder
    reads back as a [list]. *)
Theorem parse_vars_scalars (key : string) :
  (∀ n, _parse_vars (Some [(key, PInt n)]) = ["-var"; key +:+ "=" +:+ str_int n]
        ∧ json_loads (str_int n) = Ok (PInt n))
  ∧ (∀ b, ∃ text,
       _parse_vars (Some [(key, PBool b)]) = ["-var"; key +:+ "=" +:+ text]
       ∧ text = (if b then "True" else "False")
       ∧ json_loads text = Raise JSONDecodeError)
  ∧ (_parse_vars (Some [(key, PNone)]) = ["-var"; key +:+ "=" +:+ "None"]
     ∧ json_loads "None" = Raise JSONDecodeError)
  ∧ (∀ l, forallb json_like l = true →
       ∃ text, _parse_vars (Some [(key, PTuple l)]) = ["-var"; key +:+ "=" +:+ text]
               ∧ json_loads text = Ok (PList l)).
Proof.
  split; [|split; [|split]].
  - intros n. split; [reflexivity|]. exact (json_loads_dumps (PInt n) eq_refl).
  - intros b. eexists. split; [reflexivity|]. by destruct b.
  - done.
  - intros l Hl. eexists. split; [reflexivity|].
    exact (json_loads_dumps (PList l) Hl).
Qed.

(** ** The global arguments *)

(** X28. [_global_args] returns at most one token, and [-chdir=] with a
    directory is that token if and only if the directory is not empty and
    is the one the call passes, or the call passes none and it is the
    instance's and is not the dot. *)
Theorem global_args_chdir (self : Terraform) (chdir' : option string) (d : string) :
  ∃ args, _global_args self chdir' = Ok args
    ∧ (length args ≤ 1)%nat
    ∧ ("-chdir=" +:+ d ∈ args
       ↔ d ≠ "" ∧ (chdir' = Some d
                   ∨ (chdir' = None ∧ chdir self = Some d ∧ d ≠ "."))).
Proof.
  assert (∀ s, "-chdir=" +:+ d = "-chdir=" +:+ s → d = s) as Hinj.
  { intros s Heq. apply (f_equal (strip_prefix "-chdir=")) in Heq.
    rewrite !strip_prefix_app in Heq. by injection Heq. }
  assert (∀ s, "-chdir=" +:+ d ∈ [value_token "-chdir=" (Some s)] ↔ d ≠ "" ∧ s = d)
    as Htoken.
  { intros s. rewrite elem_of_cons, elem_of_nil. destruct s as [|c s]; simpl.
    - split; [by intros [?|[]] | by intros [? <-]].
    - split.
      + intros [Heq|[]]. apply Hinj in Heq as ->. done.
      + intros [_ <-]. by left. }
  unfold _global_args.
  destruct chdir' as [s|].
  - rewrite (build_arg_valued_str "chdir" "-chdir=" eq_refl eq_refl).
    eexists. split; [reflexivity|]. split; [simpl; lia|].
    rewrite app_nil_l, Htoken. intuition congruence.
  - destruct (chdir self) as [s|].
    + destruct (String.eqb s ".") eqn:Hdot; cbn [negb].
      * apply String.eqb_eq in Hdot as ->.
        eexists. split; [reflexivity|]. split; [simpl; lia|].
        rewrite elem_of_nil. intuition congruence.
      * apply String.eqb_neq in Hdot.
        rewrite (build_arg_valued_str "chdir" "-chdir=" eq_refl eq_refl).
        eexists. split; [reflexivity|]. split; [simpl; lia|].
        rewrite app_nil_l, Htoken. intuition congruence.
    + eexists. split; [reflexivity|]. split; [simpl; lia|].
      rewrite elem_of_nil. intuition congruence.
Qed.

(** ** The flags of [fmt] *)

(** X29. [fmt] passes [-list=false] if and only if [list_files] is false
    and [-write=false] if and only if [write] is false, never [-list=true]
    or [-write=true]; it passes [-diff], [-check] and [-recursive] if and
    only if their option is true. *)
Theorem fmt_flags (a : fmt_args) :
  ∃ cmd, fmt_command a = Ok cmd
    ∧ ("-list=false" ∈ cmd ↔ fmt_list_files a = false)
    ∧ ("-write=false" ∈ cmd ↔ fmt_write a = false)
    ∧ ("-diff" ∈ cmd ↔ fmt_diff a = true)
    ∧ ("-check" ∈ cmd ↔ fmt_check a = true)
    ∧ ("-recursive" ∈ cmd ↔ fmt_recursive a = true)
    ∧ ("-list=true" ∉ cmd) ∧ "-write=true" ∉ cmd.
Proof.
  eexists. split; [apply fmt_command_eq|].
  repeat match goal with |- _ ∧ _ => split end.
  - split.
    + intros Hin. destruct (fmt_list_files a); [|done]. exfalso.
      refine (proj1 (Forall_forall (λ t : string, t ≠ "-list=false") _) _ _ Hin eq_refl).
      no_token.
    + intros ->. has_token.
  - split.
    + intros Hin. destruct (fmt_write a); [|done]. exfalso.
      refine (proj1 (Forall_forall (λ t : string, t ≠ "-write=false") _) _ _ Hin eq_refl).
      no_token.
    + intros ->. has_token.
  - split.
    + intros Hin. destruct (fmt_diff a); [done|]. exfalso.
      refine (proj1 (Forall_forall (λ t : string, t ≠ "-diff") _) _ _ Hin eq_refl).
      no_token.
    + intros ->. has_token.
  - split.
    + intros Hin. destruct (fmt_check a); [done|]. exfalso.
      refine (proj1 (Forall_forall (λ t : string, t ≠ "-check") _) _ _ Hin eq_refl).
      no_token.
    + intros ->. has_token.
  - split.
    + intros Hin. destruct (fmt_recursive a); [done|]. exfalso.
      refine (proj1 (Forall_forall (λ t : string, t ≠ "-recursive") _) _ _ Hin eq_refl).
      no_token.
    + intros ->. has_token.
  - intros Hin.
    refine (proj1 (Forall_forall (λ t : string, t ≠ "-list=true") _) _ _ Hin eq_refl).
    no_token.
  - intros Hin.
    refine (proj1 (Forall_forall (λ t : string, t ≠ "-write=true") _) _ _ Hin eq_refl).
    no_token.
Qed.
